(** * superstack: evaluation and prioritization of context modules

    A shallow embedding of the decision logic of the repository's Python
    sources, one Rocq module per source file:

    - [Evaluator]         scripts/context/evaluator.py
    - [ContextEvaluator]  scripts/context/context_evaluator.py
    - [FeedbackSystem]    feedback_system.py
    - [Feedback]          scripts/context/feedback.py
    - [ContextFeedback]   scripts/context/context_feedback.py

    Conventions.  Python floats are modelled by exact rationals [Q]; Python
    ints by [Z]; [str] by [string] (ASCII content).  A Python exception is a
    value of [exc]; a [try]/[except] is a [match] on it.  The wall clock,
    [uuid4] and the failures of the storage layer are inputs of the
    functions that consult them. *)

From Stdlib Require Import List String Ascii Bool Arith ZArith QArith Qround Lia Lqa.
From Stdlib Require Import Sorted Permutation.
Import ListNotations.

Local Open Scope string_scope.
Local Open Scope Z_scope.
Local Open Scope Q_scope.

(** ** Python values and exceptions *)

Module Py.

(** The exception classes the modelled code can meet. *)
Inductive exn : Type :=
| ZeroDivisionError
| CalledProcessError (msg : string)   (* subprocess.run(..., check=True) *)
| JSONDecodeError (msg : string)      (* json.loads *)
| ReError (msg : string)              (* raised inside the re module *)
| SqliteError (msg : string).         (* sqlite3.Error and its subclasses *)

(** [str(e)] *)
Definition str_of_exn (e : exn) : string :=
  match e with
  | ZeroDivisionError => "division by zero"
  | CalledProcessError m => m
  | JSONDecodeError m => m
  | ReError m => m
  | SqliteError m => m
  end.

Inductive exc (A : Type) : Type :=
| Ok (a : A)
| Raise (e : exn).
Arguments Ok {A} a.
Arguments Raise {A} e.

Definition bind {A B} (m : exc A) (k : A -> exc B) : exc B :=
  match m with
  | Ok a => k a
  | Raise e => Raise e
  end.

(** [x > y] and [x < y] on numbers. *)
Definition Qlt_bool (x y : Q) : bool := negb (Qle_bool y x).
Definition gt (x y : Q) : bool := Qlt_bool y x.
Definition lt (x y : Q) : bool := Qlt_bool x y.

(** True division [x / y]: raises [ZeroDivisionError] on a zero divisor. *)
Definition div (x y : Q) : exc Q :=
  if Qeq_bool y 0 then Raise ZeroDivisionError else Ok (x / y).

(** [round(x, 2)]: nearest multiple of 1/100, ties to the even one. *)
Definition round_half_even (x : Q) : Z :=
  let f := Qfloor x in
  let r := x - inject_Z f in
  if Qlt_bool r (1 # 2) then f
  else if Qlt_bool (1 # 2) r then (f + 1)%Z
  else if Z.even f then f else (f + 1)%Z.

Definition round2 (x : Q) : Q := inject_Z (round_half_even (x * 100)) / 100.

End Py.

Notation "x <- m ;; k" := (Py.bind m (fun x => k))
  (at level 61, m at next level, right associativity).

Import Py.

(** ** Strings: the [str] methods the sources use *)

Module Str.

Definition code (c : ascii) : nat := nat_of_ascii c.

Definition between (lo hi : nat) (c : ascii) : bool :=
  ((lo <=? code c) && (code c <=? hi))%nat.

Definition is_upper : ascii -> bool := between 65 90.      (* [A-Z] *)
Definition is_lower : ascii -> bool := between 97 122.     (* [a-z] *)
Definition is_digit : ascii -> bool := between 48 57.      (* [0-9] *)
Definition is_alpha (c : ascii) : bool := is_upper c || is_lower c.
Definition is_alnum (c : ascii) : bool := is_alpha c || is_digit c.
(** [\w] on ASCII text: [a-zA-Z0-9_] *)
Definition is_word (c : ascii) : bool := is_alnum c || (code c =? 95)%nat.
(** [\s] and [str.isspace] on ASCII text: tab to carriage return, the four
    separators 28..31, and the space. *)
Definition is_space (c : ascii) : bool :=
  between 9 13 c || between 28 31 c || (code c =? 32)%nat.

Definition newline : ascii := ascii_of_nat 10.
Definition dquote : ascii := ascii_of_nat 34.
Definition backtick : ascii := ascii_of_nat 96.

Definition lower_char (c : ascii) : ascii :=
  if is_upper c then ascii_of_nat (code c + 32) else c.

(** [s.lower()] *)
Fixpoint lower (s : string) : string :=
  match s with
  | EmptyString => EmptyString
  | String c s' => String (lower_char c) (lower s')
  end.

Fixpoint lstrip (s : string) : string :=
  match s with
  | EmptyString => EmptyString
  | String c s' => if is_space c then lstrip s' else s
  end.

(** Drops the trailing whitespace: a character is kept when it is not a
    space or when something is kept after it. *)
Fixpoint rstrip (s : string) : string :=
  match s with
  | EmptyString => EmptyString
  | String c s' =>
      match rstrip s' with
      | EmptyString => if is_space c then EmptyString else String c EmptyString
      | t => String c t
      end
  end.

(** [s.strip()] *)
Definition strip (s : string) : string := rstrip (lstrip s).

(** [sub in s] *)
Fixpoint contains (sub s : string) : bool :=
  if String.prefix sub s then true
  else match s with
       | EmptyString => false
       | String _ s' => contains sub s'
       end.

(** [s.split(sep)] for a one-character separator: [cur] holds the field
    being read, reversed. *)
Fixpoint split_aux (sep : ascii) (s : string) (cur : list ascii) : list string :=
  match s with
  | EmptyString => [string_of_list_ascii (rev cur)]
  | String c s' =>
      if Ascii.eqb c sep then string_of_list_ascii (rev cur) :: split_aux sep s' []
      else split_aux sep s' (c :: cur)
  end.

Definition split (sep : ascii) (s : string) : list string := split_aux sep s [].

(** [xs[:n]] for any integer [n]: a negative [n] counts from the end. *)
Definition slice_to {A} (n : Z) (xs : list A) : list A :=
  if (0 <=? n)%Z then firstn (Z.to_nat n) xs
  else firstn (List.length xs - Z.to_nat (- n)) xs.

End Str.

(** ** Regular expressions: the fragment of [re] the sources use *)

Module Re.
Import Str.

Inductive re : Type :=
| Eps
| Char (p : ascii -> bool)     (* one character of a class *)
| Seq (r1 r2 : re)
| Star (r : re)                (* r*  greedy *)
| LazyStar (r : re)            (* r*? *)
| Group (i : nat) (r : re)     (* capturing group number i *)
| NotAhead (r : re)            (* (?!r) *)
| WordBoundary.                (* \b *)

Definition Plus (r : re) : re := Seq r (Star r).

Definition Is (c : ascii) : re := Char (Ascii.eqb c).
Definition IsNot (c : ascii) : re := Char (fun x => negb (Ascii.eqb c x)).
Definition AnyChar : re := Char (fun _ => true).     (* . under re.DOTALL *)

Fixpoint Lit (s : string) : re :=
  match s with
  | EmptyString => Eps
  | String c s' => Seq (Is c) (Lit s')
  end.

(** The matcher's position: [prev] is the character before it (for \b),
    [rest] the text from it on, [groups] the groups closed so far. *)
Record state : Type := {
  pos : nat;
  prev : option ascii;
  rest : list ascii;
  groups : list (nat * string)
}.

Definition word_at (o : option ascii) : bool :=
  match o with
  | Some c => is_word c
  | None => false
  end.

Definition at_boundary (st : state) : bool :=
  xorb (word_at (prev st)) (word_at (hd_error (rest st))).

Definition matcher : Type := state -> (state -> option state) -> option state.

(** Greedy repetition: one more round of [step] first, the continuation
    when that fails.  A round must consume; [n] bounds the rounds by the
    length of the text left. *)
Fixpoint star (step : matcher) (n : nat) (st : state)
    (k : state -> option state) : option state :=
  match n with
  | O => k st
  | S n' =>
      match step st (fun st' =>
              if (pos st <? pos st')%nat then star step n' st' k else None) with
      | Some r => Some r
      | None => k st
      end
  end.

(** Lazy repetition: the continuation first. *)
Fixpoint lazy_star (step : matcher) (n : nat) (st : state)
    (k : state -> option state) : option state :=
  match k st with
  | Some r => Some r
  | None =>
      match n with
      | O => None
      | S n' =>
          step st (fun st' =>
            if (pos st <? pos st')%nat then lazy_star step n' st' k else None)
      end
  end.

(** Backtracking matcher, in continuation-passing style: [run r st k] is
    the first way, in the order Python's engine tries them, to match [r]
    at [st] and have [k] accept what follows. *)
Fixpoint run (r : re) : matcher :=
  match r with
  | Eps => fun st k => k st
  | Char p => fun st k =>
      match rest st with
      | c :: tl =>
          if p c then
            k {| pos := S (pos st); prev := Some c; rest := tl;
                 groups := groups st |}
          else None
      | [] => None
      end
  | Seq r1 r2 => fun st k => run r1 st (fun st' => run r2 st' k)
  | Star r' => fun st k => star (run r') (List.length (rest st)) st k
  | LazyStar r' => fun st k => lazy_star (run r') (List.length (rest st)) st k
  | Group i r' => fun st k =>
      run r' st (fun st' =>
        k {| pos := pos st'; prev := prev st'; rest := rest st';
             groups := (i, string_of_list_ascii
                             (firstn (pos st' - pos st) (rest st)))
                       :: groups st' |})
  | NotAhead r' => fun st k =>
      match run r' st Some with
      | Some _ => None
      | None => k st
      end
  | WordBoundary => fun st k => if at_boundary st then k st else None
  end.

Record found : Type := {
  m_start : nat;
  m_text : string;                 (* group 0 *)
  m_groups : list (nat * string)
}.

(** [m.group(i)] *)
Fixpoint group_of (i : nat) (gs : list (nat * string)) : string :=
  match gs with
  | [] => ""
  | (j, s) :: gs' => if (i =? j)%nat then s else group_of i gs'
  end.

Definition group (i : nat) (m : found) : string :=
  match i with
  | O => m_text m
  | _ => group_of i (m_groups m)
  end.

(** Left-to-right scan for non-overlapping matches; [skip] counts the
    characters of the last match still to step over.  The patterns of the
    sources match no empty string. *)
Fixpoint scan (r : re) (p : nat) (pv : option ascii) (s : list ascii)
    (skip : nat) : list found :=
  match s with
  | [] => []
  | c :: tl =>
      match skip with
      | S j => scan r (S p) (Some c) tl j
      | O =>
          match run r {| pos := p; prev := pv; rest := s; groups := [] |} Some with
          | Some st' =>
              {| m_start := p;
                 m_text := string_of_list_ascii (firstn (pos st' - p) s);
                 m_groups := groups st' |}
              :: scan r (S p) (Some c) tl (pos st' - p - 1)
          | None => scan r (S p) (Some c) tl 0
          end
      end
  end.

(** [pattern.finditer(s)] *)
Definition finditer (r : re) (s : string) : list found :=
  scan r 0 None (list_ascii_of_string s) 0.

(** [re.findall(pattern, s)] for a pattern with no group or with one. *)
Definition findall0 (r : re) (s : string) : list string :=
  map m_text (finditer r s).
Definition findall1 (r : re) (s : string) : list string :=
  map (group 1) (finditer r s).

End Re.

Import Str Re.

(** ** scripts/context/utils.py *)

Module Utils.

(** The index of the last occurrence of a character: [s.rfind(c)]. *)
Fixpoint rfind (c : ascii) (s : list ascii) : option nat :=
  match s with
  | [] => None
  | x :: s' =>
      match rfind c s' with
      | Some i => Some (S i)
      | None => if Ascii.eqb x c then Some 0%nat else None
      end
  end.

(** [os.path.basename(p)]: what follows the last slash. *)
Definition basename (p : list ascii) : list ascii :=
  match rfind "/"%char p with
  | Some i => skipn (S i) p
  | None => p
  end.

(** [os.path.splitext(p)[0]] for a [p] without slash: [p] up to its last
    dot, when a character other than a dot comes before that dot; [p]
    itself otherwise. *)
Definition splitext_root (p : list ascii) : list ascii :=
  match rfind "."%char p with
  | Some i =>
      if existsb (fun c => negb (Ascii.eqb c "."%char)) (firstn i p)
      then firstn i p else p
  | None => p
  end.

(** [extract_module_name(file_path)] *)
Definition extract_module_name (file_path : string) : string :=
  string_of_list_ascii (splitext_root (basename (list_ascii_of_string file_path))).

(** The class of characters that [safe_filename] replaces: the backslash,
    the slash, the star, the question mark, the colon, the double quote,
    the angle brackets and the bar. *)
Definition unsafe (c : ascii) : bool :=
  existsb (Ascii.eqb c)
    [ascii_of_nat 92; "/"%char; "*"%char; "?"%char; ":"%char; dquote;
     "<"%char; ">"%char; "|"%char].

(** [safe_filename(name)]: every unsafe character becomes an underscore. *)
Fixpoint safe_filename (name : string) : string :=
  match name with
  | EmptyString => EmptyString
  | String c name' => String (if unsafe c then "_"%char else c) (safe_filename name')
  end.

(** The pattern <context>(.*?)</context>, compiled with re.DOTALL. *)
Definition context_pattern : re :=
  Seq (Lit "<context>") (Seq (Group 1 (LazyStar AnyChar)) (Lit "</context>")).

(** [extract_context_blocks(content)] *)
Definition extract_context_blocks (content : string) : list string :=
  map strip (findall1 context_pattern content).

End Utils.

(** ** Sorting as [list.sort] and ORDER BY do it *)

Module Sort.

Section By.
Context {A : Type}.
Variable before : A -> A -> bool.

(** [x] goes in front of the first element it may stand before. *)
Fixpoint insert (x : A) (l : list A) : list A :=
  match l with
  | [] => [x]
  | y :: l' => if before x y then x :: l else y :: insert x l'
  end.

(** A stable sort: elements neither of which must come first keep the
    order they had. *)
Definition sort (l : list A) : list A := fold_right insert [] l.

End By.

(** [xs[:limit]] in Python for a limit that is no integer below 0, and
    LIMIT in SQLite, where a negative limit means no limit. *)
Definition sql_limit {A} (limit : Z) (l : list A) : list A :=
  if (limit <? 0)%Z then l else firstn (Z.to_nat limit) l.

End Sort.

(** ** Test cases handed to PromptFoo *)

Module Probe.

(** The "value" of an assertion: a string or a list of strings. *)
Inductive value : Type :=
| VStr (s : string)
| VList (l : list string).

Record assertion : Type := {
  a_type : string;
  a_value : value;
  a_description : option string
}.

(** A test case: its "vars" dict, one key, and its "assert" list. *)
Record test_case : Type := {
  vars : list (string * string);
  asserts : list assertion
}.

(** [{"type": "javascript", "value": v}] *)
Definition javascript (v : string) : assertion :=
  {| a_type := "javascript"; a_value := VStr v; a_description := None |}.

End Probe.

Import Probe.

(** ** scripts/context/evaluator.py *)

Module Evaluator.

(** *** Scoring and classification *)

(** One entry of a test's "promptResults": [prompt.name] and [success],
    with the defaults of the [.get] calls applied. *)
Record prompt_result : Type := {
  prompt_name : string;
  success : bool
}.

(** One entry of "results": its "promptResults" list. *)
Definition test_result : Type := list prompt_result.

(** What the PromptFoo subprocess did. *)
Inductive judge_outcome : Type :=
| ProcessFailed (msg : string)          (* non-zero exit: CalledProcessError *)
| UnparsableOutput (msg : string)       (* json.loads raised JSONDecodeError *)
| Parsed (results : option (list test_result)).   (* None: no "results" key *)

(** [scores[version]] *)
Record version_scores : Type := {
  total : Z;
  passed : Z;
  score : Q
}.

Record scores : Type := {
  original : version_scores;
  optimized : version_scores
}.

Definition empty_scores : scores :=
  {| original := {| total := 0; passed := 0; score := 0 |};
     optimized := {| total := 0; passed := 0; score := 0 |} |}.

Definition count (pr : prompt_result) (v : version_scores) : version_scores :=
  {| total := (total v + 1)%Z;
     passed := if success pr then (passed v + 1)%Z else passed v;
     score := score v |}.

(** Body of the inner loop of [run_evaluation]. *)
Definition tally_prompt (s : scores) (pr : prompt_result) : scores :=
  if String.eqb (prompt_name pr) "original" then
    {| original := count pr (original s); optimized := optimized s |}
  else if String.eqb (prompt_name pr) "optimized" then
    {| original := original s; optimized := count pr (optimized s) |}
  else s.

Definition tally_test (s : scores) (t : test_result) : scores :=
  fold_left tally_prompt t s.

Definition tally (rs : list test_result) : scores :=
  fold_left tally_test rs empty_scores.

(** "Calculate percentage scores". *)
Definition percentage (v : version_scores) : exc version_scores :=
  if (0 <? total v)%Z then
    q <- div (inject_Z (passed v)) (inject_Z (total v)) ;;
    Ok {| total := total v; passed := passed v; score := q * 100 |}
  else Ok v.

(** "Calculate improvement". *)
Definition improvement_of (orig opt : Q) : exc Q :=
  if gt orig 0 then
    q <- div (opt - orig) orig ;;
    Ok (q * 100)
  else Ok 0.

Record evaluation : Type := {
  ev_scores : scores;
  ev_improvement : Q
}.

Inductive eval_result : Type :=
| EvalSuccess (e : evaluation)
| EvalFailure (error : string).

Definition evaluate_output (results : option (list test_result)) : exc evaluation :=
  let s := match results with
           | Some rs => tally rs
           | None => empty_scores
           end in
  o <- percentage (original s) ;;
  p <- percentage (optimized s) ;;
  i <- improvement_of (score o) (score p) ;;
  Ok {| ev_scores := {| original := o; optimized := p |}; ev_improvement := i |}.

Definition run_evaluation (j : judge_outcome) : eval_result :=
  match j with
  | ProcessFailed m => EvalFailure ("Evaluation process failed: " ++ m)
  | UnparsableOutput m => EvalFailure ("Error parsing evaluation output: " ++ m)
  | Parsed results =>
      match evaluate_output results with
      | Ok e => EvalSuccess e
      | Raise e => EvalFailure ("Error running evaluation: " ++ str_of_exn e)
      end
  end.

(** "Add recommendation based on improvement". *)
Definition recommend (improvement : Q) : string :=
  if gt improvement 10 then "apply"
  else if lt improvement (-5) then "reject"
  else "neutral".

Record module_results : Type := {
  res_scores : scores;
  res_improvement : Q;
  recommendation : string
}.

Inductive module_result : Type :=
| ModuleSuccess (r : module_results)
| ModuleFailure (error : string).

(** [evaluate_module], from the existence checks on.  [original_exists]
    and [optimized_exists] are what the two [Path.exists()] calls answer
    for the two paths, [j] what the judge subprocess does on the generated
    configuration. *)
Definition evaluate_module (original_path optimized_path : string)
    (original_exists optimized_exists : bool) (j : judge_outcome)
    : module_result :=
  if negb original_exists then
    ModuleFailure ("Original module not found: " ++ original_path)
  else if negb optimized_exists then
    ModuleFailure ("Optimized module not found: " ++ optimized_path)
  else
    match run_evaluation j with
    | EvalFailure err => ModuleFailure err
    | EvalSuccess e =>
        ModuleSuccess {| res_scores := ev_scores e;
                         res_improvement := ev_improvement e;
                         recommendation := recommend (ev_improvement e) |}
    end.

(** *** Test-case generation *)

(** Exceptions the environment raises inside [generate_test_cases]: in the
    regular-expression call of [_extract_context_blocks], in the one of
    [_extract_key_terms], and anywhere else in the [try] body. *)
Record faults : Type := {
  blocks_fault : option exn;
  terms_fault : option exn;
  body_fault : option exn
}.

Definition no_faults : faults :=
  {| blocks_fault := None; terms_fault := None; body_fault := None |}.

(** The pattern  <context\s+name=Q([^Q]+)Q[^>]*>(.*?)</context>  of
    [_extract_context_blocks], Q standing for the double quote, compiled
    with re.DOTALL. *)
Definition context_pattern : re :=
  Seq (Lit "<context")
  (Seq (Plus (Char is_space))
  (Seq (Lit "name=")
  (Seq (Is dquote)
  (Seq (Group 1 (Plus (IsNot dquote)))
  (Seq (Is dquote)
  (Seq (Star (IsNot ">"%char))
  (Seq (Is ">"%char)
  (Seq (Group 2 (LazyStar AnyChar))
       (Lit "</context>"))))))))).

(** [A-Z][a-zA-Z0-9]* *)
Definition upper_word : re := Seq (Char is_upper) (Star (Char is_alnum)).

(** The pattern of [_extract_key_terms], spaced out:
    \b( [A-Z][a-zA-Z0-9]* (?: \s+ [A-Z][a-zA-Z0-9]* )* )\b *)
Definition term_pattern : re :=
  Seq WordBoundary
  (Seq (Group 1 (Seq upper_word (Star (Seq (Plus (Char is_space)) upper_word))))
       WordBoundary).

(** [d[k] = v] on a dict, kept in insertion order: a key already present
    keeps its place. *)
Fixpoint dict_set (d : list (string * string)) (k v : string)
    : list (string * string) :=
  match d with
  | [] => [(k, v)]
  | (k', v') :: d' =>
      if String.eqb k' k then (k, v) :: d' else (k', v') :: dict_set d' k v
  end.

Definition _extract_context_blocks (fault : option exn) (content : string)
    : list (string * string) :=
  match fault with
  | Some _ => []                      (* logged; the dict is still empty *)
  | None =>
      fold_left (fun d m => dict_set d (group 1 m) (strip (group 2 m)))
                (finditer context_pattern content) []
  end.

(** [x in xs] on strings. *)
Definition mem (x : string) (xs : list string) : bool :=
  existsb (String.eqb x) xs.

Definition stop_words : list string := ["this"; "that"; "the"; "and"; "for"].

(** The [for term in matches] loop of [_extract_key_terms]. *)
Fixpoint key_terms_loop (max_terms : Z) (matches key_terms seen : list string)
    : list string :=
  match matches with
  | [] => key_terms
  | term :: rest =>
      if (3 <? String.length term)%nat && negb (mem term seen)
         && negb (mem (lower term) stop_words)
      then
        let key_terms' := (key_terms ++ [term])%list in
        if (max_terms <=? Z.of_nat (List.length key_terms'))%Z then key_terms'
        else key_terms_loop max_terms rest key_terms' (term :: seen)
      else key_terms_loop max_terms rest key_terms seen
  end.

Definition _extract_key_terms (fault : option exn) (content : string)
    (max_terms : Z) : list string :=
  match fault with
  | Some _ => []
  | None => key_terms_loop max_terms (findall1 term_pattern content) [] []
  end.

Definition generic_test_cases : list test_case :=
  [ {| vars := [("query", "Explain the main concepts in this document")];
       asserts := [javascript "output.length > 50"] |};
    {| vars := [("query", "What are the key features described in this module?")];
       asserts := [javascript "output.length > 50"] |} ].

Definition padding_test_case : test_case :=
  {| vars := [("query", "How would you implement the functionality described in this module?")];
     asserts := [javascript "output.length > 50"] |}.

Definition fallback_test_cases : list test_case :=
  [ {| vars := [("query", "Summarize the key points in this module")];
       asserts := [javascript "output.length > 50"] |} ].

Definition related (term name block : string) : bool :=
  contains (lower term) (lower block) || contains (lower term) (lower name).

Definition block_test_case (key_terms : list string) (nb : string * string)
    : test_case :=
  let (name, block) := nb in
  {| vars := [("query", "What is the purpose of " ++ name ++ "? Explain it in detail.")];
     asserts :=
       javascript "output.length > 100"
       :: map (fun term => {| a_type := "contains"; a_value := VStr term;
                              a_description := None |})
              (filter (fun term => related term name block)
                      (slice_to 3 key_terms)) |}.

(** [while len(test_cases) < num_cases: test_cases.append(...)] *)
Definition pad (num_cases : Z) (test_cases : list test_case) : list test_case :=
  (test_cases
   ++ repeat padding_test_case
        (Z.to_nat (num_cases - Z.of_nat (List.length test_cases))))%list.

(** The [try] body of [generate_test_cases]. *)
Definition generate_body (f : faults) (module_content : string) (num_cases : Z)
    : exc (list test_case) :=
  match body_fault f with
  | Some e => Raise e
  | None =>
      match _extract_context_blocks (blocks_fault f) module_content with
      | [] => Ok generic_test_cases
      | context_blocks =>
          let key_terms := _extract_key_terms (terms_fault f) module_content 10 in
          Ok (pad num_cases
                (map (block_test_case key_terms)
                     (slice_to num_cases context_blocks)))
      end
  end.

(** [generate_test_cases(module_content, num_cases=5)] *)
Definition generate_test_cases (f : faults) (module_content : string)
    (num_cases : Z) : list test_case :=
  match generate_body f module_content num_cases with
  | Ok test_cases => test_cases
  | Raise _ => fallback_test_cases
  end.

(** *** Batch evaluation *)

(** [module_info] and the entries of "failed". *)
Record module_info : Type := {
  mi_module_name : string;
  mi_path : string;
  mi_improvement : Q
}.

Record failed_info : Type := {
  fi_module_name : string;
  fi_path : string;
  fi_error : string
}.

(** The [results] dict of [batch_evaluate]; "modules", the list of the
    result dicts themselves, is [bt_modules]. *)
Record batch : Type := {
  bt_total : Z;
  bt_evaluated : Z;
  bt_improved : list module_info;
  bt_regressed : list module_info;
  bt_neutral : list module_info;
  bt_failed : list failed_info;
  bt_average_improvement : Q;
  bt_modules : list module_result
}.

Inductive batch_result : Type :=
| BatchSuccess (b : batch)
| BatchFailure (error : string).

(** The state of the loop: the dict and [total_improvement]. *)
Definition batch_state : Type := (batch * Q)%type.

(** What one call [self.evaluate_module(module_path)] hands back: the
    "module_name" entry of a successful result, and the result. *)
Definition module_report : Type := (string * module_result)%type.

(** The body of the loop for one module path, [report] being what
    [self.evaluate_module(module_path)] returned. *)
Definition batch_step (st : batch_state) (module_path : string)
    (report : module_report) : batch_state :=
  let (b, total_improvement) := st in
  let (module_name, eval_result) := report in
  match eval_result with
  | ModuleSuccess r =>
      let improvement := res_improvement r in
      let info := {| mi_module_name := module_name; mi_path := module_path;
                     mi_improvement := improvement |} in
      ({| bt_total := bt_total b;
          bt_evaluated := (bt_evaluated b + 1)%Z;
          bt_improved := if gt improvement 10
                         then (bt_improved b ++ [info])%list else bt_improved b;
          bt_regressed := if gt improvement 10 then bt_regressed b
                          else if lt improvement (-5)
                          then (bt_regressed b ++ [info])%list else bt_regressed b;
          bt_neutral := if gt improvement 10 then bt_neutral b
                        else if lt improvement (-5) then bt_neutral b
                        else (bt_neutral b ++ [info])%list;
          bt_failed := bt_failed b;
          bt_average_improvement := bt_average_improvement b;
          bt_modules := (bt_modules b ++ [eval_result])%list |},
       total_improvement + improvement)
  | ModuleFailure err =>
      ({| bt_total := bt_total b;
          bt_evaluated := bt_evaluated b;
          bt_improved := bt_improved b;
          bt_regressed := bt_regressed b;
          bt_neutral := bt_neutral b;
          bt_failed :=
            (bt_failed b
             ++ [{| fi_module_name := Utils.extract_module_name module_path;
                    fi_path := module_path; fi_error := err |}])%list;
          bt_average_improvement := bt_average_improvement b;
          bt_modules := (bt_modules b ++ [eval_result])%list |},
       total_improvement)
  end.

(** [for module_path in module_paths].  The [n]-th call of
    [self.evaluate_module] returns [evaluate_module n module_path]: the
    files and the judge may answer differently from one call to the next. *)
Fixpoint batch_loop (evaluate_module : nat -> string -> module_report)
    (n : nat) (module_paths : list string) (st : batch_state) : batch_state :=
  match module_paths with
  | [] => st
  | module_path :: rest =>
      batch_loop evaluate_module (S n) rest
        (batch_step st module_path (evaluate_module n module_path))
  end.

(** "Calculate average improvement". *)
Definition batch_average (st : batch_state) : exc batch :=
  let (b, total_improvement) := st in
  if (0 <? bt_evaluated b)%Z then
    avg <- div total_improvement (inject_Z (bt_evaluated b)) ;;
    Ok {| bt_total := bt_total b; bt_evaluated := bt_evaluated b;
          bt_improved := bt_improved b; bt_regressed := bt_regressed b;
          bt_neutral := bt_neutral b; bt_failed := bt_failed b;
          bt_average_improvement := avg; bt_modules := bt_modules b |}
  else Ok b.

Definition batch_start (module_paths : list string) : batch_state :=
  ({| bt_total := Z.of_nat (List.length module_paths); bt_evaluated := 0;
      bt_improved := []; bt_regressed := []; bt_neutral := [];
      bt_failed := []; bt_average_improvement := 0; bt_modules := [] |},
   0).

(** [batch_evaluate(module_paths)], the saving of the results apart.  An
    absent [module_paths] is the empty list ([if not module_paths] does
    not tell them apart); [list_modules] is what
    [self.optimizer.list_modules()] answers.  The function has no [try]:
    an exception of its body reaches the caller. *)
Definition batch_evaluate (list_modules : list string)
    (evaluate_module : nat -> string -> module_report)
    (module_paths : list string) : exc batch_result :=
  let module_paths :=
    match module_paths with
    | [] => list_modules
    | _ => module_paths
    end in
  match module_paths with
  | [] => Ok (BatchFailure "No modules found to evaluate")
  | _ =>
      b <- batch_average
             (batch_loop evaluate_module 0 module_paths (batch_start module_paths)) ;;
      Ok (BatchSuccess b)
  end.

End Evaluator.

(** ** scripts/context/context_evaluator.py *)

Module ContextEvaluator.

(** *** Test-case generation *)

(** Three backticks, "context", a newline, a lazily matched body, a
    newline and three backticks; compiled with re.DOTALL. *)
Definition context_block_pattern : re :=
  Seq (Lit "```context")
  (Seq (Is newline)
  (Seq (Group 1 (LazyStar AnyChar))
  (Seq (Is newline)
       (Lit "```")))).

(** Three backticks, any characters at which no three backticks start,
    three backticks; compiled with re.DOTALL. *)
Definition code_block_pattern : re :=
  Seq (Lit "```")
  (Seq (Star (Seq (NotAhead (Lit "```")) AnyChar))
       (Lit "```")).

(** \b( [A-Za-z][A-Za-z0-9_]* )\b *)
Definition identifier_pattern : re :=
  Seq WordBoundary
  (Seq (Group 1 (Seq (Char is_alpha) (Star (Char is_word))))
       WordBoundary).

(** \b( [A-Z][A-Za-z0-9_]* )\b *)
Definition capitalized_pattern : re :=
  Seq WordBoundary
  (Seq (Group 1 (Seq (Char is_upper) (Star (Char is_word))))
       WordBoundary).

(** A backtick, one or more characters other than a backtick, a backtick. *)
Definition backtick_pattern : re :=
  Seq (Is backtick)
  (Seq (Group 1 (Plus (IsNot backtick)))
       (Is backtick)).

Definition long_term (t : string) : bool := (3 <? String.length t)%nat.

(** The distinct elements of a list, each at its first occurrence. *)
Fixpoint distinct (seen xs : list string) : list string :=
  match xs with
  | [] => []
  | x :: xs' =>
      if existsb (String.eqb x) seen then distinct seen xs'
      else x :: distinct (x :: seen) xs'
  end.

(** The list [technical_terms] of [_extract_key_terms]. *)
Definition technical_terms (content : string) : list string :=
  let code_blocks := findall0 code_block_pattern content in
  let from_code :=
    flat_map (fun block => filter long_term (findall1 identifier_pattern block))
             code_blocks in
  let cap_terms := findall1 capitalized_pattern content in
  let backtick_terms := findall1 backtick_pattern content in
  (from_code ++ filter long_term cap_terms ++ backtick_terms)%list.

(** [_extract_key_terms].  [list(set(technical_terms))] lists the distinct
    terms in the iteration order of a set of strings, which depends on the
    interpreter's string hashing: [set_order] is that order, applied to
    the distinct terms. *)
Definition _extract_key_terms (set_order : list string -> list string)
    (content : string) : list string :=
  let unique_terms := set_order (distinct [] (technical_terms content)) in
  firstn 10 unique_terms.

Definition default_prompts : list string :=
  [ "What is the main purpose of this module?";
    "Give me an example of how to use this information.";
    "Explain the key concepts from this module." ].

Definition block_prompts (blocks : list string) : list string :=
  flat_map (fun block =>
              match split newline (strip block) with
              | topic :: _ :: _ :: _ => ["Explain " ++ topic ++ " in detail."]
              | _ => []
              end) blocks.

(** [while len(prompts) < num_tests: prompts.append(...)] *)
Definition pad (num_tests : Z) (prompts : list string) : list string :=
  (prompts
   ++ repeat "What are the key points from this context module?"
        (Z.to_nat (num_tests - Z.of_nat (List.length prompts))))%list.

Definition test_case_of (key_terms : list string) (prompt : string) : test_case :=
  {| vars := [("userPrompt", prompt)];
     asserts :=
       [ {| a_type := "contains-any";
            a_value := VList (slice_to 5 key_terms);
            a_description := Some "Response contains key technical terms" |};
         {| a_type := "javascript";
            a_value := VStr "outputs[0].length > 50 && outputs[0].length < 3000";
            a_description := Some "Response has reasonable length" |};
         {| a_type := "not-contains-any";
            a_value := VList ["As an AI"; "I don't have"; "I cannot"; "I'm unable"];
            a_description := Some "Response avoids AI self-references" |} ] |}.

Definition fallback_test_cases : list test_case :=
  [ {| vars := [("userPrompt", "What is the main purpose of this module?")];
       asserts :=
         [ {| a_type := "javascript";
              a_value := VStr "outputs[0].length > 50";
              a_description := Some "Response has reasonable length" |} ] |} ].

(** The [try] body of [generate_test_cases]; [fault] is an exception the
    environment raises inside it. *)
Definition generate_body (set_order : list string -> list string)
    (fault : option exn) (module_content : string) (num_tests : Z)
    : exc (list test_case) :=
  match fault with
  | Some e => Raise e
  | None =>
      let context_blocks := findall1 context_block_pattern module_content in
      let prompts :=
        match context_blocks with
        | [] => default_prompts
        | _ => pad num_tests (block_prompts (slice_to num_tests context_blocks))
        end in
      let key_terms := _extract_key_terms set_order module_content in
      Ok (map (test_case_of key_terms) (slice_to num_tests prompts))
  end.

(** [generate_test_cases(module_content, num_tests=3)] *)
Definition generate_test_cases (set_order : list string -> list string)
    (fault : option exn) (module_content : string) (num_tests : Z)
    : list test_case :=
  match generate_body set_order fault module_content num_tests with
  | Ok test_cases => test_cases
  | Raise _ => fallback_test_cases
  end.

(** *** Scoring *)

(** One entry of "promptResults": the name of its prompt and, for each
    of its assertions, whether it passed. *)
Record prompt_result : Type := {
  prompt_name : string;
  assertion : list bool
}.

Definition test_result : Type := list prompt_result.

(** What the PromptFoo run left behind. *)
Inductive judge_outcome : Type :=
| NonZeroExit (stderr : string)
| NoResultFile
| Unreadable (e : exn)                    (* raised while running or loading *)
| ResultFile (results : list test_result).

(** [score / total if total > 0 else 0] *)
Definition pass_ratio (pr : prompt_result) : exc Q :=
  let score := Z.of_nat (List.length (filter (fun a => a) (assertion pr))) in
  let total := Z.of_nat (List.length (assertion pr)) in
  if (0 <? total)%Z then div (inject_Z score) (inject_Z total) else Ok 0.

(** Body of the inner loop: the pair is (original_score, optimized_score). *)
Definition add_prompt (acc : exc (Q * Q)) (pr : prompt_result) : exc (Q * Q) :=
  s <- acc ;;
  r <- pass_ratio pr ;;
  if String.eqb (prompt_name pr) "Original" then Ok (fst s + r, snd s)
  else if String.eqb (prompt_name pr) "Optimized" then Ok (fst s, snd s + r)
  else Ok s.

Definition add_test (acc : exc (Q * Q)) (t : test_result) : exc (Q * Q) :=
  fold_left add_prompt t acc.

(** [x / total_tests * 100 if total_tests > 0 else 0] *)
Definition normalize (x : Q) (total_tests : Z) : exc Q :=
  if (0 <? total_tests)%Z then
    q <- div x (inject_Z total_tests) ;; Ok (q * 100)
  else Ok 0.

(** [(improvement / original_score * 100) if original_score > 0 else 0] *)
Definition improvement_percent_of (improvement original_score : Q) : exc Q :=
  if gt original_score 0 then
    q <- div improvement original_score ;; Ok (q * 100)
  else Ok 0.

Record evaluation : Type := {
  original_score : Q;
  optimized_score : Q;
  improvement : Q;
  improvement_percent : Q;
  total_tests : Z
}.

Inductive eval_result : Type :=
| EvalSuccess (e : evaluation)
| EvalFailure (error : string).

Definition score_results (results : list test_result) : exc evaluation :=
  let n := Z.of_nat (List.length results) in
  s <- fold_left add_test results (Ok (0, 0)) ;;
  o <- normalize (fst s) n ;;
  p <- normalize (snd s) n ;;
  let i := p - o in
  ip <- improvement_percent_of i o ;;
  Ok {| original_score := round2 o;
        optimized_score := round2 p;
        improvement := round2 i;
        improvement_percent := round2 ip;
        total_tests := n |}.

Definition run_evaluation (j : judge_outcome) : eval_result :=
  match j with
  | NonZeroExit stderr => EvalFailure stderr
  | NoResultFile => EvalFailure "Evaluation result file not found"
  | Unreadable e => EvalFailure (str_of_exn e)
  | ResultFile [] => EvalFailure "No test results found"
  | ResultFile results =>
      match score_results results with
      | Ok e => EvalSuccess e
      | Raise e => EvalFailure (str_of_exn e)
      end
  end.

(** "Add recommendation" in [evaluate_module]. *)
Definition recommend (improvement : Q) : string :=
  if gt improvement 5 then "apply_optimization"
  else if gt improvement 0 then "consider_optimization"
  else "keep_original".

(** *** Evaluation of one module and of a batch *)

(** The dict [evaluate_module] returns, as far as its callers read it:
    the evaluation and its "recommendation", or the failure. *)
Inductive module_result : Type :=
| ModuleSuccess (e : evaluation) (recommendation : string)
| ModuleFailure (error : string).

(** [evaluate_module(module_name)].  [original_path] is the first file
    the glob finds outside "_optimized" and "_backups", [optimized_exists]
    what [optimized_path.exists()] answers, [fault] an exception raised
    while the module is loaded or the configuration written, [j] what the
    judge does. *)
Definition evaluate_module (module_name : string)
    (original_path : option string) (optimized_path : string)
    (optimized_exists : bool) (fault : option exn) (j : judge_outcome)
    : module_result :=
  match original_path with
  | None => ModuleFailure ("Original module not found: " ++ module_name)
  | Some _ =>
      if negb optimized_exists then
        ModuleFailure ("Optimized module not found: " ++ optimized_path)
      else
        match fault with
        | Some e => ModuleFailure (str_of_exn e)
        | None =>
            match run_evaluation j with
            | EvalSuccess e => ModuleSuccess e (recommend (improvement e))
            | EvalFailure err => ModuleFailure err
            end
        end
  end.

Record improved_module : Type := {
  im_module : string;
  im_improvement : Q;
  im_score : Q
}.

Record regressed_module : Type := {
  rg_module : string;
  rg_regression : Q;
  rg_score : Q
}.

Record unchanged_module : Type := {
  un_module : string;
  un_score : Q
}.

(** The locals of [batch_evaluate] while its loop runs. *)
Record batch_state : Type := {
  results : list module_result;
  improved_modules : list improved_module;
  regressed_modules : list regressed_module;
  unchanged_modules : list unchanged_module;
  failed_modules : list string;
  total_improvement : Q;
  evaluation_count : Z
}.

Definition batch_start : batch_state :=
  {| results := []; improved_modules := []; regressed_modules := [];
     unchanged_modules := []; failed_modules := [];
     total_improvement := 0; evaluation_count := 0 |}.

(** The body of the loop, [result] being what [self.evaluate_module]
    returned for [module_name]. *)
Definition batch_step (st : batch_state) (module_name : string)
    (result : module_result) : batch_state :=
  match result with
  | ModuleFailure _ =>
      {| results := (results st ++ [result])%list;
         improved_modules := improved_modules st;
         regressed_modules := regressed_modules st;
         unchanged_modules := unchanged_modules st;
         failed_modules := (failed_modules st ++ [module_name])%list;
         total_improvement := total_improvement st;
         evaluation_count := evaluation_count st |}
  | ModuleSuccess e _ =>
      let i := improvement e in
      {| results := (results st ++ [result])%list;
         improved_modules :=
           if gt i 1 then
             (improved_modules st
              ++ [{| im_module := module_name; im_improvement := i;
                     im_score := optimized_score e |}])%list
           else improved_modules st;
         regressed_modules :=
           if gt i 1 then regressed_modules st
           else if lt i (-1) then
             (regressed_modules st
              ++ [{| rg_module := module_name; rg_regression := - i;
                     rg_score := optimized_score e |}])%list
           else regressed_modules st;
         unchanged_modules :=
           if gt i 1 then unchanged_modules st
           else if lt i (-1) then unchanged_modules st
           else (unchanged_modules st
                 ++ [{| un_module := module_name;
                        un_score := optimized_score e |}])%list;
         failed_modules := failed_modules st;
         total_improvement := total_improvement st + i;
         evaluation_count := (evaluation_count st + 1)%Z |}
  end.

(** [for module_name in module_names]; the [n]-th call of
    [self.evaluate_module] returns [evaluate_module n module_name]. *)
Fixpoint batch_loop (evaluate_module : nat -> string -> module_result)
    (n : nat) (module_names : list string) (st : batch_state) : batch_state :=
  match module_names with
  | [] => st
  | module_name :: rest =>
      batch_loop evaluate_module (S n) rest
        (batch_step st module_name (evaluate_module n module_name))
  end.

(** [list.sort(key=..., reverse=True)]: the larger key first, entries of
    equal key in the order they had. *)
Definition by_improvement (x y : improved_module) : bool :=
  negb (lt (im_improvement x) (im_improvement y)).

Definition by_regression (x y : regressed_module) : bool :=
  negb (lt (rg_regression x) (rg_regression y)).

(** The dict [batch_evaluate] returns. *)
Record batch : Type := {
  bt_success : bool;
  bt_total : Z;
  bt_successful : Z;
  bt_failed : Z;
  bt_avg_improvement : Q;
  bt_improved_count : Z;
  bt_regressed_count : Z;
  bt_unchanged_count : Z;
  bt_improved_modules : list improved_module;
  bt_regressed_modules : list regressed_module;
  bt_unchanged_modules : list unchanged_module;
  bt_failed_modules : list string
}.

(** [batch_evaluate(module_names)].  [module_names] is [None] when the
    argument is absent; [optimized_modules] is what the glob of the
    "_optimized" directory yields.  The function has no [try]. *)
Definition batch_evaluate (optimized_modules : list string)
    (evaluate_module : nat -> string -> module_result)
    (module_names : option (list string)) : exc batch :=
  let module_names :=
    match module_names with
    | None => optimized_modules
    | Some names =>
        if list_eq_dec string_dec names ["all"] then optimized_modules else names
    end in
  let st := batch_loop evaluate_module 0 module_names batch_start in
  let improved := Sort.sort by_improvement (improved_modules st) in
  let regressed := Sort.sort by_regression (regressed_modules st) in
  avg_improvement <-
    (if (0 <? evaluation_count st)%Z
     then div (total_improvement st) (inject_Z (evaluation_count st))
     else Ok 0) ;;
  Ok {| bt_success := (0 <? evaluation_count st)%Z;
        bt_total := Z.of_nat (List.length (results st));
        bt_successful := evaluation_count st;
        bt_failed := Z.of_nat (List.length (failed_modules st));
        bt_avg_improvement := round2 avg_improvement;
        bt_improved_count := Z.of_nat (List.length improved);
        bt_regressed_count := Z.of_nat (List.length regressed);
        bt_unchanged_count := Z.of_nat (List.length (unchanged_modules st));
        bt_improved_modules := improved;
        bt_regressed_modules := regressed;
        bt_unchanged_modules := unchanged_modules st;
        bt_failed_modules := failed_modules st |}.

End ContextEvaluator.

(** ** feedback_system.py *)

Module FeedbackSystem.

(** A row of table module_feedback; the timestamp column holds
    CURRENT_TIMESTAMP, a text whose order is that of the seconds [Z]
    stands for. *)
Record feedback_row : Type := {
  fb_id : Z;
  fb_module_name : string;
  fb_model_used : string;
  fb_feedback_type : string;
  fb_feedback_detail : option string;
  fb_timestamp : Z;
  fb_session_id : option string
}.

(** A row of table optimization_results. *)
Record optimization_row : Type := {
  opt_id : Z;
  opt_module_name : string;
  opt_target_model : string;
  opt_original_tokens : Z;
  opt_optimized_tokens : Z;
  opt_improvement_percent : Q;
  opt_timestamp : Z;
  is_applied : bool
}.

(** The database file: both tables in rowid order, and for each the
    largest id handed out so far (AUTOINCREMENT). *)
Record database : Type := {
  module_feedback : list feedback_row;
  module_feedback_seq : Z;
  optimization_results : list optimization_row;
  optimization_results_seq : Z
}.

(** The environment of one call: [fault_at k] is the error the storage
    layer raises at the call's [k]-th SQL statement, if any; [time_at k]
    is CURRENT_TIMESTAMP at that statement. *)
Record env : Type := {
  fault_at : nat -> option string;
  time_at : nat -> Z
}.

(** An open connection: the file, the uncommitted copy when a transaction
    is open, and the number of statements run. *)
Record connection : Type := {
  disk : database;
  txn : option database;
  step : nat
}.

(** [sqlite3.connect(self.db_path)] *)
Definition connect (db : database) : connection :=
  {| disk := db; txn := None; step := 0 |}.

(** [conn.close()]: what was not committed is gone. *)
Definition close (c : connection) : database := disk c.

Definition view (c : connection) : database :=
  match txn c with
  | Some w => w
  | None => disk c
  end.

Definition tick (c : connection) : connection :=
  {| disk := disk c; txn := txn c; step := S (step c) |}.

Definition with_txn (c : connection) (w : option database) : connection :=
  {| disk := disk c; txn := w; step := S (step c) |}.

(** One SQL statement: the storage layer may fail it, else [run] decides. *)
Definition statement {A} (e : env) (c : connection)
    (run : exc A * connection) : exc A * connection :=
  match fault_at e (step c) with
  | Some msg => (Raise (SqliteError msg), tick c)
  | None => run
  end.

(** [cursor.execute("BEGIN TRANSACTION")] *)
Definition execute_begin (e : env) (c : connection) : exc unit * connection :=
  statement e c
    match txn c with
    | Some _ =>
        (Raise (SqliteError "cannot start a transaction within a transaction"),
         tick c)
    | None => (Ok tt, with_txn c (Some (disk c)))
    end.

(** [cursor.execute("COMMIT")] *)
Definition execute_commit (e : env) (c : connection) : exc unit * connection :=
  statement e c
    match txn c with
    | Some w => (Ok tt, {| disk := w; txn := None; step := S (step c) |})
    | None =>
        (Raise (SqliteError "cannot commit - no transaction is active"), tick c)
    end.

(** [cursor.execute("ROLLBACK")] *)
Definition execute_rollback (e : env) (c : connection) : exc unit * connection :=
  statement e c
    match txn c with
    | Some _ => (Ok tt, with_txn c None)
    | None =>
        (Raise (SqliteError "cannot rollback - no transaction is active"), tick c)
    end.

(** [conn.commit()]: commits the open transaction, if there is one. *)
Definition commit (e : env) (c : connection) : exc unit * connection :=
  statement e c
    match txn c with
    | Some w => (Ok tt, {| disk := w; txn := None; step := S (step c) |})
    | None => (Ok tt, tick c)
    end.

(** One entry of [feedback_data], as the five [feedback.get(...)] read it:
    [None] for a missing key. *)
Record feedback_dict : Type := {
  module_name : option string;
  model_used : option string;
  feedback_type : option string;
  feedback_detail : option string;
  session_id : option string
}.

(** The INSERT INTO module_feedback statement; the result is
    [cursor.lastrowid].  The sqlite3 module opens a transaction before an
    INSERT when none is open; the three NOT NULL columns reject [None]. *)
Definition execute_insert_feedback (e : env) (c : connection)
    (fb : feedback_dict) : exc Z * connection :=
  statement e c
    (let w := view c in
     match module_name fb, model_used fb, feedback_type fb with
     | Some m, Some u, Some t =>
         let rowid := (module_feedback_seq w + 1)%Z in
         let row := {| fb_id := rowid; fb_module_name := m; fb_model_used := u;
                       fb_feedback_type := t;
                       fb_feedback_detail := feedback_detail fb;
                       fb_timestamp := time_at e (step c);
                       fb_session_id := session_id fb |} in
         (Ok rowid,
          with_txn c
            (Some {| module_feedback := (module_feedback w ++ [row])%list;
                     module_feedback_seq := rowid;
                     optimization_results := optimization_results w;
                     optimization_results_seq := optimization_results_seq w |}))
     | _, _, _ =>
         (Raise (SqliteError "NOT NULL constraint failed"),
          with_txn c (Some w))
     end).

(** The [for feedback in feedback_data] loop of [batch_add_feedback]. *)
Fixpoint insert_all (e : env) (c : connection) (feedback_data : list feedback_dict)
    (feedback_ids : list Z) : exc (list Z) * connection :=
  match feedback_data with
  | [] => (Ok feedback_ids, c)
  | fb :: rest =>
      match execute_insert_feedback e c fb with
      | (Ok rowid, c') => insert_all e c' rest (feedback_ids ++ [rowid])%list
      | (Raise ex, c') => (Raise ex, c')
      end
  end.

(** The [try] block of [batch_add_feedback]. *)
Definition batch_transaction (e : env) (c : connection)
    (feedback_data : list feedback_dict) : exc (list Z) * connection :=
  match execute_begin e c with
  | (Raise ex, c1) => (Raise ex, c1)
  | (Ok _, c1) =>
      match insert_all e c1 feedback_data [] with
      | (Raise ex, c2) => (Raise ex, c2)
      | (Ok feedback_ids, c2) =>
          match execute_commit e c2 with
          | (Raise ex, c3) => (Raise ex, c3)
          | (Ok _, c3) => (Ok feedback_ids, c3)
          end
      end
  end.

(** [batch_add_feedback]: the result, and the database file afterwards. *)
Definition batch_add_feedback (e : env) (db : database)
    (feedback_data : list feedback_dict) : exc (list Z) * database :=
  match batch_transaction e (connect db) feedback_data with
  | (Ok feedback_ids, c) => (Ok feedback_ids, close c)
  | (Raise ex, c) =>
      match execute_rollback e c with
      | (Ok _, c') => (Raise ex, close c')          (* raise e *)
      | (Raise ex', c') => (Raise ex', close c')    (* ROLLBACK raised *)
      end
  end.

(** [add_feedback] *)
Definition add_feedback (e : env) (db : database) (fb : feedback_dict)
    : exc Z * database :=
  match execute_insert_feedback e (connect db) fb with
  | (Raise ex, _) => (Raise ex, db)
  | (Ok feedback_id, c) =>
      match commit e c with
      | (Raise ex, _) => (Raise ex, db)
      | (Ok _, c') => (Ok feedback_id, close c')
      end
  end.

(** The INSERT INTO optimization_results statement of
    [record_optimization]. *)
Definition execute_insert_optimization (e : env) (c : connection)
    (module target : string) (original_tokens optimized_tokens : Z)
    (improvement_percent : Q) (applied : bool) : exc Z * connection :=
  statement e c
    (let w := view c in
     let rowid := (optimization_results_seq w + 1)%Z in
     let row := {| opt_id := rowid; opt_module_name := module;
                   opt_target_model := target;
                   opt_original_tokens := original_tokens;
                   opt_optimized_tokens := optimized_tokens;
                   opt_improvement_percent := improvement_percent;
                   opt_timestamp := time_at e (step c);
                   is_applied := applied |} in
     (Ok rowid,
      with_txn c
        (Some {| module_feedback := module_feedback w;
                 module_feedback_seq := module_feedback_seq w;
                 optimization_results := (optimization_results w ++ [row])%list;
                 optimization_results_seq := rowid |}))).

(** [record_optimization] *)
Definition record_optimization (e : env) (db : database)
    (module target : string) (original_tokens optimized_tokens : Z)
    (improvement_percent : Q) (applied : bool) : exc Z * database :=
  match execute_insert_optimization e (connect db) module target
          original_tokens optimized_tokens improvement_percent applied with
  | (Raise ex, _) => (Raise ex, db)
  | (Ok result_id, c) =>
      match commit e c with
      | (Raise ex, _) => (Raise ex, db)
      | (Ok _, c') => (Ok result_id, close c')
      end
  end.

(** WHERE module_name = ? AND target_model = ? *)
Definition matches (module target : string) (r : optimization_row) : bool :=
  String.eqb (opt_module_name r) module && String.eqb (opt_target_model r) target.

(** The largest timestamp among the rows that satisfy [p]. *)
Fixpoint latest_timestamp (p : optimization_row -> bool)
    (rows : list optimization_row) : option Z :=
  match rows with
  | [] => None
  | r :: rows' =>
      if p r then
        match latest_timestamp p rows' with
        | Some t => Some (Z.max (opt_timestamp r) t)
        | None => Some (opt_timestamp r)
        end
      else latest_timestamp p rows'
  end.

Definition set_applied (r : optimization_row) : optimization_row :=
  {| opt_id := opt_id r; opt_module_name := opt_module_name r;
     opt_target_model := opt_target_model r;
     opt_original_tokens := opt_original_tokens r;
     opt_optimized_tokens := opt_optimized_tokens r;
     opt_improvement_percent := opt_improvement_percent r;
     opt_timestamp := opt_timestamp r;
     is_applied := true |}.

(** SET is_applied = 1 on the first row, in rowid order, that satisfies
    [p] and carries timestamp [t]. *)
Fixpoint apply_first (p : optimization_row -> bool) (t : Z)
    (rows : list optimization_row) : list optimization_row :=
  match rows with
  | [] => []
  | r :: rows' =>
      if p r && (opt_timestamp r =? t)%Z then set_applied r :: rows'
      else r :: apply_first p t rows'
  end.

(** The statement
      UPDATE optimization_results SET is_applied = 1
      WHERE module_name = ? AND target_model = ?
      ORDER BY timestamp DESC LIMIT 1
    and its [cursor.rowcount].  Among rows of equal timestamp SQL leaves
    the choice open; the first in rowid order is taken here. *)
Definition execute_update_applied (e : env) (c : connection)
    (module target : string) : exc Z * connection :=
  statement e c
    (let w := view c in
     match latest_timestamp (matches module target) (optimization_results w) with
     | None => (Ok 0%Z, with_txn c (Some w))
     | Some t =>
         (Ok 1%Z,
          with_txn c
            (Some {| module_feedback := module_feedback w;
                     module_feedback_seq := module_feedback_seq w;
                     optimization_results :=
                       apply_first (matches module target) t
                                   (optimization_results w);
                     optimization_results_seq := optimization_results_seq w |}))
     end).

(** [mark_optimization_applied]: no [try] here, an error of the storage
    layer reaches the caller. *)
Definition mark_optimization_applied (e : env) (db : database)
    (module target : string) : exc bool * database :=
  match execute_update_applied e (connect db) module target with
  | (Raise ex, _) => (Raise ex, db)
  | (Ok rowcount, c) =>
      let success := (0 <? rowcount)%Z in
      match commit e c with
      | (Raise ex, _) => (Raise ex, db)
      | (Ok _, c') => (Ok success, close c')
      end
  end.

(** An environment in which the storage layer never fails. *)
Definition quiet (clock : nat -> Z) : env :=
  {| fault_at := fun _ => None; time_at := clock |}.

(** *** Queries *)

(** WHERE module_name = ? on table module_feedback. *)
Definition of_module (name : string) (r : feedback_row) : bool :=
  String.eqb (fb_module_name r) name.

(** SUM(CASE WHEN feedback_type = ... THEN 1 ELSE 0 END) over rows that
    are not empty. *)
Definition count_type (t : string) (rows : list feedback_row) : Z :=
  Z.of_nat (List.length (filter (fun r => String.eqb (fb_feedback_type r) t) rows)).

(** One row of [get_modules_needing_optimization]. *)
Record module_need : Type := {
  need_module_name : string;
  total_feedback : Z;
  negative_count : Z;
  positive_count : Z;
  negative_ratio : Q
}.

(** The distinct module names of the table: the keys of GROUP BY
    module_name. *)
Definition module_names (rows : list feedback_row) : list string :=
  nodup string_dec (map fb_module_name rows).

(** The row of one group, with the ratio of the outer SELECT:
    CAST(negative_count AS REAL) / total_feedback. *)
Definition feedback_counts (rows : list feedback_row) (name : string)
    : module_need :=
  let mine := filter (of_module name) rows in
  let total := Z.of_nat (List.length mine) in
  let negative := count_type "negative" mine in
  {| need_module_name := name;
     total_feedback := total;
     negative_count := negative;
     positive_count := count_type "positive" mine;
     negative_ratio := inject_Z negative / inject_Z total |}.

(** ORDER BY negative_ratio DESC, total_feedback DESC *)
Definition worse_first (x y : module_need) : bool :=
  gt (negative_ratio x) (negative_ratio y)
  || (Qeq_bool (negative_ratio x) (negative_ratio y)
      && (total_feedback y <=? total_feedback x)%Z).

(** The query of [get_modules_needing_optimization].  SQL leaves open in
    which order rows that tie in ORDER BY come out: [group_order] is the
    order in which the engine produces the groups, and rows that tie keep
    it. *)
Definition select_modules_needing_optimization
    (group_order : list string -> list string) (rows : list feedback_row)
    (threshold : Q) (min_feedback_count limit : Z) : list module_need :=
  let groups := map (feedback_counts rows) (group_order (module_names rows)) in
  let having :=
    filter (fun g => (min_feedback_count <=? total_feedback g)%Z) groups in
  let selected :=
    filter (fun g => negb (lt (negative_ratio g) threshold)) having in
  Sort.sql_limit limit (Sort.sort worse_first selected).

(** [get_modules_needing_optimization(threshold, min_feedback_count,
    limit)]: no [try], an error of the storage layer reaches the caller. *)
Definition get_modules_needing_optimization (e : env)
    (group_order : list string -> list string) (db : database)
    (threshold : Q) (min_feedback_count limit : Z) : exc (list module_need) :=
  let c := connect db in
  fst (statement e c
         (Ok (select_modules_needing_optimization group_order
                (module_feedback (view c)) threshold min_feedback_count limit),
          tick c)).

(** The dict "feedback_stats": COUNT( * ) is 0 over no rows, SUM is NULL,
    Python's [None]. *)
Record feedback_stats : Type := {
  fs_total_feedback : Z;
  fs_negative_count : option Z;
  fs_positive_count : option Z
}.

Definition sum_type (t : string) (rows : list feedback_row) : option Z :=
  match rows with
  | [] => None
  | _ => Some (count_type t rows)
  end.

Definition select_feedback_stats (rows : list feedback_row) (name : string)
    : feedback_stats :=
  let mine := filter (of_module name) rows in
  {| fs_total_feedback := Z.of_nat (List.length mine);
     fs_negative_count := sum_type "negative" mine;
     fs_positive_count := sum_type "positive" mine |}.

(** One entry of "optimization_history". *)
Record history_entry : Type := {
  he_target_model : string;
  he_original_tokens : Z;
  he_optimized_tokens : Z;
  he_improvement_percent : Q;
  he_is_applied : bool;
  he_timestamp : Z
}.

Definition history_entry_of (r : optimization_row) : history_entry :=
  {| he_target_model := opt_target_model r;
     he_original_tokens := opt_original_tokens r;
     he_optimized_tokens := opt_optimized_tokens r;
     he_improvement_percent := opt_improvement_percent r;
     he_is_applied := is_applied r;
     he_timestamp := opt_timestamp r |}.

(** ORDER BY timestamp DESC *)
Definition newest_first (x y : optimization_row) : bool :=
  (opt_timestamp y <=? opt_timestamp x)%Z.

(** The second query of [get_module_performance]; [scan_order] is the
    order in which the engine produces the rows of the module. *)
Definition select_optimization_history
    (scan_order : list optimization_row -> list optimization_row)
    (rows : list optimization_row) (name : string) : list history_entry :=
  map history_entry_of
    (Sort.sort newest_first
       (scan_order (filter (fun r => String.eqb (opt_module_name r) name) rows))).

Record module_performance : Type := {
  mp_module_name : string;
  mp_feedback_stats : feedback_stats;
  mp_optimization_history : list history_entry
}.

(** [get_module_performance(module_name)] *)
Definition get_module_performance (e : env)
    (scan_order : list optimization_row -> list optimization_row)
    (db : database) (name : string) : exc module_performance :=
  let c := connect db in
  match statement e c
          (Ok (select_feedback_stats (module_feedback (view c)) name), tick c) with
  | (Raise ex, _) => Raise ex
  | (Ok stats, c1) =>
      match statement e c1
              (Ok (select_optimization_history scan_order
                     (optimization_results (view c1)) name), tick c1) with
      | (Raise ex, _) => Raise ex
      | (Ok history, _) =>
          Ok {| mp_module_name := name;
                mp_feedback_stats := stats;
                mp_optimization_history := history |}
      end
  end.

End FeedbackSystem.

(** ** scripts/context/feedback.py *)

Module Feedback.

(** Rows of tables module_feedback and optimization_history; timestamps
    are [datetime.now()], counted in microseconds. *)
Record feedback_row : Type := {
  fb_id : Z;
  fb_module_name : string;
  fb_timestamp : Z;
  fb_user_id : option string;
  fb_feedback_type : string;
  fb_feedback_text : option string;
  fb_effectiveness : option Z;
  fb_target_model : option string
}.

Record history_row : Type := {
  h_id : Z;
  h_module_name : string;
  h_timestamp : Z;
  h_model_used : string;
  h_improvement : Q;
  h_success : Z;
  h_error_message : option string;
  h_diff_path : option string
}.

Record database : Type := {
  module_feedback : list feedback_row;
  module_feedback_seq : Z;
  optimization_history : list history_row;
  optimization_history_seq : Z
}.

(** The result dict of a write: "success" with the new id, or the error. *)
Inductive write_result : Type :=
| Written (id : Z) (module_name : string) (timestamp : Z)
| Failed (error : string).

(** [record_feedback].  [io] is the [sqlite3.Error] the storage layer
    raises inside the [with sqlite3.connect(...)] block, if any; the block
    then leaves the file as it was. *)
Definition record_feedback (io : option string) (now : Z) (db : database)
    (module_name feedback_type : string) (effectiveness : option Z)
    (feedback_text user_id target_model : option string)
    : write_result * database :=
  match io with
  | Some e => (Failed ("Error recording feedback: " ++ e), db)
  | None =>
      let feedback_id := (module_feedback_seq db + 1)%Z in
      let row := {| fb_id := feedback_id; fb_module_name := module_name;
                    fb_timestamp := now; fb_user_id := user_id;
                    fb_feedback_type := feedback_type;
                    fb_feedback_text := feedback_text;
                    fb_effectiveness := effectiveness;
                    fb_target_model := target_model |} in
      (Written feedback_id module_name now,
       {| module_feedback := (module_feedback db ++ [row])%list;
          module_feedback_seq := feedback_id;
          optimization_history := optimization_history db;
          optimization_history_seq := optimization_history_seq db |})
  end.

(** [record_optimization] *)
Definition record_optimization (io : option string) (now : Z) (db : database)
    (module_name model_used : string) (improvement : Q) (success : bool)
    (error_message diff_path : option string) : write_result * database :=
  match io with
  | Some e => (Failed ("Error recording optimization: " ++ e), db)
  | None =>
      let optimization_id := (optimization_history_seq db + 1)%Z in
      let row := {| h_id := optimization_id; h_module_name := module_name;
                    h_timestamp := now; h_model_used := model_used;
                    h_improvement := improvement;
                    h_success := if success then 1%Z else 0%Z;
                    h_error_message := error_message;
                    h_diff_path := diff_path |} in
      (Written optimization_id module_name now,
       {| module_feedback := module_feedback db;
          module_feedback_seq := module_feedback_seq db;
          optimization_history := (optimization_history db ++ [row])%list;
          optimization_history_seq := optimization_id |})
  end.

(** *** Queries *)

(** The result dict of a read: "success" with "count" and the rows, or
    the error. *)
Inductive read_result (A : Type) : Type :=
| Rows (count : Z) (rows : list A)
| ReadFailed (error : string).
Arguments Rows {A} count rows.
Arguments ReadFailed {A} error.

(** [if module_name:] holds for a name that is given and not empty. *)
Definition given (name : option string) : option string :=
  match name with
  | Some EmptyString => None
  | _ => name
  end.

(** ORDER BY timestamp DESC *)
Definition newer_feedback (x y : feedback_row) : bool :=
  (fb_timestamp y <=? fb_timestamp x)%Z.

Definition newer_run (x y : history_row) : bool :=
  (h_timestamp y <=? h_timestamp x)%Z.

(** [get_module_feedback(module_name, limit)].  SQL leaves open in which
    order rows that tie in ORDER BY come out: [scan_order] is the order in
    which the engine produces the rows, and rows that tie keep it. *)
Definition get_module_feedback (io : option string)
    (scan_order : list feedback_row -> list feedback_row) (db : database)
    (module_name : option string) (limit : Z) : read_result feedback_row :=
  match io with
  | Some e => ReadFailed ("Error retrieving feedback: " ++ e)
  | None =>
      let rows :=
        match given module_name with
        | Some name =>
            filter (fun r => String.eqb (fb_module_name r) name) (module_feedback db)
        | None => module_feedback db
        end in
      let feedback :=
        Sort.sql_limit limit (Sort.sort newer_feedback (scan_order rows)) in
      Rows (Z.of_nat (List.length feedback)) feedback
  end.

(** [get_optimization_history(module_name, limit)] *)
Definition get_optimization_history (io : option string)
    (scan_order : list history_row -> list history_row) (db : database)
    (module_name : option string) (limit : Z) : read_result history_row :=
  match io with
  | Some e => ReadFailed ("Error retrieving optimization history: " ++ e)
  | None =>
      let rows :=
        match given module_name with
        | Some name =>
            filter (fun r => String.eqb (h_module_name r) name)
                   (optimization_history db)
        | None => optimization_history db
        end in
      let history := Sort.sql_limit limit (Sort.sort newer_run (scan_order rows)) in
      Rows (Z.of_nat (List.length history)) history
  end.

(** One entry of "modules" of [get_module_effectiveness]. *)
Record effectiveness_row : Type := {
  ef_module_name : string;
  ef_feedback_count : Z;
  ef_avg_effectiveness : option Q;
  ef_effective_count : Z;
  ef_ineffective_count : Z;
  ef_error_count : Z;
  ef_effectiveness_percent : Q
}.

(** SUM(CASE WHEN feedback_type = ... THEN 1 ELSE 0 END) over the rows of
    a group. *)
Definition count_type (t : string) (rows : list feedback_row) : Z :=
  Z.of_nat (List.length (filter (fun r => String.eqb (fb_feedback_type r) t) rows)).

(** The ratings of the rows that have one. *)
Definition ratings (rows : list feedback_row) : list Z :=
  flat_map (fun r => match fb_effectiveness r with
                     | Some z => [z]
                     | None => []
                     end) rows.

(** AVG(effectiveness): the mean of the ratings that are not NULL, NULL
    when there is none. *)
Definition avg_effectiveness (rows : list feedback_row) : option Q :=
  match ratings rows with
  | [] => None
  | zs => Some (inject_Z (fold_right Z.add 0%Z zs)
                / inject_Z (Z.of_nat (List.length zs)))
  end.

(** The WHERE clause built from the two optional filters. *)
Definition selected (module_name target_model : option string)
    (r : feedback_row) : bool :=
  match given module_name with
  | Some name => String.eqb (fb_module_name r) name
  | None => true
  end
  && match given target_model with
     | Some model =>
         match fb_target_model r with
         | Some m => String.eqb m model
         | None => false
         end
     | None => true
     end.

(** The row of one group, before the percentage is added. *)
Definition group_row (rows : list feedback_row) (name : string)
    : effectiveness_row :=
  let mine := filter (fun r => String.eqb (fb_module_name r) name) rows in
  {| ef_module_name := name;
     ef_feedback_count := Z.of_nat (List.length mine);
     ef_avg_effectiveness := avg_effectiveness mine;
     ef_effective_count := count_type "effective" mine;
     ef_ineffective_count := count_type "ineffective" mine;
     ef_error_count := count_type "error" mine;
     ef_effectiveness_percent := 0 |}.

(** ORDER BY avg_effectiveness ASC: NULL sorts before every number. *)
Definition lower_average (x y : effectiveness_row) : bool :=
  match ef_avg_effectiveness x, ef_avg_effectiveness y with
  | None, _ => true
  | Some _, None => false
  | Some a, Some b => negb (lt b a)
  end.

(** "Calculate effectiveness percentage" *)
Definition with_percent (g : effectiveness_row) : exc effectiveness_row :=
  percent <-
    (if (0 <? ef_feedback_count g)%Z then
       q <- div (inject_Z (ef_effective_count g)) (inject_Z (ef_feedback_count g)) ;;
       Ok (q * 100)
     else Ok 0) ;;
  Ok {| ef_module_name := ef_module_name g;
        ef_feedback_count := ef_feedback_count g;
        ef_avg_effectiveness := ef_avg_effectiveness g;
        ef_effective_count := ef_effective_count g;
        ef_ineffective_count := ef_ineffective_count g;
        ef_error_count := ef_error_count g;
        ef_effectiveness_percent := percent |}.

(** [for row in rows: ... effectiveness_data.append(row_dict)] *)
Fixpoint with_percents (rows : list effectiveness_row)
    : exc (list effectiveness_row) :=
  match rows with
  | [] => Ok []
  | g :: rest =>
      g' <- with_percent g ;;
      rest' <- with_percents rest ;;
      Ok (g' :: rest')
  end.

(** [get_module_effectiveness(module_name, target_model)]; only
    [sqlite3.Error] is caught.  [group_order] is the order in which the
    engine produces the groups. *)
Definition get_module_effectiveness (io : option string)
    (group_order : list string -> list string) (db : database)
    (module_name target_model : option string)
    : exc (read_result effectiveness_row) :=
  match io with
  | Some e => Ok (ReadFailed ("Error calculating module effectiveness: " ++ e))
  | None =>
      let rows := filter (selected module_name target_model) (module_feedback db) in
      let names := group_order (nodup string_dec (map fb_module_name rows)) in
      let groups := Sort.sort lower_average (map (group_row rows) names) in
      effectiveness_data <- with_percents groups ;;
      Ok (Rows (Z.of_nat (List.length effectiveness_data)) effectiveness_data)
  end.

(** The sort key (effectiveness_percent, -feedback_count), compared as
    Python compares tuples. *)
Definition least_effective_first (x y : effectiveness_row) : bool :=
  lt (ef_effectiveness_percent x) (ef_effectiveness_percent y)
  || (Qeq_bool (ef_effectiveness_percent x) (ef_effectiveness_percent y)
      && (- ef_feedback_count x <=? - ef_feedback_count y)%Z).

(** [get_modules_for_optimization(min_feedback, max_effectiveness,
    target_model, limit)]; every exception is caught. *)
Definition get_modules_for_optimization (io : option string)
    (group_order : list string -> list string) (db : database)
    (min_feedback : Z) (max_effectiveness : Q) (target_model : option string)
    (limit : Z) : read_result effectiveness_row :=
  match get_module_effectiveness io group_order db None target_model with
  | Raise ex =>
      ReadFailed ("Error identifying modules for optimization: " ++ str_of_exn ex)
  | Ok (ReadFailed error) => ReadFailed error
  | Ok (Rows _ modules) =>
      let candidates :=
        filter (fun m => (min_feedback <=? ef_feedback_count m)%Z
                         && negb (gt (ef_effectiveness_percent m) max_effectiveness))
               modules in
      let candidates := slice_to limit (Sort.sort least_effective_first candidates) in
      Rows (Z.of_nat (List.length candidates)) candidates
  end.

(** The dict of [calculate_optimization_success_rate]. *)
Record success_rate_report : Type := {
  total_optimizations : Z;
  successful_optimizations : Z;
  regression_count : Z;
  failed_attempts : Z;
  success_rate : Q;
  sr_threshold : Q
}.

Inductive rate_result : Type :=
| Rate (r : success_rate_report)
| RateFailed (error : string).

(** SELECT COUNT( * ) FROM optimization_history WHERE ... *)
Definition count_runs (p : history_row -> bool) (db : database) : Z :=
  Z.of_nat (List.length (filter p (optimization_history db))).

(** [calculate_optimization_success_rate(threshold)]; only
    [sqlite3.Error] is caught. *)
Definition calculate_optimization_success_rate (io : option string)
    (db : database) (threshold : Q) : exc rate_result :=
  match io with
  | Some e =>
      Ok (RateFailed ("Error calculating optimization success rate: " ++ e))
  | None =>
      let total := count_runs (fun h => (h_success h =? 1)%Z) db in
      let successful :=
        count_runs (fun h => (h_success h =? 1)%Z
                             && negb (lt (h_improvement h) threshold)) db in
      let regression :=
        count_runs (fun h => (h_success h =? 1)%Z && lt (h_improvement h) 0) db in
      let failed := count_runs (fun h => (h_success h =? 0)%Z) db in
      rate <-
        (if (0 <? total)%Z then
           q <- div (inject_Z successful) (inject_Z total) ;; Ok (q * 100)
         else Ok 0) ;;
      Ok (Rate {| total_optimizations := total;
                  successful_optimizations := successful;
                  regression_count := regression;
                  failed_attempts := failed;
                  success_rate := rate;
                  sr_threshold := threshold |})
  end.


End Feedback.

(** ** scripts/context/context_feedback.py *)

Module ContextFeedback.

(** Rows of tables feedback and optimization_results.  The timestamp
    column holds [datetime.now().isoformat()], a text whose order is
    that of the microseconds [Z] stands for. *)
Record feedback_row : Type := {
  fb_id : string;
  fb_module_name : string;
  fb_target_model : string;
  fb_score : Z;
  fb_comment : option string;
  fb_source : string;
  fb_timestamp : Z
}.

Record optimization_row : Type := {
  opt_id : string;
  opt_module_name : string;
  opt_target_model : string;
  opt_original_score : option Q;
  opt_optimized_score : option Q;
  opt_improvement : option Q;
  opt_timestamp : Z;
  opt_status : string;
  opt_applied : bool;
  opt_error : option string
}.

Record database : Type := {
  feedback : list feedback_row;
  optimization_results : list optimization_row
}.

(** What a call reads from its environment: the exception the storage
    layer raises during it, if any; [uuid.uuid4()]; [datetime.now()]. *)
Record env : Type := {
  io : option string;
  uuid : string;
  now : Z
}.

(** A result dict: "success" True with its payload, or False with "error". *)
Inductive result (A : Type) : Type :=
| Success (a : A)
| Failure (error : string).
Arguments Success {A} a.
Arguments Failure {A} error.

(** The [score] argument of [add_feedback]: an int, or anything else. *)
Inductive score_arg : Type :=
| IntScore (z : Z)
| NotAnInt.

Definition valid_score (score : score_arg) : option Z :=
  match score with
  | IntScore z => if ((z <? 1) || (10 <? z))%Z then None else Some z
  | NotAnInt => None
  end.

(** [add_feedback] *)
Definition add_feedback (e : env) (db : database)
    (module_name target_model : string) (score : score_arg)
    (comment : option string) (source : string)
    : result feedback_row * database :=
  if String.eqb module_name "" || String.eqb target_model "" then
    (Failure "Module name and target model are required", db)
  else
    match valid_score score with
    | None => (Failure "Score must be an integer between 1 and 10", db)
    | Some z =>
        match io e with
        | Some err => (Failure err, db)
        | None =>
            if existsb (fun r => String.eqb (fb_id r) (uuid e)) (feedback db) then
              (Failure "UNIQUE constraint failed: feedback.id", db)
            else
              let row := {| fb_id := uuid e; fb_module_name := module_name;
                            fb_target_model := target_model; fb_score := z;
                            fb_comment := comment; fb_source := source;
                            fb_timestamp := now e |} in
              (Success row,
               {| feedback := (feedback db ++ [row])%list;
                  optimization_results := optimization_results db |})
        end
    end.

(** The [evaluation_result] argument of [add_optimization_result]. *)
Record evaluation_dict : Type := {
  ev_success : bool;
  ev_error : option string;
  ev_original_score : option Q;
  ev_optimized_score : option Q;
  ev_improvement : option Q
}.

Inductive evaluation_arg : Type :=
| Dict (d : evaluation_dict)
| NotADict.

(** [add_optimization_result] *)
Definition add_optimization_result (e : env) (db : database)
    (module_name target_model : string) (evaluation_result : evaluation_arg)
    (applied : bool) : result optimization_row * database :=
  if String.eqb module_name "" || String.eqb target_model "" then
    (Failure "Module name and target model are required", db)
  else
    match evaluation_result with
    | NotADict => (Failure "Evaluation result must be a dictionary", db)
    | Dict d =>
        match io e with
        | Some err => (Failure err, db)
        | None =>
            if existsb (fun r => String.eqb (opt_id r) (uuid e))
                       (optimization_results db) then
              (Failure "UNIQUE constraint failed: optimization_results.id", db)
            else
              let row := {| opt_id := uuid e; opt_module_name := module_name;
                            opt_target_model := target_model;
                            opt_original_score := ev_original_score d;
                            opt_optimized_score := ev_optimized_score d;
                            opt_improvement := ev_improvement d;
                            opt_timestamp := now e;
                            opt_status := if ev_success d then "success" else "failed";
                            opt_applied := applied;
                            opt_error := if ev_success d then None else ev_error d |} in
              (Success row,
               {| feedback := feedback db;
                  optimization_results := (optimization_results db ++ [row])%list |})
        end
    end.

(** *** Aggregation *)

(** [if target_model:] *)
Definition given (target_model : option string) : bool :=
  match target_model with
  | Some t => negb (String.eqb t "")
  | None => false
  end.

(** The optional clause AND target_model = ? *)
Definition for_target (target_model : option string) (row_target : string) : bool :=
  match target_model with
  | Some t => if given target_model then String.eqb row_target t else true
  | None => true
  end.

Definition feedback_of (db : database) (module_name : string)
    (target_model : option string) : list feedback_row :=
  filter (fun r => String.eqb (fb_module_name r) module_name
                   && for_target target_model (fb_target_model r))
         (feedback db).

Definition runs_of (db : database) (module_name : string)
    (target_model : option string) : list optimization_row :=
  filter (fun r => String.eqb (opt_module_name r) module_name
                   && for_target target_model (opt_target_model r))
         (optimization_results db).

(** ORDER BY timestamp DESC LIMIT 1: a row of the largest timestamp, the
    first of them in table order. *)
Fixpoint latest (rows : list optimization_row) : option optimization_row :=
  match rows with
  | [] => None
  | r :: rows' =>
      match latest rows' with
      | Some r' => if (opt_timestamp r <? opt_timestamp r')%Z then Some r' else Some r
      | None => Some r
      end
  end.

Definition sum_scores (rows : list feedback_row) : Z :=
  fold_right (fun r acc => (fb_score r + acc)%Z) 0%Z rows.

(** The mean of the score column of a non-empty selection. *)
Definition mean_score (rows : list feedback_row) : Q :=
  inject_Z (sum_scores rows) / inject_Z (Z.of_nat (List.length rows)).

(** "Effectiveness is normalized to 0-100%" *)
Definition effectiveness_of (avg_score : Q) : Q := (avg_score - 1) / 9 * 100.

Definition microseconds_per_day : Z := 86400000000.

(** [(datetime.now() - last_timestamp).days] *)
Definition days_since (now last_timestamp : Z) : Z :=
  ((now - last_timestamp) / microseconds_per_day)%Z.

Record effectiveness_report : Type := {
  feedback_count : Z;
  avg_score : option Q;
  effectiveness : option Q;
  needs_optimization : bool;
  last_optimization : option optimization_row
}.

(** [calculate_module_effectiveness] *)
Definition calculate_module_effectiveness (e : env) (db : database)
    (module_name : string) (target_model : option string)
    : result effectiveness_report :=
  match io e with
  | Some err => Failure err
  | None =>
      match feedback_of db module_name target_model with
      | [] =>
          Success {| feedback_count := 0; avg_score := None;
                     effectiveness := None; needs_optimization := false;
                     last_optimization := None |}
      | df =>
          let count := Z.of_nat (List.length df) in
          let avg := mean_score df in
          let eff := effectiveness_of avg in
          let last := latest (runs_of db module_name target_model) in
          let needs :=
            match last with
            | None => lt eff 70 && (3 <=? count)%Z
            | Some r =>
                (30 <? days_since (now e) (opt_timestamp r))%Z
                && lt eff 70 && (3 <=? count)%Z
            end in
          Success {| feedback_count := count;
                     avg_score := Some (round2 avg);
                     effectiveness := Some (round2 eff);
                     needs_optimization := needs;
                     last_optimization := last |}
      end
  end.

(** One entry of "modules_to_improve". *)
Record candidate : Type := {
  c_module_name : string;
  c_feedback_count : Z;
  c_avg_score : Q;
  c_effectiveness : Q;
  c_last_optimization : option Z;
  c_last_improvement : option Q
}.

(** The module names of a selection, each once.  GROUP BY leaves the order
    of the groups open; that of first appearance is taken here. *)
Fixpoint group_names (seen : list string) (rows : list feedback_row) : list string :=
  match rows with
  | [] => []
  | r :: rows' =>
      if existsb (String.eqb (fb_module_name r)) seen then group_names seen rows'
      else fb_module_name r :: group_names (fb_module_name r :: seen) rows'
  end.

(** [float(x) if x else None] on the improvement column. *)
Definition last_improvement_of (improvement : option Q) : option Q :=
  match improvement with
  | Some q => if Qeq_bool q 0 then None else Some q
  | None => None
  end.

(** The body of the loop over the modules of low effectiveness: the entry
    the module adds to [modules_to_improve], if it adds one. *)
Definition consider (e : env) (db : database) (target_model : option string)
    (module_name : string) (count : Z) (avg eff : Q) : list candidate :=
  match latest (runs_of db module_name target_model) with
  | None =>
      [ {| c_module_name := module_name; c_feedback_count := count;
           c_avg_score := round2 avg; c_effectiveness := round2 eff;
           c_last_optimization := None; c_last_improvement := None |} ]
  | Some last_opt =>
      if (30 <? days_since (now e) (opt_timestamp last_opt))%Z then
        [ {| c_module_name := module_name; c_feedback_count := count;
             c_avg_score := round2 avg; c_effectiveness := round2 eff;
             c_last_optimization := Some (opt_timestamp last_opt);
             c_last_improvement := last_improvement_of (opt_improvement last_opt) |} ]
      else []
  end.

(** [modules_to_improve.sort(key=lambda x: x["effectiveness"])]: stable. *)
Fixpoint insert_by_effectiveness (x : candidate) (l : list candidate) : list candidate :=
  match l with
  | [] => [x]
  | y :: l' =>
      if Qle_bool (c_effectiveness x) (c_effectiveness y) then x :: l
      else y :: insert_by_effectiveness x l'
  end.

Definition sort_by_effectiveness (l : list candidate) : list candidate :=
  fold_right insert_by_effectiveness [] l.

(** [identify_modules_for_improvement(min_feedback=3, max_effectiveness=70,
    target_model=None)] *)
Definition identify_modules_for_improvement (e : env) (db : database)
    (min_feedback : Z) (max_effectiveness : Q) (target_model : option string)
    : result (list candidate) :=
  match io e with
  | Some err => Failure err
  | None =>
      let selected :=
        filter (fun r => for_target target_model (fb_target_model r))
               (feedback db) in
      let modules_to_improve :=
        flat_map
          (fun module_name =>
             let rows := filter (fun r => String.eqb (fb_module_name r) module_name)
                                selected in
             let count := Z.of_nat (List.length rows) in
             let avg := mean_score rows in
             let eff := effectiveness_of avg in
             if (min_feedback <=? count)%Z && Qle_bool eff max_effectiveness
             then consider e db target_model module_name count avg eff
             else [])
          (group_names [] selected) in
      Success (sort_by_effectiveness modules_to_improve)
  end.

(** *** Queries *)

(** ORDER BY timestamp DESC *)
Definition newer_feedback (x y : feedback_row) : bool :=
  (fb_timestamp y <=? fb_timestamp x)%Z.

Definition newer_run (x y : optimization_row) : bool :=
  (opt_timestamp y <=? opt_timestamp x)%Z.

(** [get_module_feedback(module_name, target_model, limit)].  Each of
    the two filters applies when it is given and not empty.  SQL leaves
    open in which order rows that tie in ORDER BY come out: [scan_order]
    is the order in which the engine produces the rows, and rows that tie
    keep it. *)
Definition get_module_feedback (e : env)
    (scan_order : list feedback_row -> list feedback_row) (db : database)
    (module_name target_model : option string) (limit : Z)
    : result (list feedback_row) :=
  match io e with
  | Some err => Failure err
  | None =>
      let rows :=
        filter (fun r => for_target module_name (fb_module_name r)
                         && for_target target_model (fb_target_model r))
               (feedback db) in
      Success (Sort.sql_limit limit (Sort.sort newer_feedback (scan_order rows)))
  end.

(** [get_optimization_results(module_name, target_model, limit)] *)
Definition get_optimization_results (e : env)
    (scan_order : list optimization_row -> list optimization_row) (db : database)
    (module_name target_model : option string) (limit : Z)
    : result (list optimization_row) :=
  match io e with
  | Some err => Failure err
  | None =>
      let rows :=
        filter (fun r => for_target module_name (opt_module_name r)
                         && for_target target_model (opt_target_model r))
               (optimization_results db) in
      Success (Sort.sql_limit limit (Sort.sort newer_run (scan_order rows)))
  end.

(** The dict of [calculate_optimization_success_rate]. *)
Record success_report : Type := {
  total_optimizations : Z;
  successful_optimizations : Z;
  improved_optimizations : Z;
  success_rate : Q;
  improvement_rate : Q;
  avg_improvement : Q;
  sr_target_model : option string
}.

(** status = 'success' *)
Definition succeeded (r : optimization_row) : bool :=
  String.eqb (opt_status r) "success".

(** status = 'success' AND improvement >= ?: a NULL improvement does not
    count. *)
Definition improved_by (min_improvement : Q) (r : optimization_row) : bool :=
  succeeded r
  && match opt_improvement r with
     | Some q => negb (lt q min_improvement)
     | None => false
     end.

(** The improvements, where there is one, of the rows that succeeded. *)
Definition improvements (rows : list optimization_row) : list Q :=
  flat_map (fun r => if succeeded r
                     then match opt_improvement r with
                          | Some q => [q]
                          | None => []
                          end
                     else []) rows.

(** AVG(CASE WHEN status = 'success' THEN improvement ELSE NULL END) *)
Definition average_improvement (rows : list optimization_row) : option Q :=
  match improvements rows with
  | [] => None
  | qs => Some (fold_right Qplus 0 qs / inject_Z (Z.of_nat (List.length qs)))
  end.

(** [calculate_optimization_success_rate(target_model, min_improvement)].
    Over no rows COUNT is 0 and the two SUMs are NULL, Python's [None]:
    the test [successful > 0] then raises TypeError, which the [except]
    turns into a failure result like any other exception. *)
Definition calculate_optimization_success_rate (e : env) (db : database)
    (target_model : option string) (min_improvement : Q)
    : result success_report :=
  match io e with
  | Some err => Failure err
  | None =>
      let rows := filter (fun r => for_target target_model (opt_target_model r))
                         (optimization_results db) in
      match rows with
      | [] =>
          Failure "'>' not supported between instances of 'NoneType' and 'int'"
      | _ =>
          let total := Z.of_nat (List.length rows) in
          let successful := Z.of_nat (List.length (filter succeeded rows)) in
          let improved :=
            Z.of_nat (List.length (filter (improved_by min_improvement) rows)) in
          let computed :=
            success_rate <-
              (if (0 <? total)%Z then
                 q <- div (inject_Z successful) (inject_Z total) ;; Ok (q * 100)
               else Ok 0) ;;
            improvement_rate <-
              (if (0 <? successful)%Z then
                 q <- div (inject_Z improved) (inject_Z successful) ;; Ok (q * 100)
               else Ok 0) ;;
            Ok {| total_optimizations := total;
                  successful_optimizations := successful;
                  improved_optimizations := improved;
                  success_rate := round2 success_rate;
                  improvement_rate := round2 improvement_rate;
                  avg_improvement :=
                    match average_improvement rows with
                    | Some q => if Qeq_bool q 0 then 0 else round2 q
                    | None => 0
                    end;
                  sr_target_model := target_model |} in
          match computed with
          | Ok report => Success report
          | Raise ex => Failure (str_of_exn ex)
          end
      end
  end.

End ContextFeedback.

(** * Vocabulary of the statements *)

(** evaluator.py.  A tally in progress: passes never exceed the total, the
    score field is still the initial 0. *)
Definition counted (v : Evaluator.version_scores) : Prop :=
  (0 <= Evaluator.passed v)%Z
  /\ (Evaluator.passed v <= Evaluator.total v)%Z
  /\ Evaluator.score v = 0.

Definition counted_both (s : Evaluator.scores) : Prop :=
  counted (Evaluator.original s) /\ counted (Evaluator.optimized s).

(** No prompt result of the judge's output reports success. *)
Definition all_failed (rs : list Evaluator.test_result) : Prop :=
  forall t, In t rs -> forall pr, In pr t -> Evaluator.success pr = false.

Definition none_passed (s : Evaluator.scores) : Prop :=
  Evaluator.passed (Evaluator.original s) = 0%Z
  /\ Evaluator.passed (Evaluator.optimized s) = 0%Z.

(** context_evaluator.py.  The number of prompt results of a test that
    carry a given prompt name. *)
Definition named (name : string) (t : ContextEvaluator.test_result) : nat :=
  List.length
    (filter (fun pr => String.eqb (ContextEvaluator.prompt_name pr) name) t).

(** Each test holds at most one result for each of the two prompts, as
    the generated configuration, with its two prompts, makes PromptFoo
    write them. *)
Definition one_result_per_prompt (rs : list ContextEvaluator.test_result) : Prop :=
  forall t, In t rs -> (named "Original" t <= 1)%nat /\ (named "Optimized" t <= 1)%nat.

(** No assertion of the result file passed. *)
Definition no_assertion_passed (rs : list ContextEvaluator.test_result) : Prop :=
  forall t, In t rs -> forall pr, In pr t ->
  forall a, In a (ContextEvaluator.assertion pr) -> a = false.

(** A natural number as a float. *)
Definition qnat (n : nat) : Q := inject_Z (Z.of_nat n).

(** feedback_system.py.  An empty database, and the store after one run
    of document "doc" for audience "claude" was recorded at second 100. *)
Definition empty_store : FeedbackSystem.database :=
  {| FeedbackSystem.module_feedback := [];
     FeedbackSystem.module_feedback_seq := 0;
     FeedbackSystem.optimization_results := [];
     FeedbackSystem.optimization_results_seq := 0 |}.

Definition store_with_one_run : FeedbackSystem.database :=
  snd (FeedbackSystem.record_optimization
         (FeedbackSystem.quiet (fun _ => 100%Z)) empty_store
         "doc" "claude" 900 700 30 false).

(** The entry was stored as the row: column by column. *)
Definition stored (fb : FeedbackSystem.feedback_dict)
    (row : FeedbackSystem.feedback_row) : Prop :=
  FeedbackSystem.module_name fb = Some (FeedbackSystem.fb_module_name row)
  /\ FeedbackSystem.model_used fb = Some (FeedbackSystem.fb_model_used row)
  /\ FeedbackSystem.feedback_type fb = Some (FeedbackSystem.fb_feedback_type row)
  /\ FeedbackSystem.feedback_detail fb = FeedbackSystem.fb_feedback_detail row
  /\ FeedbackSystem.session_id fb = FeedbackSystem.fb_session_id row.

(** The rows carry the ids that follow [s], one after the other. *)
Fixpoint numbered (s : Z) (rows : list FeedbackSystem.feedback_row) : Prop :=
  match rows with
  | [] => True
  | r :: rows' => FeedbackSystem.fb_id r = (s + 1)%Z /\ numbered (s + 1) rows'
  end.

(** The entry has the three columns that are declared NOT NULL. *)
Definition insertable (fb : FeedbackSystem.feedback_dict) : bool :=
  match FeedbackSystem.module_name fb, FeedbackSystem.model_used fb,
        FeedbackSystem.feedback_type fb with
  | Some _, Some _, Some _ => true
  | _, _, _ => false
  end.

(** The database with [rows] appended to table module_feedback. *)
Definition with_feedback (w : FeedbackSystem.database)
    (rows : list FeedbackSystem.feedback_row) : FeedbackSystem.database :=
  {| FeedbackSystem.module_feedback := (FeedbackSystem.module_feedback w ++ rows)%list;
     FeedbackSystem.module_feedback_seq :=
       (FeedbackSystem.module_feedback_seq w + Z.of_nat (List.length rows))%Z;
     FeedbackSystem.optimization_results := FeedbackSystem.optimization_results w;
     FeedbackSystem.optimization_results_seq :=
       FeedbackSystem.optimization_results_seq w |}.

(** context_feedback.py.  The entries a call of
    identify_modules_for_improvement returns. *)
Definition candidates (r : ContextFeedback.result (list ContextFeedback.candidate))
    : list ContextFeedback.candidate :=
  match r with
  | ContextFeedback.Success l => l
  | ContextFeedback.Failure _ => []
  end.

(** The document was never optimized for the audience, or its latest run
    lies more than 30 whole days back. *)
Definition cooled_down (e : ContextFeedback.env) (db : ContextFeedback.database)
    (module_name : string) (target_model : option string) : Prop :=
  match ContextFeedback.latest (ContextFeedback.runs_of db module_name target_model) with
  | None => True
  | Some r =>
      (30 < ContextFeedback.days_since (ContextFeedback.now e)
                                       (ContextFeedback.opt_timestamp r))%Z
  end.

(** Sample data: five feedback entries on "doc", scores 2, 3, 2, 4, 3; a
    run of "doc" recorded on day 95; a clock that reads day 100. *)
Definition sample_feedback (id : string) (score : Z) : ContextFeedback.feedback_row :=
  {| ContextFeedback.fb_id := id; ContextFeedback.fb_module_name := "doc";
     ContextFeedback.fb_target_model := "claude";
     ContextFeedback.fb_score := score; ContextFeedback.fb_comment := None;
     ContextFeedback.fb_source := "user"; ContextFeedback.fb_timestamp := 0 |}.

Definition five_entries : list ContextFeedback.feedback_row :=
  [ sample_feedback "f1" 2; sample_feedback "f2" 3; sample_feedback "f3" 2;
    sample_feedback "f4" 4; sample_feedback "f5" 3 ].

Definition run_on_day_95 : ContextFeedback.optimization_row :=
  {| ContextFeedback.opt_id := "r1"; ContextFeedback.opt_module_name := "doc";
     ContextFeedback.opt_target_model := "claude";
     ContextFeedback.opt_original_score := Some 40;
     ContextFeedback.opt_optimized_score := Some 70;
     ContextFeedback.opt_improvement := Some 30;
     ContextFeedback.opt_timestamp := (95 * ContextFeedback.microseconds_per_day)%Z;
     ContextFeedback.opt_status := "success";
     ContextFeedback.opt_applied := false;
     ContextFeedback.opt_error := None |}.

Definition never_optimized : ContextFeedback.database :=
  {| ContextFeedback.feedback := five_entries;
     ContextFeedback.optimization_results := [] |}.

Definition optimized_5_days_ago : ContextFeedback.database :=
  {| ContextFeedback.feedback := five_entries;
     ContextFeedback.optimization_results := [run_on_day_95] |}.

Definition day_100 : ContextFeedback.env :=
  {| ContextFeedback.io := None; ContextFeedback.uuid := "u1";
     ContextFeedback.now := (100 * ContextFeedback.microseconds_per_day)%Z |}.

(** The arguments that the guards of [add_feedback] and of
    [add_optimization_result] let through. *)
Definition well_formed_feedback (module_name target_model : string)
    (score : ContextFeedback.score_arg) : Prop :=
  module_name <> "" /\ target_model <> ""
  /\ exists z, score = ContextFeedback.IntScore z /\ (1 <= z)%Z /\ (z <= 10)%Z.

Definition well_formed_run (module_name target_model : string)
    (evaluation_result : ContextFeedback.evaluation_arg) : Prop :=
  module_name <> "" /\ target_model <> ""
  /\ exists d, evaluation_result = ContextFeedback.Dict d.


(** Sample contents: a module with one context block named "Setup", and a
    module whose only terms are two back-quoted words. *)
Definition one_block : string :=
  "<context name=" ++ String dquote "Setup" ++ String dquote ">Install the Widget</context>".

Definition two_quoted_terms : string := "use `ab` and `zeta`".

(** The position of the first occurrence of a term in a list of matches;
    the length of the list when there is none. *)
Fixpoint first_index (t : string) (l : list string) : nat :=
  match l with
  | [] => 0
  | x :: l' => if String.eqb x t then 0 else S (first_index t l')
  end.

(** The terms stand in the order in which they first appear among the
    matches. *)
Definition in_order_of_first_appearance (matches key_terms : list string) : Prop :=
  StronglySorted (fun a b => (first_index a matches < first_index b matches)%nat)
                 key_terms.

(** evaluator.py.  The filter of the key-term loop: long enough and no
    stop word. *)
Definition kept (term : string) : bool :=
  (3 <? String.length term)%nat
  && negb (Evaluator.mem (lower term) Evaluator.stop_words).

(** evaluator.py.  No prompt result of the original version reports
    success; the optimized version may pass. *)
Definition original_never_passed (rs : list Evaluator.test_result) : Prop :=
  forall t, In t rs -> forall pr, In pr t ->
    Evaluator.prompt_name pr = "original" -> Evaluator.success pr = false.

(** Judge output of one test on which the original fails and the
    optimized version passes. *)
Definition only_optimized_passes : list Evaluator.test_result :=
  [[ {| Evaluator.prompt_name := "original"; Evaluator.success := false |};
     {| Evaluator.prompt_name := "optimized"; Evaluator.success := true |} ]].

(** The improvements of a list of batch entries, added up. *)
Definition sum_improvement (l : list Evaluator.module_info) : Q :=
  fold_right (fun m acc => Evaluator.mi_improvement m + acc) 0 l.

(** The number of test cases and of assertions, as Python's [len]. *)
Definition len {A} (l : list A) : Z := Z.of_nat (List.length l).

(** A string that does not begin with whitespace. *)
Definition starts_clean (s : string) : Prop :=
  match s with
  | EmptyString => True
  | String c _ => is_space c = false
  end.

(** The module paths a batch result of evaluator.py lists, category by
    category. *)
Definition batch_paths (b : Evaluator.batch) : list string :=
  (map Evaluator.mi_path (Evaluator.bt_improved b)
   ++ map Evaluator.mi_path (Evaluator.bt_regressed b)
   ++ map Evaluator.mi_path (Evaluator.bt_neutral b)
   ++ map Evaluator.fi_path (Evaluator.bt_failed b))%list.

(** The paths [batch_evaluate] of evaluator.py works on. *)
Definition paths_used (list_modules module_paths : list string) : list string :=
  match module_paths with
  | [] => list_modules
  | _ => module_paths
  end.

(** What the loop of [batch_evaluate] of evaluator.py keeps true, [done]
    being the paths gone through so far. *)
Definition batch_invariant (done : list string) (st : Evaluator.batch_state)
    : Prop :=
  let (b, total_improvement) := st in
  Evaluator.bt_evaluated b
  = (len (Evaluator.bt_improved b) + len (Evaluator.bt_regressed b)
     + len (Evaluator.bt_neutral b))%Z
  /\ len (Evaluator.bt_modules b)
     = (Evaluator.bt_evaluated b + len (Evaluator.bt_failed b))%Z
  /\ len (Evaluator.bt_modules b) = len done
  /\ Permutation (batch_paths b) done
  /\ total_improvement
     == sum_improvement (Evaluator.bt_improved b)
        + sum_improvement (Evaluator.bt_regressed b)
        + sum_improvement (Evaluator.bt_neutral b)
  /\ Forall (fun m => Evaluator.recommend (Evaluator.mi_improvement m) = "apply")
            (Evaluator.bt_improved b)
  /\ Forall (fun m => Evaluator.recommend (Evaluator.mi_improvement m) = "reject")
            (Evaluator.bt_regressed b)
  /\ Forall (fun m => Evaluator.recommend (Evaluator.mi_improvement m) = "neutral")
            (Evaluator.bt_neutral b)
  /\ Evaluator.bt_average_improvement b = 0.

(** How many results of a batch of evaluator.py carry a given
    recommendation. *)
Definition recommended (label : string) (ms : list Evaluator.module_result) : Z :=
  len (filter (fun m => match m with
                        | Evaluator.ModuleSuccess r =>
                            String.eqb (Evaluator.recommendation r) label
                        | Evaluator.ModuleFailure _ => false
                        end) ms).

(** Every report handed to the batch is a result of [evaluate_module]. *)
Definition evaluates_modules
    (evaluate_module : nat -> string -> Evaluator.module_report) : Prop :=
  forall n module_path,
    exists original_path optimized_path original_exists optimized_exists j,
      snd (evaluate_module n module_path)
      = Evaluator.evaluate_module original_path optimized_path
          original_exists optimized_exists j.

(** The recommendations counted in "modules" are the sizes of the three
    categories. *)
Definition batch_labels (b : Evaluator.batch) : Prop :=
  recommended "apply" (Evaluator.bt_modules b) = len (Evaluator.bt_improved b)
  /\ recommended "reject" (Evaluator.bt_modules b) = len (Evaluator.bt_regressed b)
  /\ recommended "neutral" (Evaluator.bt_modules b) = len (Evaluator.bt_neutral b).

(** A judge under which the original fails and the optimized version
    passes, for every module. *)
Definition optimized_always_wins (n : nat) (module_path : string)
    : Evaluator.module_report :=
  (Utils.extract_module_name module_path,
   Evaluator.evaluate_module module_path ("optimized/" ++ module_path) true true
     (Evaluator.Parsed (Some only_optimized_passes))).

(** context_evaluator.py.  The module names a batch lists, category by
    category. *)
Definition batch_names (improved : list ContextEvaluator.improved_module)
    (regressed : list ContextEvaluator.regressed_module)
    (unchanged : list ContextEvaluator.unchanged_module)
    (failed : list string) : list string :=
  (map ContextEvaluator.im_module improved
   ++ map ContextEvaluator.rg_module regressed
   ++ map ContextEvaluator.un_module unchanged
   ++ failed)%list.

(** The names [batch_evaluate] of context_evaluator.py works on. *)
Definition names_used (optimized_modules : list string)
    (module_names : option (list string)) : list string :=
  match module_names with
  | None => optimized_modules
  | Some names =>
      if list_eq_dec string_dec names ["all"] then optimized_modules else names
  end.

(** What the loop of [batch_evaluate] of context_evaluator.py keeps true,
    [done] being the names gone through so far. *)
Definition context_batch_invariant (done : list string)
    (st : ContextEvaluator.batch_state) : Prop :=
  ContextEvaluator.evaluation_count st
  = (len (ContextEvaluator.improved_modules st)
     + len (ContextEvaluator.regressed_modules st)
     + len (ContextEvaluator.unchanged_modules st))%Z
  /\ len (ContextEvaluator.results st)
     = (ContextEvaluator.evaluation_count st
        + len (ContextEvaluator.failed_modules st))%Z
  /\ len (ContextEvaluator.results st) = len done
  /\ Permutation
       (batch_names (ContextEvaluator.improved_modules st)
          (ContextEvaluator.regressed_modules st)
          (ContextEvaluator.unchanged_modules st)
          (ContextEvaluator.failed_modules st))
       done
  /\ Forall (fun m => 1 < ContextEvaluator.im_improvement m)
            (ContextEvaluator.improved_modules st)
  /\ Forall (fun m => 1 < ContextEvaluator.rg_regression m)
            (ContextEvaluator.regressed_modules st).

(** feedback_system.py.  The order of the rows of
    get_modules_needing_optimization: the larger negative ratio first, and
    among equal ratios the module with more feedback. *)
Definition ranked_worse_first (x y : FeedbackSystem.module_need) : Prop :=
  FeedbackSystem.negative_ratio y < FeedbackSystem.negative_ratio x
  \/ (FeedbackSystem.negative_ratio x == FeedbackSystem.negative_ratio y
      /\ (FeedbackSystem.total_feedback y <= FeedbackSystem.total_feedback x)%Z).

(** The feedback rows of one module. *)
Definition feedback_about (db : FeedbackSystem.database) (name : string)
    : list FeedbackSystem.feedback_row :=
  filter (FeedbackSystem.of_module name) (FeedbackSystem.module_feedback db).

(** The module has enough feedback, and enough of it is negative, to be
    reported by get_modules_needing_optimization. *)
Definition needs_optimization (db : FeedbackSystem.database) (threshold : Q)
    (min_feedback_count : Z) (name : string) : Prop :=
  feedback_about db name <> []
  /\ (min_feedback_count <= len (feedback_about db name))%Z
  /\ threshold
     <= inject_Z (FeedbackSystem.count_type "negative" (feedback_about db name))
        / inject_Z (len (feedback_about db name)).

(** Sample data: an entry of feedback, and the store after "api" received
    two negative entries and a positive one and "db" one positive entry. *)
Definition entry (module type : string) : FeedbackSystem.feedback_dict :=
  {| FeedbackSystem.module_name := Some module;
     FeedbackSystem.model_used := Some "claude";
     FeedbackSystem.feedback_type := Some type;
     FeedbackSystem.feedback_detail := None;
     FeedbackSystem.session_id := None |}.

Definition store_with_feedback : FeedbackSystem.database :=
  snd (FeedbackSystem.batch_add_feedback
         (FeedbackSystem.quiet (fun _ => 100%Z)) empty_store
         [ entry "api" "negative"; entry "db" "positive";
           entry "api" "positive"; entry "api" "negative" ]).

(** The runs of one module in table optimization_results of
    feedback_system.py, as entries of "optimization_history". *)
Definition history_of (db : FeedbackSystem.database) (name : string)
    : list FeedbackSystem.history_entry :=
  map FeedbackSystem.history_entry_of
    (filter (fun r => String.eqb (FeedbackSystem.opt_module_name r) name)
            (FeedbackSystem.optimization_results db)).

(** A count that SUM reports as NULL over no rows, read as a number. *)
Definition or_zero (n : option Z) : Z :=
  match n with
  | Some z => z
  | None => 0%Z
  end.

(** The ids of both tables of feedback_system.py grow along the rows and
    none exceeds the table's counter: no id occurs twice, and the next id
    is a new one. *)
Definition ids_in_order (db : FeedbackSystem.database) : Prop :=
  StronglySorted Z.lt
    (map FeedbackSystem.fb_id (FeedbackSystem.module_feedback db))
  /\ Forall (fun r => (FeedbackSystem.fb_id r
                       <= FeedbackSystem.module_feedback_seq db)%Z)
            (FeedbackSystem.module_feedback db)
  /\ StronglySorted Z.lt
       (map FeedbackSystem.opt_id (FeedbackSystem.optimization_results db))
  /\ Forall (fun r => (FeedbackSystem.opt_id r
                       <= FeedbackSystem.optimization_results_seq db)%Z)
            (FeedbackSystem.optimization_results db).

(** feedback.py.  The row belongs to the module asked for, when one is
    asked for. *)
Definition about (module_name : option string) (row_module : string) : Prop :=
  forall name, Feedback.given module_name = Some name -> row_module = name.

(** The store of feedback.py with nothing in it, and a clock-stamped
    entry of feedback for module "api". *)
Definition empty_history : Feedback.database :=
  {| Feedback.module_feedback := []; Feedback.module_feedback_seq := 0;
     Feedback.optimization_history := []; Feedback.optimization_history_seq := 0 |}.

Definition rated (now : Z) (type : string) (db : Feedback.database)
    : Feedback.database :=
  snd (Feedback.record_feedback None now db "api" type (Some 4%Z) None None None).

(** feedback.py.  The order of the candidates of
    get_modules_for_optimization: the lower effectiveness first, and among
    equal percentages the module with more feedback. *)
Definition ranked_least_effective_first (x y : Feedback.effectiveness_row) : Prop :=
  Feedback.ef_effectiveness_percent x < Feedback.ef_effectiveness_percent y
  \/ (Feedback.ef_effectiveness_percent x == Feedback.ef_effectiveness_percent y
      /\ (Feedback.ef_feedback_count y <= Feedback.ef_feedback_count x)%Z).

(** The percentage the loop of get_module_effectiveness adds to a row. *)
Definition percent_of (g : Feedback.effectiveness_row) : Q :=
  if (0 <? Feedback.ef_feedback_count g)%Z
  then inject_Z (Feedback.ef_effective_count g)
       / inject_Z (Feedback.ef_feedback_count g) * 100
  else 0.

Definition set_percent (g : Feedback.effectiveness_row) : Feedback.effectiveness_row :=
  {| Feedback.ef_module_name := Feedback.ef_module_name g;
     Feedback.ef_feedback_count := Feedback.ef_feedback_count g;
     Feedback.ef_avg_effectiveness := Feedback.ef_avg_effectiveness g;
     Feedback.ef_effective_count := Feedback.ef_effective_count g;
     Feedback.ef_ineffective_count := Feedback.ef_ineffective_count g;
     Feedback.ef_error_count := Feedback.ef_error_count g;
     Feedback.ef_effectiveness_percent := percent_of g |}.

(** context_feedback.py.  The row passes an optional filter: it applies
    when a value that is not empty is given. *)
Definition passes (filter_value : option string) (column : string) : Prop :=
  ContextFeedback.for_target filter_value column = true.

(** The runs that calculate_optimization_success_rate of
    context_feedback.py selects. *)
Definition runs_for (db : ContextFeedback.database) (target_model : option string)
    : list ContextFeedback.optimization_row :=
  filter (fun r => ContextFeedback.for_target target_model
                     (ContextFeedback.opt_target_model r))
         (ContextFeedback.optimization_results db).

(** Every stored score lies between 1 and 10. *)
Definition scores_in_range (db : ContextFeedback.database) : Prop :=
  Forall (fun r => (1 <= ContextFeedback.fb_score r <= 10)%Z)
         (ContextFeedback.feedback db).

(** An environment of context_feedback.py whose storage layer does not
    fail. *)
Definition at_time (id : string) (now : Z) : ContextFeedback.env :=
  {| ContextFeedback.io := None; ContextFeedback.uuid := id;
     ContextFeedback.now := now |}.


(** * Properties *)

(** ** Arithmetic helpers *)

Lemma Qlt_bool_iff (x y : Q) : Qlt_bool x y = true <-> x < y.
Proof.
  unfold Qlt_bool. rewrite negb_true_iff.
  split; intro H.
  - apply Qnot_le_lt. intro Hle. apply Qle_bool_iff in Hle. congruence.
  - destruct (Qle_bool y x) eqn:E; [|reflexivity].
    apply Qle_bool_iff in E. lra.
Qed.

Lemma Qlt_bool_false_iff (x y : Q) : Qlt_bool x y = false <-> y <= x.
Proof.
  unfold Qlt_bool. rewrite negb_false_iff. apply Qle_bool_iff.
Qed.

Lemma div_pos (x y : Q) : 0 < y -> div x y = Ok (x / y).
Proof.
  intro H. unfold div.
  destruct (Qeq_bool y 0) eqn:E; [|reflexivity].
  apply Qeq_bool_iff in E. lra.
Qed.


(** ** scripts/context/evaluator.py: classification and scoring *)

Section EvaluatorScoring.
Import Evaluator.






(** The recommendation of a successful [evaluate_module] is [recommend]
    of the improvement it reports. *)
Lemma evaluate_module_recommendation (o p : string) (a b : bool)
    (j : judge_outcome) (r : module_results) :
  evaluate_module o p a b j = ModuleSuccess r ->
  recommendation r = recommend (res_improvement r).
Proof.
  unfold evaluate_module.
  destruct (negb a); [discriminate|].
  destruct (negb b); [discriminate|].
  destruct (run_evaluation j); [|discriminate].
  intro H. injection H as <-. reflexivity.
Qed.

End EvaluatorScoring.


(** *** The scores of evaluator.py *)

Section EvaluatorScores.
Import Evaluator.

Lemma count_counted (pr : prompt_result) (v : version_scores) :
  counted v -> counted (count pr v).
Proof.
  intros (H0 & H1 & H2). unfold counted, count; simpl.
  destruct (success pr); repeat split; try assumption; lia.
Qed.

Lemma tally_prompt_counted (s : scores) (pr : prompt_result) :
  counted_both s -> counted_both (tally_prompt s pr).
Proof.
  intros [Ho Hp]. unfold tally_prompt.
  destruct (String.eqb (prompt_name pr) "original").
  - split; simpl; [apply count_counted|]; assumption.
  - destruct (String.eqb (prompt_name pr) "optimized").
    + split; simpl; [|apply count_counted]; assumption.
    + split; assumption.
Qed.

Lemma tally_test_counted (t : test_result) (s : scores) :
  counted_both s -> counted_both (tally_test s t).
Proof.
  unfold tally_test. revert s.
  induction t as [|pr t IH]; intros s H; simpl; [exact H|].
  apply IH, tally_prompt_counted, H.
Qed.

Lemma fold_tally_counted (rs : list test_result) (s : scores) :
  counted_both s -> counted_both (fold_left tally_test rs s).
Proof.
  revert s. induction rs as [|t rs IH]; intros s H; simpl; [exact H|].
  apply IH, tally_test_counted, H.
Qed.

Lemma empty_scores_counted : counted_both empty_scores.
Proof. repeat split; simpl; lia. Qed.

Lemma tally_counted (rs : list test_result) : counted_both (tally rs).
Proof. apply fold_tally_counted, empty_scores_counted. Qed.

Lemma tally_prompt_none (s : scores) (pr : prompt_result) :
  success pr = false -> none_passed s -> none_passed (tally_prompt s pr).
Proof.
  intros F [Ho Hp]. unfold tally_prompt, none_passed, count.
  destruct (String.eqb (prompt_name pr) "original"); simpl.
  - rewrite F. split; assumption.
  - destruct (String.eqb (prompt_name pr) "optimized"); simpl.
    + rewrite F. split; assumption.
    + split; assumption.
Qed.

Lemma tally_test_none (t : test_result) (s : scores) :
  (forall pr, In pr t -> success pr = false) ->
  none_passed s -> none_passed (tally_test s t).
Proof.
  unfold tally_test. revert s.
  induction t as [|pr t IH]; intros s F H; simpl; [exact H|].
  apply IH.
  - intros pr' Hin. apply F. right. exact Hin.
  - apply tally_prompt_none; [apply F; left; reflexivity | exact H].
Qed.

Lemma fold_tally_none (rs : list test_result) (s : scores) :
  all_failed rs -> none_passed s -> none_passed (fold_left tally_test rs s).
Proof.
  revert s. induction rs as [|t rs IH]; intros s F H; simpl; [exact H|].
  apply IH.
  - intros t' Hin. apply F. right. exact Hin.
  - apply tally_test_none; [apply F; left; reflexivity | exact H].
Qed.

Lemma tally_none (rs : list test_result) : all_failed rs -> none_passed (tally rs).
Proof.
  intro F. apply fold_tally_none; [exact F | split; reflexivity].
Qed.

(** The percentage step never divides by zero; its score is a percentage,
    and 0 when nothing passed. *)
Lemma percentage_ok (v : version_scores) :
  counted v ->
  exists v', percentage v = Ok v'
    /\ passed v' = passed v
    /\ 0 <= score v' /\ score v' <= 100
    /\ (passed v = 0%Z -> score v' == 0).
Proof.
  intros (H0 & H1 & H2). unfold percentage.
  destruct (0 <? total v)%Z eqn:T.
  - apply Z.ltb_lt in T.
    assert (Tq : 0 < inject_Z (total v)).
    { change 0 with (inject_Z 0). rewrite <- Zlt_Qlt. exact T. }
    assert (Pq : 0 <= inject_Z (passed v)).
    { change 0 with (inject_Z 0). rewrite <- Zle_Qle. exact H0. }
    assert (PT : inject_Z (passed v) <= inject_Z (total v)).
    { rewrite <- Zle_Qle. exact H1. }
    rewrite (div_pos _ _ Tq). simpl.
    eexists. split; [reflexivity|]. simpl.
    assert (L : 0 <= inject_Z (passed v) / inject_Z (total v)).
    { apply Qle_shift_div_l; [exact Tq | lra]. }
    assert (U : inject_Z (passed v) / inject_Z (total v) <= 1).
    { apply Qle_shift_div_r; [exact Tq | lra]. }
    repeat split; try lra.
    intro P0. rewrite P0. unfold Qdiv. change (inject_Z 0) with 0. lra.
  - exists v. rewrite H2. repeat split; try lra.
Qed.

(** The improvement step never divides by zero. *)
Lemma improvement_of_ok (orig opt : Q) :
  exists i, improvement_of orig opt = Ok i
    /\ (0 < orig -> i == (opt - orig) / orig * 100)
    /\ (orig <= 0 -> i = 0).
Proof.
  unfold improvement_of, gt.
  destruct (Qlt_bool 0 orig) eqn:G.
  - apply Qlt_bool_iff in G. rewrite (div_pos _ _ G). simpl.
    eexists. split; [reflexivity|]. split; [reflexivity | intro; lra].
  - apply Qlt_bool_false_iff in G.
    exists 0. split; [reflexivity|]. split; [intro; lra | reflexivity].
Qed.

Lemma evaluate_output_ok (results : option (list test_result)) :
  exists e, evaluate_output results = Ok e
    /\ 0 <= score (original (ev_scores e)) <= 100
    /\ 0 <= score (optimized (ev_scores e)) <= 100
    /\ ((forall rs, results = Some rs -> all_failed rs) ->
        score (original (ev_scores e)) == 0
        /\ score (optimized (ev_scores e)) == 0
        /\ ev_improvement e = 0).
Proof.
  unfold evaluate_output.
  set (s := match results with Some rs => tally rs | None => empty_scores end).
  assert (C : counted_both s).
  { subst s. destruct results; [apply tally_counted | apply empty_scores_counted]. }
  destruct C as [Co Cp].
  destruct (percentage_ok _ Co) as (o & Eo & Po & Lo & Uo & Zo).
  destruct (percentage_ok _ Cp) as (p & Ep & Pp & Lp & Up & Zp).
  destruct (improvement_of_ok (score o) (score p)) as (i & Ei & Ipos & Izero).
  rewrite Eo, Ep. simpl. rewrite Ei. simpl.
  eexists. split; [reflexivity|]. simpl.
  repeat split; try assumption.
  - apply Zo. subst s. destruct results as [rs|]; [|reflexivity].
    apply tally_none, H. reflexivity.
  - apply Zp. subst s. destruct results as [rs|]; [|reflexivity].
    apply tally_none, H. reflexivity.
  - apply Izero.
    assert (Z0 : score o == 0).
    { apply Zo. subst s. destruct results as [rs|]; [|reflexivity].
      apply tally_none, H. reflexivity. }
    lra.
Qed.

End EvaluatorScores.

(** *** The scores of context_evaluator.py *)

Section ContextEvaluatorScores.
Import ContextEvaluator.

Lemma qnat_nonneg (n : nat) : 0 <= qnat n.
Proof.
  unfold qnat. change 0 with (inject_Z 0). rewrite <- Zle_Qle. lia.
Qed.

Lemma qnat_S (n : nat) : qnat (S n) == qnat n + 1.
Proof.
  unfold qnat. rewrite Nat2Z.inj_succ. unfold Z.succ.
  rewrite inject_Z_plus. reflexivity.
Qed.

Lemma qnat_le_1 (n : nat) : (n <= 1)%nat -> qnat n <= 1.
Proof.
  intro H. unfold qnat. change 1 with (inject_Z 1). rewrite <- Zle_Qle. lia.
Qed.

Lemma filter_length_le {A} (f : A -> bool) (l : list A) :
  (List.length (filter f l) <= List.length l)%nat.
Proof.
  induction l as [|a l IH]; simpl; [lia|].
  destruct (f a); simpl; lia.
Qed.

Lemma filter_all_false (l : list bool) :
  (forall a, In a l -> a = false) -> filter (fun a => a) l = [].
Proof.
  induction l as [|a l IH]; intro H; simpl; [reflexivity|].
  rewrite (H a (or_introl eq_refl)). apply IH.
  intros b Hb. apply H. right. exact Hb.
Qed.

(** The share of passed assertions is computed without a division by
    zero and lies between 0 and 1. *)
Lemma pass_ratio_ok (pr : prompt_result) :
  exists q, pass_ratio pr = Ok q /\ 0 <= q /\ q <= 1
    /\ ((forall a, In a (assertion pr) -> a = false) -> q == 0).
Proof.
  unfold pass_ratio.
  set (sc := Z.of_nat (List.length (filter (fun a => a) (assertion pr)))).
  set (tt := Z.of_nat (List.length (assertion pr))).
  assert (S0 : (0 <= sc)%Z) by (subst sc; lia).
  assert (ST : (sc <= tt)%Z).
  { subst sc tt. apply inj_le, filter_length_le. }
  destruct (0 <? tt)%Z eqn:T.
  - apply Z.ltb_lt in T.
    assert (Tq : 0 < inject_Z tt).
    { change 0 with (inject_Z 0). rewrite <- Zlt_Qlt. exact T. }
    assert (Sq : 0 <= inject_Z sc).
    { change 0 with (inject_Z 0). rewrite <- Zle_Qle. exact S0. }
    assert (STq : inject_Z sc <= inject_Z tt) by (rewrite <- Zle_Qle; exact ST).
    rewrite (div_pos _ _ Tq).
    eexists. split; [reflexivity|].
    split; [apply Qle_shift_div_l; [exact Tq | lra]|].
    split; [apply Qle_shift_div_r; [exact Tq | lra]|].
    intro F. subst sc. rewrite (filter_all_false _ F). simpl.
    unfold Qdiv. change (inject_Z 0) with 0. lra.
  - exists 0. split; [reflexivity|]. repeat split; try lra.
Qed.

Lemma add_prompt_step (s : Q * Q) (pr : prompt_result) (q : Q) :
  pass_ratio pr = Ok q ->
  add_prompt (Ok s) pr =
  Ok (if String.eqb (prompt_name pr) "Original" then (fst s + q, snd s)
      else if String.eqb (prompt_name pr) "Optimized" then (fst s, snd s + q)
      else s).
Proof.
  intro E. unfold add_prompt. simpl. rewrite E. simpl.
  destruct (String.eqb (prompt_name pr) "Original"); [reflexivity|].
  destruct (String.eqb (prompt_name pr) "Optimized"); reflexivity.
Qed.

(** One test adds, to each of the two sums, at most as much as it has
    results for that prompt, and nothing when none of its assertions passed. *)
Lemma add_test_ok (t : test_result) (s : Q * Q) :
  exists s', add_test (Ok s) t = Ok s'
    /\ fst s <= fst s' /\ fst s' <= fst s + qnat (named "Original" t)
    /\ snd s <= snd s' /\ snd s' <= snd s + qnat (named "Optimized" t)
    /\ ((forall pr, In pr t -> forall a, In a (assertion pr) -> a = false) ->
        fst s' == fst s /\ snd s' == snd s).
Proof.
  unfold add_test. revert s.
  induction t as [|pr t IH]; intro s.
  - exists s. unfold named, qnat; simpl.
    assert (Z0 : inject_Z 0 == 0) by reflexivity.
    split; [reflexivity|].
    repeat split; try lra.
  - destruct (pass_ratio_ok pr) as (q & Eq & Lq & Uq & Zq).
    cbn [fold_left]. rewrite (add_prompt_step s pr q Eq).
    unfold named in *. simpl.
    destruct (String.eqb (prompt_name pr) "Original") eqn:EO.
    + assert (EP : String.eqb (prompt_name pr) "Optimized" = false).
      { apply String.eqb_eq in EO. rewrite EO. reflexivity. }
      rewrite EP.
      destruct (IH (fst s + q, snd s)) as (s' & E & A1 & A2 & B1 & B2 & Z).
      exists s'. split; [exact E|]. simpl in *.
      set (k := List.length (filter (fun pr0 => String.eqb (prompt_name pr0) "Original") t)) in *.
      pose proof (qnat_S k) as HS.
      repeat split; try lra.
      * destruct Z as [Z1 Z2].
        { intros pr' Hin. apply H. right. exact Hin. }
        assert (q == 0) by (apply Zq; intros a Ha; apply (H pr (or_introl eq_refl) a Ha)).
        lra.
      * destruct Z as [Z1 Z2].
        { intros pr' Hin. apply H. right. exact Hin. }
        lra.
    + destruct (String.eqb (prompt_name pr) "Optimized") eqn:EP.
      * destruct (IH (fst s, snd s + q)) as (s' & E & A1 & A2 & B1 & B2 & Z).
        exists s'. split; [exact E|]. simpl in *.
        set (k := List.length (filter (fun pr0 => String.eqb (prompt_name pr0) "Optimized") t)) in *.
        pose proof (qnat_S k) as HS.
        repeat split; try lra.
        -- destruct Z as [Z1 Z2].
           { intros pr' Hin. apply H. right. exact Hin. }
           lra.
        -- destruct Z as [Z1 Z2].
           { intros pr' Hin. apply H. right. exact Hin. }
           assert (q == 0) by (apply Zq; intros a Ha; apply (H pr (or_introl eq_refl) a Ha)).
           lra.
      * destruct (IH s) as (s' & E & A1 & A2 & B1 & B2 & Z).
        assert (Es : (fst s, snd s) = s) by (destruct s; reflexivity).
        exists s'. split; [destruct s; exact E|].
        repeat split; try lra.
        -- apply Z. intros pr' Hin. apply H. right. exact Hin.
        -- apply Z. intros pr' Hin. apply H. right. exact Hin.
Qed.

Lemma fold_add_test_ok (rs : list test_result) (s : Q * Q) :
  exists s', fold_left add_test rs (Ok s) = Ok s'
    /\ fst s <= fst s' /\ snd s <= snd s'
    /\ (one_result_per_prompt rs ->
        fst s' <= fst s + qnat (List.length rs)
        /\ snd s' <= snd s + qnat (List.length rs))
    /\ (no_assertion_passed rs -> fst s' == fst s /\ snd s' == snd s).
Proof.
  revert s. induction rs as [|t rs IH]; intro s.
  - exists s. simpl. unfold qnat; simpl.
    assert (Z0 : inject_Z 0 == 0) by reflexivity.
    split; [reflexivity|]. repeat split; try lra.
  - cbn [fold_left].
    destruct (add_test_ok t s) as (s1 & E1 & A1 & A2 & B1 & B2 & Z1).
    rewrite E1.
    destruct (IH s1) as (s' & E & L1 & L2 & U & Z).
    exists s'. split; [exact E|].
    split; [lra|]. split; [lra|]. split.
    + intro W.
      destruct (W t (or_introl eq_refl)) as [Wo Wp].
      apply qnat_le_1 in Wo. apply qnat_le_1 in Wp.
      destruct U as [U1 U2].
      { intros t' Hin. apply W. right. exact Hin. }
      cbn [List.length]. pose proof (qnat_S (List.length rs)) as HS.
      split; lra.
    + intro N.
      destruct Z as [Za Zb].
      { intros t' Hin. apply N. right. exact Hin. }
      destruct Z1 as [Zc Zd].
      { intros pr Hin. apply (N t (or_introl eq_refl) pr Hin). }
      split; lra.
Qed.

Lemma normalize_ok (x : Q) (n : Z) :
  exists y, normalize x n = Ok y
    /\ (0 <= x -> 0 <= y)
    /\ (x <= inject_Z n -> y <= 100)
    /\ (x == 0 -> y == 0).
Proof.
  unfold normalize.
  destruct (0 <? n)%Z eqn:T.
  - apply Z.ltb_lt in T.
    assert (Tq : 0 < inject_Z n).
    { change 0 with (inject_Z 0). rewrite <- Zlt_Qlt. exact T. }
    rewrite (div_pos _ _ Tq). simpl.
    eexists. split; [reflexivity|].
    split; [|split].
    + intro H. assert (0 <= x / inject_Z n) by (apply Qle_shift_div_l; [exact Tq | lra]).
      lra.
    + intro H. assert (x / inject_Z n <= 1) by (apply Qle_shift_div_r; [exact Tq | lra]).
      lra.
    + intro H. rewrite H. unfold Qdiv. lra.
  - exists 0. split; [reflexivity|]. repeat split; intros; lra.
Qed.

Lemma improvement_percent_of_ok (improvement original : Q) :
  exists v, improvement_percent_of improvement original = Ok v
    /\ (0 < original -> v == improvement / original * 100)
    /\ (original <= 0 -> v = 0).
Proof.
  unfold improvement_percent_of, gt.
  destruct (Qlt_bool 0 original) eqn:G.
  - apply Qlt_bool_iff in G. rewrite (div_pos _ _ G). simpl.
    eexists. split; [reflexivity|]. split; [reflexivity | intro; lra].
  - apply Qlt_bool_false_iff in G.
    exists 0. split; [reflexivity|]. split; [intro; lra | reflexivity].
Qed.

(** Rounding to the nearest integer keeps a value between two integers. *)
Lemma round_half_even_bounds (y : Q) (N : Z) :
  0 <= y -> y <= inject_Z N ->
  (0 <= round_half_even y)%Z /\ (round_half_even y <= N)%Z.
Proof.
  intros L U. unfold round_half_even.
  pose proof (Qfloor_le y) as F1.
  pose proof (Qlt_floor y) as F2.
  set (f := Qfloor y) in *.
  assert (Fpos : (0 <= f)%Z).
  { assert (H : inject_Z 0 < inject_Z (f + 1)) by (change (inject_Z 0) with 0; lra).
    rewrite <- Zlt_Qlt in H. lia. }
  assert (FN : (f <= N)%Z).
  { rewrite Zle_Qle. lra. }
  assert (Up : 1 # 2 <= y - inject_Z f -> (f + 1 <= N)%Z).
  { intro R. assert (H : inject_Z f < inject_Z N) by lra.
    rewrite <- Zlt_Qlt in H. lia. }
  destruct (Qlt_bool (y - inject_Z f) (1 # 2)) eqn:A.
  - split; assumption.
  - apply Qlt_bool_false_iff in A.
    destruct (Qlt_bool (1 # 2) (y - inject_Z f)).
    + split; [lia | apply Up, A].
    + destruct (Z.even f); [split; assumption | split; [lia | apply Up, A]].
Qed.

Lemma round2_bounds (x : Q) : 0 <= x -> x <= 100 -> 0 <= round2 x /\ round2 x <= 100.
Proof.
  intros L U. unfold round2.
  destruct (round_half_even_bounds (x * 100) 10000) as [A B].
  - lra.
  - change (inject_Z 10000) with 10000. lra.
  - rewrite Zle_Qle in A, B.
    change (inject_Z 0) with 0 in A. change (inject_Z 10000) with 10000 in B.
    split.
    + apply Qle_shift_div_l; lra.
    + apply Qle_shift_div_r; lra.
Qed.

Lemma round2_zero (x : Q) : x == 0 -> round2 x == 0.
Proof.
  intro E. unfold round2.
  destruct (round_half_even_bounds (x * 100) 0) as [A B].
  - lra.
  - change (inject_Z 0) with 0. lra.
  - assert (Z0 : round_half_even (x * 100) = 0%Z) by lia.
    rewrite Z0. reflexivity.
Qed.

(** Scoring a result file never raises; with one result per prompt and
    test the rounded scores are percentages; when no assertion passed
    everything is 0. *)
Lemma score_results_ok (rs : list test_result) :
  exists e, score_results rs = Ok e
    /\ (one_result_per_prompt rs ->
        0 <= original_score e /\ original_score e <= 100
        /\ 0 <= optimized_score e /\ optimized_score e <= 100)
    /\ (no_assertion_passed rs ->
        original_score e == 0 /\ optimized_score e == 0
        /\ improvement e == 0 /\ improvement_percent e == 0).
Proof.
  unfold score_results.
  destruct (fold_add_test_ok rs (0, 0)) as (s & E & L1 & L2 & U & Z).
  rewrite E. cbn [bind]. simpl fst in *. simpl snd in *.
  destruct (normalize_ok (fst s) (Z.of_nat (List.length rs))) as (o & Eo & Lo & Uo & Zo).
  destruct (normalize_ok (snd s) (Z.of_nat (List.length rs))) as (p & Ep & Lp & Up & Zp).
  rewrite Eo, Ep. cbn [bind].
  destruct (improvement_percent_of_ok (p - o) o) as (ip & Ei & Ipos & Izero).
  rewrite Ei. cbn [bind].
  eexists. split; [reflexivity|]. simpl.
  split.
  - intro W. destruct (U W) as [U1 U2]. fold (qnat (List.length rs)) in Uo, Up.
    destruct (round2_bounds o) as [? ?]; [apply Lo; lra | apply Uo; lra|].
    destruct (round2_bounds p) as [? ?]; [apply Lp; lra | apply Up; lra|].
    repeat split; assumption.
  - intro N. destruct (Z N) as [Z1 Z2].
    assert (o == 0) by (apply Zo; lra).
    assert (p == 0) by (apply Zp; lra).
    assert (ip = 0) by (apply Izero; lra).
    repeat split.
    + apply round2_zero; assumption.
    + apply round2_zero; assumption.
    + apply round2_zero; lra.
    + subst ip. reflexivity.
Qed.

End ContextEvaluatorScores.

(** C6.  Computing the improvement percentage never divides by zero and
    never raises: for every pair of scores the computation of
    context_evaluator.py, and the same one that evaluator.py calls
    "improvement", returns a value; the value is
    improvement / original_score * 100 when original_score > 0 and 0 when
    original_score = 0 (or below).  Nor does any other division of the two
    scoring routines raise, whatever the judge's output. *)
Theorem C6_improvement_percent_never_raises :
  forall original_score candidate_score : Q,
    (exists v,
        ContextEvaluator.improvement_percent_of
          (candidate_score - original_score) original_score = Ok v
        /\ Evaluator.improvement_of original_score candidate_score = Ok v
        /\ (0 < original_score ->
            v == (candidate_score - original_score) / original_score * 100)
        /\ (original_score == 0 -> v = 0)
        /\ (original_score <= 0 -> v = 0))
    /\ (forall rs, exists e, ContextEvaluator.score_results rs = Ok e)
    /\ (forall results, exists e, Evaluator.evaluate_output results = Ok e).
Proof.
  intros o c. split; [|split].
  - destruct (improvement_percent_of_ok (c - o) o) as (v & E & P & Z).
    exists v. split; [exact E|]. split.
    + destruct (improvement_of_ok o c) as (v' & E' & P' & Z').
      rewrite E'. f_equal.
      unfold ContextEvaluator.improvement_percent_of in E.
      unfold Evaluator.improvement_of in E'.
      destruct (gt o 0); [|congruence].
      destruct (div (c - o) o); simpl in E, E'; congruence.
    + split; [exact P|]. split; intro H; apply Z; lra.
  - intro rs. destruct (score_results_ok rs) as (e & E & _). exists e. exact E.
  - intro results. destruct (evaluate_output_ok results) as (e & E & _).
    exists e. exact E.
Qed.

(** The classification of context_evaluator.py has other thresholds, 5
    and 0, and other labels. *)
Lemma context_recommend_cases (i : Q) :
  (5 < i -> ContextEvaluator.recommend i = "apply_optimization")
  /\ (0 < i -> i <= 5 -> ContextEvaluator.recommend i = "consider_optimization")
  /\ (i <= 0 -> ContextEvaluator.recommend i = "keep_original").
Proof.
  unfold ContextEvaluator.recommend, gt. split; [|split].
  - intro H. apply Qlt_bool_iff in H. rewrite H. reflexivity.
  - intros H0 H5.
    assert (A : Qlt_bool 5 i = false) by (apply Qlt_bool_false_iff; exact H5).
    apply Qlt_bool_iff in H0. rewrite A, H0. reflexivity.
  - intro H.
    assert (A : Qlt_bool 5 i = false) by (apply Qlt_bool_false_iff; lra).
    assert (B : Qlt_bool 0 i = false) by (apply Qlt_bool_false_iff; exact H).
    rewrite A, B. reflexivity.
Qed.

Lemma context_recommend_zero (i : Q) :
  i == 0 -> ContextEvaluator.recommend i = "keep_original".
Proof.
  intro E. unfold ContextEvaluator.recommend, gt.
  assert (H1 : Qlt_bool 5 i = false) by (apply Qlt_bool_false_iff; lra).
  assert (H2 : Qlt_bool 0 i = false) by (apply Qlt_bool_false_iff; lra).
  rewrite H1, H2. reflexivity.
Qed.

(** C2, the claim as stated fails: when the judge itself fails (the
    PromptFoo process exits with an error, or leaves no results) the run
    does not complete with two zero scores, it returns a failure result
    that carries no scores. *)
Lemma C2_judge_failure_returns_an_error :
  Evaluator.run_evaluation (Evaluator.ProcessFailed "exit status 1")
  = Evaluator.EvalFailure "Evaluation process failed: exit status 1"
  /\ Evaluator.evaluate_module "docs/api.md" "optimized/api.md" true true
       (Evaluator.ProcessFailed "exit status 1")
     = Evaluator.ModuleFailure "Evaluation process failed: exit status 1"
  /\ (~ exists r,
        Evaluator.evaluate_module "docs/api.md" "optimized/api.md" true true
          (Evaluator.ProcessFailed "exit status 1")
        = Evaluator.ModuleSuccess r)
  /\ ContextEvaluator.run_evaluation (ContextEvaluator.NonZeroExit "timed out")
     = ContextEvaluator.EvalFailure "timed out"
  /\ ContextEvaluator.run_evaluation (ContextEvaluator.ResultFile [])
     = ContextEvaluator.EvalFailure "No test results found".
Proof.
  repeat split; try reflexivity.
  intros [r H]. discriminate H.
Qed.

(** C2 as amended.  Whenever the judge's output can be read, scoring
    succeeds with both scores in [0,100] (in context_evaluator.py: for a
    result file that is not empty and holds one result per prompt and
    test); when no prompt result succeeds (no assertion passes) both scores
    are 0, the improvement is 0 and the recommendation is the one for no
    change: "neutral" in evaluator.py, "keep_original" in
    context_evaluator.py.  When the judge process fails, prints what cannot
    be parsed, or leaves no result, the run returns a failure result. *)
Theorem C2_scores_well_formed :
  (forall original_path optimized_path results,
      exists r,
        Evaluator.evaluate_module original_path optimized_path true true
          (Evaluator.Parsed results)
        = Evaluator.ModuleSuccess r
        /\ 0 <= Evaluator.score (Evaluator.original (Evaluator.res_scores r))
        /\ Evaluator.score (Evaluator.original (Evaluator.res_scores r)) <= 100
        /\ 0 <= Evaluator.score (Evaluator.optimized (Evaluator.res_scores r))
        /\ Evaluator.score (Evaluator.optimized (Evaluator.res_scores r)) <= 100
        /\ ((forall rs, results = Some rs -> all_failed rs) ->
            Evaluator.score (Evaluator.original (Evaluator.res_scores r)) == 0
            /\ Evaluator.score (Evaluator.optimized (Evaluator.res_scores r)) == 0
            /\ Evaluator.res_improvement r = 0
            /\ Evaluator.recommendation r = "neutral"))
  /\ (forall t rs,
      exists e,
        ContextEvaluator.run_evaluation (ContextEvaluator.ResultFile (t :: rs))
        = ContextEvaluator.EvalSuccess e
        /\ (one_result_per_prompt (t :: rs) ->
            0 <= ContextEvaluator.original_score e
            /\ ContextEvaluator.original_score e <= 100
            /\ 0 <= ContextEvaluator.optimized_score e
            /\ ContextEvaluator.optimized_score e <= 100)
        /\ (no_assertion_passed (t :: rs) ->
            ContextEvaluator.original_score e == 0
            /\ ContextEvaluator.optimized_score e == 0
            /\ ContextEvaluator.improvement e == 0
            /\ ContextEvaluator.improvement_percent e == 0
            /\ ContextEvaluator.recommend (ContextEvaluator.improvement e)
               = "keep_original"))
  /\ (forall original_path optimized_path msg,
      Evaluator.evaluate_module original_path optimized_path true true
        (Evaluator.ProcessFailed msg)
      = Evaluator.ModuleFailure ("Evaluation process failed: " ++ msg))
  /\ (forall original_path optimized_path msg,
      Evaluator.evaluate_module original_path optimized_path true true
        (Evaluator.UnparsableOutput msg)
      = Evaluator.ModuleFailure ("Error parsing evaluation output: " ++ msg))
  /\ (forall stderr,
      ContextEvaluator.run_evaluation (ContextEvaluator.NonZeroExit stderr)
      = ContextEvaluator.EvalFailure stderr)
  /\ ContextEvaluator.run_evaluation ContextEvaluator.NoResultFile
     = ContextEvaluator.EvalFailure "Evaluation result file not found"
  /\ ContextEvaluator.run_evaluation (ContextEvaluator.ResultFile [])
     = ContextEvaluator.EvalFailure "No test results found".
Proof.
  split; [|split; [|repeat split]].
  - intros original_path optimized_path results.
    destruct (evaluate_output_ok results) as (e & E & [Lo Uo] & [Lp Up] & Z).
    unfold Evaluator.evaluate_module, Evaluator.run_evaluation. simpl negb. cbv iota.
    rewrite E. eexists. split; [reflexivity|]. simpl.
    repeat split; try assumption.
    + apply Z, H.
    + apply Z, H.
    + apply Z, H.
    + destruct (Z H) as (_ & _ & I). rewrite I. reflexivity.
  - intros t rs.
    destruct (score_results_ok (t :: rs)) as (e & E & B & Z).
    unfold ContextEvaluator.run_evaluation. rewrite E.
    exists e. split; [reflexivity|]. split; [exact B|].
    intro N. destruct (Z N) as (Z1 & Z2 & Z3 & Z4).
    repeat split; try assumption.
    apply context_recommend_zero, Z3.
Qed.

(** ** feedback_system.py: marking a run as applied *)

Section MarkApplied.
Import FeedbackSystem.

Variable p : optimization_row -> bool.

Lemma latest_timestamp_none (rows : list optimization_row) :
  latest_timestamp p rows = None <-> (forall r, In r rows -> p r = false).
Proof.
  induction rows as [|r rows IH]; simpl.
  - split; [intros _ r [] | reflexivity].
  - destruct (p r) eqn:P.
    + split.
      * destruct (latest_timestamp p rows); discriminate.
      * intro H. specialize (H r (or_introl eq_refl)). congruence.
    + rewrite IH. split.
      * intros H r' [<-|Hin]; [exact P | apply H, Hin].
      * intros H r' Hin. apply H. right. exact Hin.
Qed.

(** The timestamp found is that of a matching row, and no matching row
    has a later one. *)
Lemma latest_timestamp_some (rows : list optimization_row) (t : Z) :
  latest_timestamp p rows = Some t ->
  (exists r, In r rows /\ p r = true /\ opt_timestamp r = t)
  /\ (forall r, In r rows -> p r = true -> (opt_timestamp r <= t)%Z).
Proof.
  revert t. induction rows as [|r rows IH]; intros t; simpl; [discriminate|].
  destruct (p r) eqn:P.
  - destruct (latest_timestamp p rows) as [t'|] eqn:L.
    + intro H. injection H as <-.
      destruct (IH t' eq_refl) as [(r' & Hin & Pr' & Tr') Hmax].
      split.
      * destruct (Z.max_spec (opt_timestamp r) t') as [[_ E]|[_ E]]; rewrite E.
        -- exists r'. auto.
        -- exists r. auto.
      * intros x [<-|Hin'] Px; [lia|].
        specialize (Hmax x Hin' Px). lia.
    + intro H. injection H as <-.
      split; [exists r; auto|].
      intros x [<-|Hin'] Px; [lia|].
      pose proof (proj1 (latest_timestamp_none rows) L x Hin') as Lx.
      rewrite Lx in Px. discriminate.
  - intro H. destruct (IH t H) as [(r' & Hin & Pr' & Tr') Hmax].
    split; [exists r'; auto|].
    intros x [<-|Hin'] Px; [congruence | apply Hmax; assumption].
Qed.

(** The update rewrites exactly one row, one that matches and carries the
    timestamp looked for. *)
Lemma apply_first_spec (t : Z) (rows : list optimization_row) :
  (exists r, In r rows /\ p r = true /\ opt_timestamp r = t) ->
  exists before r after,
    rows = (before ++ r :: after)%list
    /\ p r = true /\ opt_timestamp r = t
    /\ apply_first p t rows = (before ++ set_applied r :: after)%list.
Proof.
  induction rows as [|x rows IH]; intros (r & Hin & Pr & Tr); [destruct Hin|].
  simpl. destruct (p x && (opt_timestamp x =? t)%Z) eqn:Hit.
  - apply andb_true_iff in Hit. destruct Hit as [Px Tx]. apply Z.eqb_eq in Tx.
    exists [], x, rows. simpl. auto.
  - destruct Hin as [<-|Hin].
    + rewrite Pr, Tr, Z.eqb_refl in Hit. discriminate.
    + destruct IH as (before & r' & after & E & Pr' & Tr' & A).
      { exists r. auto. }
      exists (x :: before), r', after. simpl. rewrite E at 1. rewrite A. auto.
Qed.

Hypothesis p_set_applied : forall r, p (set_applied r) = p r.

Lemma set_applied_idempotent (r : optimization_row) :
  set_applied (set_applied r) = set_applied r.
Proof. reflexivity. Qed.

(** Updating again changes nothing. *)
Lemma apply_first_idempotent (t : Z) (rows : list optimization_row) :
  apply_first p t (apply_first p t rows) = apply_first p t rows.
Proof.
  induction rows as [|x rows IH]; simpl; [reflexivity|].
  destruct (p x && (opt_timestamp x =? t)%Z) eqn:Hit; simpl.
  - rewrite p_set_applied. simpl. rewrite Hit. reflexivity.
  - rewrite Hit, IH. reflexivity.
Qed.

Lemma latest_timestamp_apply_first (t : Z) (rows : list optimization_row) :
  latest_timestamp p (apply_first p t rows) = latest_timestamp p rows.
Proof.
  induction rows as [|x rows IH]; simpl; [reflexivity|].
  destruct (p x && (opt_timestamp x =? t)%Z) eqn:Hit; simpl.
  - rewrite p_set_applied. reflexivity.
  - rewrite IH. reflexivity.
Qed.

End MarkApplied.

Lemma matches_set_applied (module target : string) (r : FeedbackSystem.optimization_row) :
  FeedbackSystem.matches module target (FeedbackSystem.set_applied r)
  = FeedbackSystem.matches module target r.
Proof. reflexivity. Qed.

(** C3, the claim as stated fails: with one run recorded and no new run
    in between, the second call of mark_optimization_applied for the same
    pair returns true again, not false; the store is the same after both. *)
Lemma C3_second_call_returns_true :
  fst (FeedbackSystem.mark_optimization_applied
         (FeedbackSystem.quiet (fun _ => 200%Z)) store_with_one_run "doc" "claude")
  = Ok true
  /\ fst (FeedbackSystem.mark_optimization_applied
            (FeedbackSystem.quiet (fun _ => 300%Z))
            (snd (FeedbackSystem.mark_optimization_applied
                    (FeedbackSystem.quiet (fun _ => 200%Z))
                    store_with_one_run "doc" "claude"))
            "doc" "claude")
     = Ok true
  /\ fst (FeedbackSystem.mark_optimization_applied
            (FeedbackSystem.quiet (fun _ => 300%Z))
            (snd (FeedbackSystem.mark_optimization_applied
                    (FeedbackSystem.quiet (fun _ => 200%Z))
                    store_with_one_run "doc" "claude"))
            "doc" "claude")
     <> Ok false.
Proof.
  split; [reflexivity|]. split; [reflexivity|]. discriminate.
Qed.

(** C3 as amended.  With a storage layer that does not fail,
    mark_optimization_applied returns false and leaves the store as it is
    when no run matches the (document, audience) pair; otherwise it returns
    true and sets the applied flag of exactly one run, a matching one whose
    timestamp no matching run exceeds, leaving every other row and table as
    they were.  A second call for the same pair, with no run recorded in
    between, returns what the first returned (true when a run matches) and
    leaves the store unchanged. *)
Theorem C3_mark_applied_most_recent_only :
  forall (clock clock' : nat -> Z) (db : FeedbackSystem.database)
         (module target : string),
    let first := FeedbackSystem.mark_optimization_applied
                   (FeedbackSystem.quiet clock) db module target in
    ((forall r, In r (FeedbackSystem.optimization_results db) ->
                FeedbackSystem.matches module target r = false) ->
     first = (Ok false, db))
    /\ ((exists r, In r (FeedbackSystem.optimization_results db)
                   /\ FeedbackSystem.matches module target r = true) ->
        exists before r after,
          FeedbackSystem.optimization_results db = (before ++ r :: after)%list
          /\ FeedbackSystem.matches module target r = true
          /\ (forall r', In r' (FeedbackSystem.optimization_results db) ->
                         FeedbackSystem.matches module target r' = true ->
                         (FeedbackSystem.opt_timestamp r'
                          <= FeedbackSystem.opt_timestamp r)%Z)
          /\ fst first = Ok true
          /\ FeedbackSystem.optimization_results (snd first)
             = (before ++ FeedbackSystem.set_applied r :: after)%list
          /\ FeedbackSystem.module_feedback (snd first)
             = FeedbackSystem.module_feedback db
          /\ FeedbackSystem.module_feedback_seq (snd first)
             = FeedbackSystem.module_feedback_seq db
          /\ FeedbackSystem.optimization_results_seq (snd first)
             = FeedbackSystem.optimization_results_seq db)
    /\ FeedbackSystem.mark_optimization_applied
         (FeedbackSystem.quiet clock') (snd first) module target
       = first.
Proof.
  intros clock clock' db module target first.
  subst first.
  unfold FeedbackSystem.mark_optimization_applied,
    FeedbackSystem.execute_update_applied, FeedbackSystem.commit,
    FeedbackSystem.statement, FeedbackSystem.quiet, FeedbackSystem.connect,
    FeedbackSystem.view, FeedbackSystem.with_txn, FeedbackSystem.close.
  cbn [FeedbackSystem.fault_at FeedbackSystem.txn FeedbackSystem.disk
       FeedbackSystem.step].
  destruct (FeedbackSystem.latest_timestamp
              (FeedbackSystem.matches module target)
              (FeedbackSystem.optimization_results db)) as [t|] eqn:L.
  - cbn. destruct (latest_timestamp_some _ _ _ L) as [Hex Hmax].
    split; [|split].
    + intro Hnone. destruct Hex as (r & Hin & Pr & _).
      rewrite (Hnone r Hin) in Pr. discriminate.
    + intros _.
      destruct (apply_first_spec _ t _ Hex) as (before & r & after & E & Pr & Tr & A).
      exists before, r, after.
      split; [exact E|]. split; [exact Pr|]. split.
      { intros r' Hin' Pr'. rewrite Tr. apply Hmax; assumption. }
      split; [reflexivity|]. split; [exact A|]. repeat split.
    + rewrite latest_timestamp_apply_first by apply matches_set_applied.
      rewrite L. cbn.
      rewrite apply_first_idempotent by apply matches_set_applied.
      reflexivity.
  - cbn. split; [|split].
    + intros _. destruct db; reflexivity.
    + intros (r & Hin & Pr).
      rewrite (proj1 (latest_timestamp_none _ _) L r Hin) in Pr. discriminate.
    + destruct db; cbn in *. rewrite L. reflexivity.
Qed.

(** ** feedback_system.py: the batch insertion *)

Section BatchInsert.
Import FeedbackSystem.

Lemma with_feedback_nil (w : database) : with_feedback w [] = w.
Proof.
  destruct w. unfold with_feedback. simpl.
  rewrite app_nil_r, Z.add_0_r. reflexivity.
Qed.

Lemma with_feedback_cons (w : database) (row : feedback_row) (rows : list feedback_row) :
  with_feedback
    {| module_feedback := (module_feedback w ++ [row])%list;
       module_feedback_seq := (module_feedback_seq w + 1)%Z;
       optimization_results := optimization_results w;
       optimization_results_seq := optimization_results_seq w |} rows
  = with_feedback w (row :: rows).
Proof.
  unfold with_feedback. cbn [module_feedback module_feedback_seq
    optimization_results optimization_results_seq List.length].
  rewrite <- app_assoc. simpl app.
  f_equal. lia.
Qed.

(** One INSERT inside an open transaction: it raises and leaves the file
    alone, or appends the row of the entry to the uncommitted copy. *)
Lemma execute_insert_feedback_spec (e : env) (c : connection) (fb : feedback_dict)
    (w : database) :
  txn c = Some w ->
  match execute_insert_feedback e c fb with
  | (Ok rowid, c') =>
      disk c' = disk c /\ step c' = S (step c)
      /\ fault_at e (step c) = None /\ insertable fb = true
      /\ exists row,
           stored fb row /\ fb_id row = rowid
           /\ rowid = (module_feedback_seq w + 1)%Z
           /\ txn c' = Some {| module_feedback := (module_feedback w ++ [row])%list;
                               module_feedback_seq := (module_feedback_seq w + 1)%Z;
                               optimization_results := optimization_results w;
                               optimization_results_seq := optimization_results_seq w |}
  | (Raise ex, c') =>
      disk c' = disk c /\ step c' = S (step c) /\ txn c' = Some w
      /\ (fault_at e (step c) = None -> insertable fb = false
          /\ ex = SqliteError "NOT NULL constraint failed")
  end.
Proof.
  intro T. unfold execute_insert_feedback, statement, view, insertable.
  rewrite T.
  destruct (fault_at e (step c)) as [msg|] eqn:F.
  - simpl. repeat split; try discriminate. exact T.
  - destruct (module_name fb) as [m|] eqn:M;
      [destruct (model_used fb) as [u|] eqn:U;
        [destruct (feedback_type fb) as [t|] eqn:Ty|]|];
      cbn -[Z.add]; try (repeat split; reflexivity).
    repeat split.
    exists {| fb_id := (module_feedback_seq w + 1)%Z; fb_module_name := m;
              fb_model_used := u; fb_feedback_type := t;
              fb_feedback_detail := feedback_detail fb;
              fb_timestamp := time_at e (step c);
              fb_session_id := session_id fb |}.
    unfold stored. cbn -[Z.add]. rewrite M, U, Ty. repeat split.
Qed.

(** The insertion loop never touches the file; when it ends well the
    uncommitted copy holds one row per entry, in order, and the ids
    returned are those of the rows. *)
Lemma insert_all_spec (e : env) (feedback_data : list feedback_dict) :
  forall (c : connection) (ids : list Z) (w : database),
    txn c = Some w ->
    disk (snd (insert_all e c feedback_data ids)) = disk c
    /\ match fst (insert_all e c feedback_data ids) with
       | Ok ids' =>
           exists rows,
             txn (snd (insert_all e c feedback_data ids)) = Some (with_feedback w rows)
             /\ Forall2 stored feedback_data rows
             /\ numbered (module_feedback_seq w) rows
             /\ ids' = (ids ++ map fb_id rows)%list
             /\ forallb insertable feedback_data = true
       | Raise ex =>
           txn (snd (insert_all e c feedback_data ids)) <> None
           /\ ((forall k, fault_at e k = None) ->
               forallb insertable feedback_data = false
               /\ ex = SqliteError "NOT NULL constraint failed")
       end.
Proof.
  induction feedback_data as [|fb rest IH]; intros c ids w T.
  - simpl. split; [reflexivity|].
    exists []. rewrite with_feedback_nil, app_nil_r.
    repeat split; [exact T | constructor].
  - cbn [insert_all].
    pose proof (execute_insert_feedback_spec e c fb w T) as S.
    destruct (execute_insert_feedback e c fb) as [[rowid|ex] c'].
    + destruct S as (D & _ & _ & I & row & St & Id & Rid & T').
      destruct (IH c' (ids ++ [rowid])%list _ T') as [D' R].
      split; [rewrite D'; exact D|].
      destruct (fst (insert_all e c' rest (ids ++ [rowid])%list)) as [ids'|ex'].
      * destruct R as (rows & Tx & F2 & Nb & E & Ins).
        exists (row :: rows).
        rewrite with_feedback_cons in Tx.
        split; [exact Tx|]. split; [constructor; assumption|].
        split; [split; [rewrite Id; exact Rid | exact Nb]|].
        split.
        { rewrite E. rewrite <- app_assoc. simpl. rewrite Id. reflexivity. }
        { cbn [forallb]. rewrite I, Ins. reflexivity. }
      * destruct R as [Open R]. split; [exact Open|].
        intro Q. destruct (R Q) as [Ins E]. cbn [forallb].
        rewrite Ins. split; [apply andb_false_r | exact E].
    + destruct S as (D & _ & T' & Hf). simpl. split; [exact D|].
      split; [rewrite T'; discriminate|].
      intro Q. destruct (Hf (Q _)) as [I E].
      cbn [forallb]. rewrite I. split; [reflexivity | exact E].
Qed.

Lemma execute_rollback_disk (e : env) (c : connection) :
  disk (snd (execute_rollback e c)) = disk c.
Proof.
  unfold execute_rollback, statement.
  destruct (fault_at e (step c)); [reflexivity|].
  destruct (txn c); reflexivity.
Qed.

(** What [except: ROLLBACK; raise] and [finally: close] leave: an
    exception, and the file as the connection had it. *)
Lemma rollback_and_raise (e : env) (c : connection) (ex : exn) :
  exists ex',
    match execute_rollback e c with
    | (Ok _, c') => (@Raise (list Z) ex, close c')
    | (Raise ex', c') => (Raise ex', close c')
    end = (Raise ex', disk c)
    /\ ((forall k, fault_at e k = None) -> txn c <> None -> ex' = ex).
Proof.
  pose proof (execute_rollback_disk e c) as D.
  unfold execute_rollback, statement in *.
  destruct (fault_at e (step c)) as [msg|] eqn:F.
  - eexists. split; [reflexivity|]. intros Q. rewrite Q in F. discriminate.
  - destruct (txn c) as [w|].
    + exists ex. split; [reflexivity|]. reflexivity.
    + eexists. split; [reflexivity|]. intros _ N. contradiction.
Qed.

(** The whole call: either it raises and the file is as before, or it
    returns the ids of the rows it appended, one per entry and in order. *)
Lemma execute_begin_connect (e : env) (db : database) :
  execute_begin e (connect db)
  = match fault_at e 0 with
    | Some msg => (Raise (SqliteError msg), tick (connect db))
    | None => (Ok tt, with_txn (connect db) (Some db))
    end.
Proof. reflexivity. Qed.

Lemma batch_add_feedback_cases (e : env) (db : database)
    (feedback_data : list feedback_dict) :
  (exists ex,
      batch_add_feedback e db feedback_data = (Raise ex, db)
      /\ ((forall k, fault_at e k = None) ->
          forallb insertable feedback_data = false
          /\ ex = SqliteError "NOT NULL constraint failed"))
  \/ (exists rows,
        batch_add_feedback e db feedback_data
        = (Ok (map fb_id rows), with_feedback db rows)
        /\ Forall2 stored feedback_data rows
        /\ numbered (module_feedback_seq db) rows
        /\ forallb insertable feedback_data = true).
Proof.
  unfold batch_add_feedback, batch_transaction.
  rewrite execute_begin_connect.
  destruct (fault_at e 0) as [msg|] eqn:F0.
  - left.
    destruct (rollback_and_raise e (tick (connect db)) (SqliteError msg))
      as (ex' & E & _).
    exists ex'. split; [exact E|].
    intro Q. rewrite Q in F0. discriminate.
  - set (c1 := with_txn (connect db) (Some db)).
    assert (T1 : txn c1 = Some db) by reflexivity.
    destruct (insert_all_spec e feedback_data c1 [] db T1) as [D R].
    destruct (insert_all e c1 feedback_data []) as [[ids|ex] c2]; cbn [fst snd] in *.
    + destruct R as (rows & T2 & F2 & Nb & E & Ins).
      unfold execute_commit, statement. rewrite T2.
      destruct (fault_at e (step c2)) as [msg|] eqn:FC.
      * left.
        destruct (rollback_and_raise e (tick c2) (SqliteError msg)) as (ex' & E' & _).
        exists ex'. cbn [disk tick] in E'. rewrite D in E'. split; [exact E'|].
        intro Q. rewrite Q in FC. discriminate.
      * right. exists rows. simpl in E. subst ids.
        repeat split; assumption.
    + left. destruct R as [Open R].
      destruct (rollback_and_raise e c2 ex) as (ex' & E' & Same).
      exists ex'. rewrite D in E'. split; [exact E'|].
      intro Q. destruct (R Q) as [Ins Eex].
      split; [exact Ins|].
      rewrite <- Eex. apply Same; assumption.
Qed.

End BatchInsert.

(** C10.  batch_add_feedback is atomic.  Whenever the call raises (an
    entry that cannot be inserted, or a failure of the storage layer at
    any statement) the transaction is rolled back: the database is what it
    was before the call, no entry of the batch is recorded, and the
    caller gets the exception.  An entry whose insert fails always makes
    the call raise.  Whenever the call returns, every entry was appended
    as one row, in input order, and the list returned holds the ids of
    those rows, one per entry, in input order, numbered on from the
    table's last id.  With a storage layer that does not fail the call
    returns exactly when every entry can be inserted, and otherwise
    re-raises the error of the failed insert. *)
Theorem C10_batch_add_feedback_atomic :
  forall (e : FeedbackSystem.env) (db : FeedbackSystem.database)
         (feedback_data : list FeedbackSystem.feedback_dict),
    (forall ex,
        fst (FeedbackSystem.batch_add_feedback e db feedback_data) = Raise ex ->
        snd (FeedbackSystem.batch_add_feedback e db feedback_data) = db)
    /\ (forall ids,
        fst (FeedbackSystem.batch_add_feedback e db feedback_data) = Ok ids ->
        exists rows,
          snd (FeedbackSystem.batch_add_feedback e db feedback_data)
          = with_feedback db rows
          /\ Forall2 stored feedback_data rows
          /\ numbered (FeedbackSystem.module_feedback_seq db) rows
          /\ ids = map FeedbackSystem.fb_id rows
          /\ List.length ids = List.length feedback_data)
    /\ (forallb insertable feedback_data = false ->
        exists ex,
          FeedbackSystem.batch_add_feedback e db feedback_data = (Raise ex, db))
    /\ ((forall k, FeedbackSystem.fault_at e k = None) ->
        (forallb insertable feedback_data = true ->
         exists ids,
           fst (FeedbackSystem.batch_add_feedback e db feedback_data) = Ok ids)
        /\ (forallb insertable feedback_data = false ->
            FeedbackSystem.batch_add_feedback e db feedback_data
            = (Raise (SqliteError "NOT NULL constraint failed"), db))).
Proof.
  intros e db feedback_data.
  destruct (batch_add_feedback_cases e db feedback_data)
    as [(ex & E & Cause) | (rows & E & F2 & Nb & Ins)]; rewrite E; cbn [fst snd].
  - split; [intros; reflexivity|].
    split; [intros ids H; discriminate H|].
    split; [intros _; exists ex; reflexivity|].
    intro Q. destruct (Cause Q) as [NotIns Eex]. split.
    + intro I. rewrite I in NotIns. discriminate.
    + intros _. rewrite Eex. reflexivity.
  - split; [intros ex H; discriminate H|].
    split.
    { intros ids H. injection H as <-. exists rows.
      repeat split; try assumption.
      rewrite length_map. symmetry. apply (Forall2_length F2). }
    split; [intro N; rewrite N in Ins; discriminate|].
    intros _. split.
    + intros _. eexists. reflexivity.
    + intro N. rewrite N in Ins. discriminate.
Qed.

(** ** context_feedback.py: effectiveness and prioritization *)

Section Prioritization.
Import ContextFeedback.

Lemma latest_none (rows : list optimization_row) :
  latest rows = None -> rows = [].
Proof.
  destruct rows as [|r rows]; [reflexivity|]. simpl.
  destruct (latest rows) as [r'|]; [|discriminate].
  destruct (opt_timestamp r <? opt_timestamp r')%Z; discriminate.
Qed.

(** The row selected is one of the rows, and none is more recent. *)
Lemma latest_some (rows : list optimization_row) (r : optimization_row) :
  latest rows = Some r ->
  In r rows /\ (forall x, In x rows -> (opt_timestamp x <= opt_timestamp r)%Z).
Proof.
  revert r. induction rows as [|x rows IH]; intros r; simpl; [discriminate|].
  destruct (latest rows) as [r'|] eqn:L.
  - destruct (IH r' eq_refl) as [Hin Hmax].
    destruct (opt_timestamp x <? opt_timestamp r')%Z eqn:C; intro H; injection H as <-.
    + apply Z.ltb_lt in C. split; [right; exact Hin|].
      intros y [<-|Hy]; [lia | apply Hmax, Hy].
    + apply Z.ltb_ge in C. split; [left; reflexivity|].
      intros y [<-|Hy]; [lia | specialize (Hmax y Hy); lia].
  - intro H. injection H as <-. apply latest_none in L. subst rows.
    split; [left; reflexivity|].
    intros y [<-|[]]. lia.
Qed.

Lemma insert_by_effectiveness_in (x c : candidate) (l : list candidate) :
  In c (insert_by_effectiveness x l) <-> c = x \/ In c l.
Proof.
  induction l as [|y l IH]; simpl.
  - split; [intros [<-|[]]; left; reflexivity | intros [->|[]]; left; reflexivity].
  - destruct (Qle_bool (c_effectiveness x) (c_effectiveness y)); simpl.
    + split; [intros [<-|H]; [left; reflexivity | right; exact H]
             | intros [->|H]; [left; reflexivity | right; exact H]].
    + rewrite IH. split.
      * intros [<-|[->|H]]; [right; left | left | right; right]; auto.
      * intros [->|[<-|H]]; [right; left | left | right; right]; auto.
Qed.

(** Sorting neither adds nor drops an entry. *)
Lemma sort_by_effectiveness_in (c : candidate) (l : list candidate) :
  In c (sort_by_effectiveness l) <-> In c l.
Proof.
  unfold sort_by_effectiveness.
  induction l as [|x l IH]; simpl; [reflexivity|].
  rewrite insert_by_effectiveness_in, IH.
  split; intros [H|H]; auto.
Qed.

(** A module enters the list only when it was never optimized or its
    latest run is more than 30 days old. *)
Lemma consider_in (e : env) (db : database) (target_model : option string)
    (module_name : string) (count : Z) (avg eff : Q) (c : candidate) :
  In c (consider e db target_model module_name count avg eff) ->
  c_module_name c = module_name /\ cooled_down e db module_name target_model.
Proof.
  unfold consider, cooled_down.
  destruct (latest (runs_of db module_name target_model)) as [r|].
  - destruct (30 <? days_since (now e) (opt_timestamp r))%Z eqn:D; [|intros []].
    intros [<-|[]]. split; [reflexivity | apply Z.ltb_lt, D].
  - intros [<-|[]]. split; [reflexivity | exact I].
Qed.

Lemma identify_in (e : env) (db : database) (min_feedback : Z)
    (max_effectiveness : Q) (target_model : option string) (c : candidate) :
  In c (candidates (identify_modules_for_improvement e db min_feedback
                      max_effectiveness target_model)) ->
  cooled_down e db (c_module_name c) target_model.
Proof.
  unfold identify_modules_for_improvement, candidates.
  destruct (io e); [intros []|].
  rewrite sort_by_effectiveness_in, in_flat_map.
  intros (name & _ & Hc).
  match type of Hc with
  | In _ (if ?b then _ else _) => destruct b; [|destruct Hc]
  end.
  apply consider_in in Hc. destruct Hc as [-> Hcool]. exact Hcool.
Qed.

(** A run younger than 30 days is not more than 30 whole days old. *)
Lemma days_since_recent (now_ ts : Z) :
  (now_ - ts < 30 * microseconds_per_day)%Z -> (days_since now_ ts <= 30)%Z.
Proof.
  intro H. unfold days_since.
  assert (P : (0 < microseconds_per_day)%Z) by reflexivity.
  assert ((now_ - ts) / microseconds_per_day < 30)%Z.
  { apply Z.div_lt_upper_bound; [exact P | lia]. }
  lia.
Qed.

End Prioritization.

(** C7.  Prioritization honors the cooldown of 30 days.  Take any document
    whose most recent optimization run, among those of the requested
    audience when one is given, is younger than 30 days.  Then
    identify_modules_for_improvement does not return the document,
    whatever its effectiveness, its feedback count and the thresholds of
    the call; and the call does return a list when the storage layer
    does not fail. *)
Theorem C7_cooldown_excludes_recent_runs :
  forall (e : ContextFeedback.env) (db : ContextFeedback.database)
         (min_feedback : Z) (max_effectiveness : Q)
         (target_model : option string) (module_name : string)
         (run : ContextFeedback.optimization_row),
    In run (ContextFeedback.runs_of db module_name target_model) ->
    (forall r, In r (ContextFeedback.runs_of db module_name target_model) ->
               (ContextFeedback.opt_timestamp r
                <= ContextFeedback.opt_timestamp run)%Z) ->
    (ContextFeedback.now e - ContextFeedback.opt_timestamp run
     < 30 * ContextFeedback.microseconds_per_day)%Z ->
    (forall c,
        In c (candidates (ContextFeedback.identify_modules_for_improvement
                            e db min_feedback max_effectiveness target_model)) ->
        ContextFeedback.c_module_name c <> module_name)
    /\ (ContextFeedback.io e = None ->
        exists l,
          ContextFeedback.identify_modules_for_improvement
            e db min_feedback max_effectiveness target_model
          = ContextFeedback.Success l
          /\ ~ In module_name (map ContextFeedback.c_module_name l)).
Proof.
  intros e db min_feedback max_effectiveness target_model module_name run
         Hin Hlatest Hyoung.
  assert (Excl : forall c,
             In c (candidates (ContextFeedback.identify_modules_for_improvement
                                 e db min_feedback max_effectiveness target_model)) ->
             ContextFeedback.c_module_name c <> module_name).
  { intros c Hc Hname.
    apply identify_in in Hc. rewrite Hname in Hc. unfold cooled_down in Hc.
    destruct (ContextFeedback.latest
                (ContextFeedback.runs_of db module_name target_model))
      as [r|] eqn:L.
    - destruct (latest_some _ _ L) as [_ Hmax].
      specialize (Hmax run Hin).
      assert (Y : (ContextFeedback.now e - ContextFeedback.opt_timestamp r
                   < 30 * ContextFeedback.microseconds_per_day)%Z) by lia.
      apply days_since_recent in Y. lia.
    - apply latest_none in L. rewrite L in Hin. destruct Hin. }
  split; [exact Excl|].
  intro Hio.
  destruct (ContextFeedback.identify_modules_for_improvement
              e db min_feedback max_effectiveness target_model) as [l|err] eqn:R.
  - exists l. split; [reflexivity|].
    rewrite in_map_iff. intros (c & Hname & Hc).
    apply (Excl c Hc Hname).
  - unfold ContextFeedback.identify_modules_for_improvement in R.
    rewrite Hio in R. discriminate R.
Qed.

(** C7 at the spec's example: a document with five poor feedback entries
    (effectiveness 20) and a run 5 days old is not returned with the
    defaults, though it would be had it never been optimized. *)
Lemma C7_cooldown_example :
  In run_on_day_95 (ContextFeedback.runs_of optimized_5_days_ago "doc" None)
  /\ (forall r, In r (ContextFeedback.runs_of optimized_5_days_ago "doc" None) ->
                (ContextFeedback.opt_timestamp r
                 <= ContextFeedback.opt_timestamp run_on_day_95)%Z)
  /\ (ContextFeedback.now day_100 - ContextFeedback.opt_timestamp run_on_day_95
      < 30 * ContextFeedback.microseconds_per_day)%Z
  /\ (forall c,
        In c (candidates (ContextFeedback.identify_modules_for_improvement
                            day_100 optimized_5_days_ago 3 70 None)) ->
        ContextFeedback.c_module_name c <> "doc")
  /\ map ContextFeedback.c_module_name
       (candidates (ContextFeedback.identify_modules_for_improvement
                      day_100 never_optimized 3 70 None))
     = ["doc"].
Proof.
  assert (H1 : In run_on_day_95
                 (ContextFeedback.runs_of optimized_5_days_ago "doc" None))
    by (left; reflexivity).
  assert (H2 : forall r,
             In r (ContextFeedback.runs_of optimized_5_days_ago "doc" None) ->
             (ContextFeedback.opt_timestamp r
              <= ContextFeedback.opt_timestamp run_on_day_95)%Z).
  { intros r [<-|[]]. apply Z.le_refl. }
  assert (H3 : (ContextFeedback.now day_100
                - ContextFeedback.opt_timestamp run_on_day_95
                < 30 * ContextFeedback.microseconds_per_day)%Z)
    by reflexivity.
  split; [exact H1|]. split; [exact H2|]. split; [exact H3|].
  split; [|reflexivity].
  exact (proj1 (C7_cooldown_excludes_recent_runs day_100 optimized_5_days_ago
                  3 70 None "doc" run_on_day_95 H1 H2 H3)).
Defined.




(** ** The write operations *)

Section Writes.
Import ContextFeedback.

Lemma existsb_eqb_in (x : string) (l : list string) :
  existsb (String.eqb x) l = true <-> In x l.
Proof.
  rewrite existsb_exists. split.
  - intros (y & Hin & E). apply String.eqb_eq in E. subst y. exact Hin.
  - intro Hin. exists x. split; [exact Hin | apply String.eqb_refl].
Qed.

Lemma id_taken {A} (f : A -> string) (id : string) (rows : list A) :
  existsb (fun r => String.eqb (f r) id) rows = true <-> In id (map f rows).
Proof.
  rewrite existsb_exists, in_map_iff. split.
  - intros (r & Hin & E). apply String.eqb_eq in E. exists r. auto.
  - intros (r & E & Hin). exists r. split; [exact Hin|].
    rewrite E. apply String.eqb_refl.
Qed.

Lemma valid_score_some (score : score_arg) (z : Z) :
  valid_score score = Some z <->
  score = IntScore z /\ (1 <= z)%Z /\ (z <= 10)%Z.
Proof.
  unfold valid_score. destruct score as [y|].
  - destruct ((y <? 1) || (10 <? y))%Z eqn:B.
    + split; [discriminate|]. intros (E & L & U). injection E as ->.
      apply orb_true_iff in B. rewrite !Z.ltb_lt in B. lia.
    + apply orb_false_iff in B. rewrite !Z.ltb_ge in B.
      split.
      * intro H. injection H as <-. repeat split; lia.
      * intros (E & _). injection E as ->. reflexivity.
  - split; [discriminate | intros (E & _); discriminate].
Qed.

Lemma eqb_empty (s : string) : String.eqb s "" = false <-> s <> "".
Proof. apply String.eqb_neq. Qed.

(** [add_feedback] succeeds exactly on well-formed arguments, a working
    storage layer and a fresh id; then it appends one row, which carries
    that id; every failure leaves the store as it was. *)
Lemma add_feedback_spec (e : env) (db : database) (module_name target_model : string)
    (score : score_arg) (comment : option string) (source : string) :
  let r := add_feedback e db module_name target_model score comment source in
  ((exists row, fst r = Success row) <->
   well_formed_feedback module_name target_model score
   /\ io e = None /\ ~ In (uuid e) (map fb_id (feedback db)))
  /\ (forall row, fst r = Success row ->
      fb_id row = uuid e /\ fb_module_name row = module_name
      /\ fb_target_model row = target_model /\ score = IntScore (fb_score row)
      /\ feedback (snd r) = (feedback db ++ [row])%list
      /\ optimization_results (snd r) = optimization_results db)
  /\ (forall msg, fst r = Failure msg -> snd r = db)
  /\ (well_formed_feedback module_name target_model score ->
      forall err, io e = Some err -> r = (Failure err, db)).
Proof.
  unfold add_feedback, well_formed_feedback.
  destruct (String.eqb module_name "") eqn:M.
  { apply String.eqb_eq in M. cbn.
    split; [split; [intros [row H]; discriminate | intros ((N & _) & _); contradiction]|].
    split; [intros row H; discriminate|].
    split; [reflexivity|]. intros (N & _). contradiction. }
  destruct (String.eqb target_model "") eqn:T.
  { apply String.eqb_eq in T. cbn.
    split; [split; [intros [row H]; discriminate | intros ((_ & N & _) & _); contradiction]|].
    split; [intros row H; discriminate|].
    split; [reflexivity|]. intros (_ & N & _). contradiction. }
  apply eqb_empty in M. apply eqb_empty in T. cbn [orb].
  destruct (valid_score score) as [z|] eqn:V.
  2:{ cbn.
      assert (NV : ~ exists z, score = IntScore z /\ (1 <= z)%Z /\ (z <= 10)%Z).
      { intros (z & Hz). apply valid_score_some in Hz. congruence. }
      split; [split; [intros [row H]; discriminate
                     | intros ((_ & _ & W) & _); contradiction]|].
      split; [intros row H; discriminate|].
      split; [reflexivity|]. intros (_ & _ & W). contradiction. }
  pose proof (proj1 (valid_score_some score z) V) as (Es & Lz & Uz).
  destruct (io e) as [err|] eqn:IO.
  { cbn.
    split; [split; [intros [row H]; discriminate
                   | intros (_ & N & _); discriminate]|].
    split; [intros row H; discriminate|].
    split; [reflexivity|]. intros _ err' H. injection H as <-. reflexivity. }
  destruct (existsb (fun r => String.eqb (fb_id r) (uuid e)) (feedback db)) eqn:X.
  { apply id_taken in X. cbn.
    split; [split; [intros [row H]; discriminate
                   | intros (_ & _ & N); contradiction]|].
    split; [intros row H; discriminate|].
    split; [reflexivity|]. intros _ err H. discriminate. }
  assert (Fresh : ~ In (uuid e) (map fb_id (feedback db))).
  { intro H. apply id_taken in H. congruence. }
  cbn. split.
  - split; [|intros _; eexists; reflexivity].
    intros _. repeat split; try assumption. exists z. auto.
  - split.
    + intros row H. injection H as <-. cbn. repeat split. exact Es.
    + split; [intros msg H; discriminate | intros _ err H; discriminate].
Qed.

(** The same for [add_optimization_result]. *)
Lemma add_optimization_result_spec (e : env) (db : database)
    (module_name target_model : string) (evaluation_result : evaluation_arg)
    (applied : bool) :
  let r := add_optimization_result e db module_name target_model
             evaluation_result applied in
  ((exists row, fst r = Success row) <->
   well_formed_run module_name target_model evaluation_result
   /\ io e = None /\ ~ In (uuid e) (map opt_id (optimization_results db)))
  /\ (forall row, fst r = Success row ->
      opt_id row = uuid e /\ opt_module_name row = module_name
      /\ opt_target_model row = target_model /\ opt_applied row = applied
      /\ optimization_results (snd r) = (optimization_results db ++ [row])%list
      /\ feedback (snd r) = feedback db)
  /\ (forall msg, fst r = Failure msg -> snd r = db)
  /\ (well_formed_run module_name target_model evaluation_result ->
      forall err, io e = Some err -> r = (Failure err, db)).
Proof.
  unfold add_optimization_result, well_formed_run.
  destruct (String.eqb module_name "") eqn:M.
  { apply String.eqb_eq in M. cbn.
    split; [split; [intros [row H]; discriminate | intros ((N & _) & _); contradiction]|].
    split; [intros row H; discriminate|].
    split; [reflexivity|]. intros (N & _). contradiction. }
  destruct (String.eqb target_model "") eqn:T.
  { apply String.eqb_eq in T. cbn.
    split; [split; [intros [row H]; discriminate | intros ((_ & N & _) & _); contradiction]|].
    split; [intros row H; discriminate|].
    split; [reflexivity|]. intros (_ & N & _). contradiction. }
  apply eqb_empty in M. apply eqb_empty in T. cbn [orb].
  destruct evaluation_result as [d|].
  2:{ cbn.
      split; [split; [intros [row H]; discriminate
                     | intros ((_ & _ & d & W) & _); discriminate]|].
      split; [intros row H; discriminate|].
      split; [reflexivity|]. intros (_ & _ & d & W). discriminate. }
  destruct (io e) as [err|] eqn:IO.
  { cbn.
    split; [split; [intros [row H]; discriminate
                   | intros (_ & N & _); discriminate]|].
    split; [intros row H; discriminate|].
    split; [reflexivity|]. intros _ err' H. injection H as <-. reflexivity. }
  destruct (existsb (fun r => String.eqb (opt_id r) (uuid e))
                    (optimization_results db)) eqn:X.
  { apply id_taken in X. cbn.
    split; [split; [intros [row H]; discriminate
                   | intros (_ & _ & N); contradiction]|].
    split; [intros row H; discriminate|].
    split; [reflexivity|]. intros _ err H. discriminate. }
  assert (Fresh : ~ In (uuid e) (map opt_id (optimization_results db))).
  { intro H. apply id_taken in H. congruence. }
  cbn. split.
  - split; [|intros _; eexists; reflexivity].
    intros _. repeat split; try assumption. exists d. reflexivity.
  - split.
    + intros row H. injection H as <-. cbn. repeat split.
    + split; [intros msg H; discriminate | intros _ err H; discriminate].
Qed.

End Writes.



(** ** Test-case generation *)

Section Synthesis.

Lemma firstn_nonempty {A} (n : Z) (l : list A) :
  (1 <= n)%Z -> l <> [] -> slice_to n l <> [].
Proof.
  intros Hn Hl. unfold slice_to.
  assert (E : (0 <=? n)%Z = true) by (apply Z.leb_le; lia).
  rewrite E.
  destruct (Z.to_nat n) as [|k] eqn:K; [lia|].
  destruct l as [|a l]; [contradiction | discriminate].
Qed.

Lemma padded_nonempty {A} (x : A) (n : Z) (l : list A) :
  (1 <= n)%Z ->
  (l ++ repeat x (Z.to_nat (n - Z.of_nat (List.length l))))%list <> [].
Proof.
  intro Hn. destruct l as [|a l]; [|discriminate].
  simpl. rewrite Z.sub_0_r.
  destruct (Z.to_nat n) as [|k] eqn:K; [lia | discriminate].
Qed.

Lemma map_nonempty {A B} (f : A -> B) (l : list A) : l <> [] -> map f l <> [].
Proof. destruct l; [contradiction | discriminate]. Qed.

End Synthesis.

(** C5, the claim as stated fails: asked for no probe at all, the
    generator returns the empty list for a content that is not empty and
    holds a context block (evaluator.py), and for any content
    (context_evaluator.py). *)
Lemma C5_empty_list_for_zero_probes :
  one_block <> ""
  /\ Evaluator.generate_test_cases Evaluator.no_faults one_block 0 = []
  /\ ContextEvaluator.generate_test_cases (fun l => l) None one_block 0 = [].
Proof.
  split; [discriminate|]. split; reflexivity.
Qed.

(** C5 as amended.  For every content and every number of probes that is
    at least 1, generate_test_cases returns a list that is not empty, and
    returns it whatever exception is raised inside: no exception leaves
    it.  In evaluator.py, when no context block is found, or when
    extracting the blocks raises, the result is the two generic test
    cases; an error raised while extracting the key terms leaves the key
    terms empty; any other exception in the body gives the one fallback
    test case.  In context_evaluator.py any exception in the body gives
    the one fallback test case. *)
Theorem C5_generate_test_cases_never_empty :
  forall (f : Evaluator.faults) (set_order : list string -> list string)
         (fault : option exn) (module_content : string) (num : Z),
    (1 <= num)%Z ->
    Evaluator.generate_test_cases f module_content num <> []
    /\ ContextEvaluator.generate_test_cases set_order fault module_content num <> []
    /\ (Evaluator.body_fault f = None ->
        Evaluator._extract_context_blocks None module_content = [] ->
        Evaluator.generate_test_cases f module_content num
        = Evaluator.generic_test_cases)
    /\ (Evaluator.body_fault f = None ->
        Evaluator.blocks_fault f <> None ->
        Evaluator.generate_test_cases f module_content num
        = Evaluator.generic_test_cases)
    /\ (Evaluator.terms_fault f <> None ->
        Evaluator._extract_key_terms (Evaluator.terms_fault f) module_content 10 = [])
    /\ (Evaluator.body_fault f <> None ->
        Evaluator.generate_test_cases f module_content num
        = Evaluator.fallback_test_cases)
    /\ (fault <> None ->
        ContextEvaluator.generate_test_cases set_order fault module_content num
        = ContextEvaluator.fallback_test_cases).
Proof.
  intros f set_order fault module_content num Hn.
  split; [|split; [|split; [|split; [|split; [|split]]]]].
  - unfold Evaluator.generate_test_cases, Evaluator.generate_body.
    destruct (Evaluator.body_fault f); [discriminate|].
    destruct (Evaluator._extract_context_blocks _ _); [discriminate|].
    unfold Evaluator.pad. apply padded_nonempty, Hn.
  - unfold ContextEvaluator.generate_test_cases, ContextEvaluator.generate_body.
    destruct fault; [discriminate|].
    apply map_nonempty, firstn_nonempty; [exact Hn|].
    destruct (findall1 ContextEvaluator.context_block_pattern module_content);
      [discriminate|].
    unfold ContextEvaluator.pad. apply padded_nonempty, Hn.
  - intros B E.
    unfold Evaluator.generate_test_cases, Evaluator.generate_body.
    rewrite B.
    destruct (Evaluator.blocks_fault f); [reflexivity|].
    rewrite E. reflexivity.
  - intros B N.
    unfold Evaluator.generate_test_cases, Evaluator.generate_body.
    rewrite B.
    destruct (Evaluator.blocks_fault f); [reflexivity | contradiction].
  - intro N. unfold Evaluator._extract_key_terms.
    destruct (Evaluator.terms_fault f); [reflexivity | contradiction].
  - intro N.
    unfold Evaluator.generate_test_cases, Evaluator.generate_body.
    destruct (Evaluator.body_fault f); [reflexivity | contradiction].
  - intro N.
    unfold ContextEvaluator.generate_test_cases, ContextEvaluator.generate_body.
    destruct fault; [reflexivity | contradiction].
Qed.

(** C5 with the defaults of the two generators, 5 and 3 probes. *)
Lemma C5_default_probe_counts :
  (1 <= 5)%Z
  /\ Evaluator.generate_test_cases Evaluator.no_faults one_block 5 <> []
  /\ List.length (Evaluator.generate_test_cases Evaluator.no_faults one_block 5) = 5%nat
  /\ List.length (ContextEvaluator.generate_test_cases (fun l => l) None one_block 3)
     = 3%nat.
Proof.
  assert (H : (1 <= 5)%Z) by discriminate.
  split; [exact H|].
  split; [|split; reflexivity].
  exact (proj1 (C5_generate_test_cases_never_empty Evaluator.no_faults
                  (fun l => l) None one_block 5 H)).
Defined.

(** ** Key terms *)

Section KeyTerms.
Import Evaluator.

Lemma mem_in (x : string) (l : list string) : mem x l = true <-> In x l.
Proof. apply existsb_eqb_in. Qed.

Lemma first_index_lt (t : string) (l : list string) :
  In t l -> (first_index t l < List.length l)%nat.
Proof.
  induction l as [|x l IH]; intros H; [destruct H|]. simpl.
  destruct (String.eqb x t) eqn:E; [lia|].
  destruct H as [->|H]; [rewrite String.eqb_refl in E; discriminate|].
  specialize (IH H). lia.
Qed.

Lemma first_index_app_in (t : string) (pre rest : list string) :
  In t pre -> first_index t (pre ++ rest) = first_index t pre.
Proof.
  induction pre as [|x pre IH]; intros H; [destruct H|]. simpl.
  destruct (String.eqb x t) eqn:E; [reflexivity|].
  destruct H as [->|H]; [rewrite String.eqb_refl in E; discriminate|].
  rewrite (IH H). reflexivity.
Qed.

Lemma first_index_app_new (t : string) (pre rest : list string) :
  ~ In t pre -> first_index t (pre ++ t :: rest) = List.length pre.
Proof.
  induction pre as [|x pre IH]; intros H; simpl.
  - rewrite String.eqb_refl. reflexivity.
  - destruct (String.eqb x t) eqn:E.
    + apply String.eqb_eq in E. subst x. exfalso. apply H. left. reflexivity.
    + rewrite IH; [reflexivity|]. intro Hin. apply H. right. exact Hin.
Qed.

Lemma StronglySorted_snoc {A} (R : A -> A -> Prop) (l : list A) (x : A) :
  StronglySorted R l -> (forall y, In y l -> R y x) ->
  StronglySorted R (l ++ [x]).
Proof.
  induction 1 as [|a l S IH F]; intro H; simpl.
  - constructor; constructor.
  - constructor.
    + apply IH. intros y Hy. apply H. right. exact Hy.
    + apply Forall_app. split; [exact F|].
      constructor; [apply H; left; reflexivity | constructor].
Qed.

(** The loop of [_extract_key_terms], started after the matches [pre] with
    the terms kept so far: what it returns has no duplicate, no term
    shorter than 4 characters, and stands in the order of first appearance
    among all the matches. *)
Lemma key_terms_loop_spec (max_terms : Z) (all : list string) :
  forall (matches pre key_terms seen : list string),
    all = (pre ++ matches)%list ->
    (forall t, In t seen <-> In t key_terms) ->
    (forall t, In t key_terms -> In t pre) ->
    (forall t, In t pre -> kept t = true -> In t key_terms) ->
    NoDup key_terms ->
    Forall (fun t => (4 <= String.length t)%nat) key_terms ->
    in_order_of_first_appearance all key_terms ->
    let ks := key_terms_loop max_terms matches key_terms seen in
    NoDup ks
    /\ Forall (fun t => (4 <= String.length t)%nat) ks
    /\ in_order_of_first_appearance all ks
    /\ (forall t, In t ks -> In t all).
Proof.
  induction matches as [|term rest IH];
    intros pre key_terms seen Eall Hseen Hpre Hkept Hnd Hlong Hord; cbn zeta.
  - simpl. repeat split; try assumption.
    intros t Ht. rewrite Eall, app_nil_r. apply Hpre, Ht.
  - cbn [key_terms_loop].
    assert (Eall' : all = ((pre ++ [term]) ++ rest)%list).
    { rewrite Eall, <- app_assoc. reflexivity. }
    destruct ((3 <? String.length term)%nat && negb (mem term seen)
              && negb (mem (lower term) stop_words)) eqn:C.
    + apply andb_true_iff in C. destruct C as [C Cstop].
      apply andb_true_iff in C. destruct C as [Clen Cseen].
      apply Nat.ltb_lt in Clen. apply negb_true_iff in Cseen.
      assert (Nseen : ~ In term key_terms).
      { intro H. apply Hseen, mem_in in H. congruence. }
      assert (Npre : ~ In term pre).
      { intro H. apply Nseen, Hkept; [exact H|].
        unfold kept. rewrite Cstop.
        assert (L : (3 <? String.length term)%nat = true) by (apply Nat.ltb_lt; exact Clen).
        rewrite L. reflexivity. }
      assert (Hnd' : NoDup (key_terms ++ [term])).
      { apply NoDup_app; [exact Hnd | repeat constructor; intros [] |].
        intros x Hx [<-|[]]. contradiction. }
      assert (Hlong' : Forall (fun t => (4 <= String.length t)%nat) (key_terms ++ [term])).
      { apply Forall_app. split; [exact Hlong | repeat constructor; lia]. }
      assert (Hord' : in_order_of_first_appearance all (key_terms ++ [term])).
      { apply StronglySorted_snoc; [exact Hord|].
        intros y Hy. rewrite Eall.
        rewrite (first_index_app_in y pre (term :: rest) (Hpre y Hy)).
        rewrite (first_index_app_new term pre rest Npre).
        apply first_index_lt, Hpre, Hy. }
      assert (Hin' : forall t, In t (key_terms ++ [term]) -> In t (pre ++ [term])).
      { intros t Ht. apply in_app_iff in Ht. apply in_app_iff.
        destruct Ht as [Ht|Ht]; [left; apply Hpre, Ht | right; exact Ht]. }
      destruct (max_terms <=? Z.of_nat (List.length (key_terms ++ [term])))%Z.
      * repeat split; try assumption.
        intros t Ht. rewrite Eall'. apply in_app_iff. left. apply Hin', Ht.
      * apply (IH (pre ++ [term])%list); try assumption.
        -- intro t. simpl. rewrite in_app_iff, Hseen. simpl. tauto.
        -- intros t Ht Kt. apply in_app_iff in Ht. apply in_app_iff.
           destruct Ht as [Ht|[<-|[]]]; [left; apply Hkept; assumption|].
           right. left. reflexivity.
    + apply (IH (pre ++ [term])%list); try assumption.
      * intros t Ht. apply in_app_iff. left. apply Hpre, Ht.
      * intros t Ht Kt. apply in_app_iff in Ht.
        destruct Ht as [Ht|[<-|[]]]; [apply Hkept; assumption|].
        unfold kept in Kt. apply andb_true_iff in Kt. destruct Kt as [K1 K2].
        rewrite K1, K2 in C. rewrite !andb_true_r in C. simpl in C.
        apply negb_false_iff in C. apply mem_in in C. apply Hseen, C.
Qed.

(** Key-term extraction in evaluator.py: order of first appearance, no
    duplicates, no term shorter than 4 characters; and at most as many
    terms as asked for. *)
Lemma evaluator_key_terms_ordered (fault : option exn) (content : string)
    (max_terms : Z) :
  let ks := _extract_key_terms fault content max_terms in
  NoDup ks
  /\ Forall (fun t => (4 <= String.length t)%nat) ks
  /\ in_order_of_first_appearance (findall1 term_pattern content) ks
  /\ (forall t, In t ks -> In t (findall1 term_pattern content)).
Proof.
  unfold _extract_key_terms. destruct fault as [e|].
  - cbn zeta. repeat split; try constructor. intros t [].
  - apply (key_terms_loop_spec max_terms _ _ []); try reflexivity.
    + intros t []. 
    + intros t [].
    + constructor.
    + constructor.
    + constructor.
Qed.

End KeyTerms.

(** C4, evaluated on context_evaluator.py.  On the content
    "use `ab` and `zeta`" its _extract_key_terms keeps the back-quoted
    term "ab", two characters long: only the terms taken from code blocks
    and the capitalized ones are filtered by length.  The terms come out in
    the iteration order of a Python set of strings, which is not the order
    of first appearance and differs from one interpreter run to the next:
    with the order ab, zeta and with the order zeta, ab the key-term lists
    differ, and so do the test cases generated from the same content.
    Whatever the order, "ab" is among the key terms.  The sibling
    _extract_key_terms of evaluator.py does what the claim says: for every
    content its terms have no duplicate, none is shorter than 4
    characters, and they stand in the order of first appearance. *)
Theorem C4_key_terms_of_context_evaluator :
  ContextEvaluator._extract_key_terms (fun l => l) two_quoted_terms = ["ab"; "zeta"]
  /\ ContextEvaluator._extract_key_terms (@rev string) two_quoted_terms
     = ["zeta"; "ab"]
  /\ String.length "ab" = 2%nat
  /\ (forall set_order : list string -> list string,
        (forall l, Permutation (set_order l) l) ->
        In "ab" (ContextEvaluator._extract_key_terms set_order two_quoted_terms))
  /\ ContextEvaluator.generate_test_cases (fun l => l) None two_quoted_terms 3
     <> ContextEvaluator.generate_test_cases (@rev string) None two_quoted_terms 3
  /\ (forall (fault : option exn) (content : string) (max_terms : Z),
        NoDup (Evaluator._extract_key_terms fault content max_terms)
        /\ Forall (fun t => (4 <= String.length t)%nat)
                  (Evaluator._extract_key_terms fault content max_terms)
        /\ in_order_of_first_appearance
             (findall1 Evaluator.term_pattern content)
             (Evaluator._extract_key_terms fault content max_terms)).
Proof.
  split; [reflexivity|]. split; [reflexivity|]. split; [reflexivity|].
  split; [|split].
  - intros set_order P.
    unfold ContextEvaluator._extract_key_terms.
    change (ContextEvaluator.distinct []
              (ContextEvaluator.technical_terms two_quoted_terms))
      with ["ab"; "zeta"].
    pose proof (P ["ab"; "zeta"]) as Q.
    pose proof (Permutation_length Q) as L.
    rewrite firstn_all2 by (rewrite L; simpl; lia).
    apply (Permutation_in _ (Permutation_sym Q)). left. reflexivity.
  - discriminate.
  - intros fault content max_terms.
    destruct (evaluator_key_terms_ordered fault content max_terms)
      as (A & B & C & _).
    auto.
Qed.

(** * Further properties of the modelled code *)

(** ** scripts/context/utils.py *)

Section UtilsProperties.

Import Utils.

Lemma rfind_none (c : ascii) (s : list ascii) :
  rfind c s = None -> ~ In c s.
Proof.
  induction s as [|x s IH]; simpl; [tauto|].
  destruct (rfind c s) as [i|]; [discriminate|].
  destruct (Ascii.eqb x c) eqn:E; [discriminate|].
  intros _ [H|H].
  - subst x. rewrite Ascii.eqb_refl in E. discriminate.
  - exact (IH eq_refl H).
Qed.

Lemma rfind_some (c : ascii) (s : list ascii) (i : nat) :
  rfind c s = Some i ->
  ~ In c (skipn (S i) s) /\ (i < List.length s)%nat.
Proof.
  revert i. induction s as [|x s IH]; simpl; [discriminate|].
  intros i. destruct (rfind c s) as [j|] eqn:R.
  - intros E. injection E as <-. destruct (IH j eq_refl) as [A B].
    split; [exact A | lia].
  - destruct (Ascii.eqb x c); [|discriminate].
    intros E. injection E as <-. split; [|lia].
    simpl. apply rfind_none, R.
Qed.

Lemma rfind_app (c : ascii) (l1 l2 : list ascii) :
  ~ In c l2 -> rfind c (l1 ++ c :: l2)%list = Some (List.length l1).
Proof.
  intros N. induction l1 as [|x l1 IH]; simpl.
  - destruct (rfind c l2) as [i|] eqn:R.
    + destruct (rfind_some c l2 i R) as [_ L].
      exfalso. clear L. revert i R.
      induction l2 as [|y l2 IH2]; simpl; [discriminate|].
      intros i. destruct (rfind c l2) as [j|] eqn:R2.
      * intros _. apply (IH2 (fun H => N (or_intror H)) j eq_refl).
      * destruct (Ascii.eqb y c) eqn:E; [|discriminate].
        apply Ascii.eqb_eq in E. intros _. apply N. left. exact E.
    + rewrite Ascii.eqb_refl. reflexivity.
  - rewrite IH. reflexivity.
Qed.

Lemma basename_no_slash (p : list ascii) : ~ In "/"%char (basename p).
Proof.
  unfold basename. destruct (rfind "/"%char p) as [i|] eqn:R.
  - apply (rfind_some _ _ _ R).
  - apply rfind_none, R.
Qed.

Lemma splitext_root_incl (p : list ascii) (c : ascii) :
  In c (splitext_root p) -> In c p.
Proof.
  unfold splitext_root. destruct (rfind "."%char p) as [i|]; [|tauto].
  destruct (existsb _ _); [|tauto].
  intros H. rewrite <- (firstn_skipn i p). apply in_or_app. left. exact H.
Qed.

Lemma list_ascii_of_string_app (a b : string) :
  list_ascii_of_string (a ++ b)
  = (list_ascii_of_string a ++ list_ascii_of_string b)%list.
Proof.
  induction a as [|c a IH]; simpl; [reflexivity|]. rewrite IH. reflexivity.
Qed.

Lemma safe_filename_length (name : string) :
  String.length (safe_filename name) = String.length name.
Proof.
  induction name as [|c name IH]; simpl; [reflexivity|]. rewrite IH. reflexivity.
Qed.

Lemma safe_filename_clean (name : string) :
  Forall (fun c => unsafe c = false)
         (list_ascii_of_string (safe_filename name)).
Proof.
  induction name as [|c name IH]; simpl; constructor; [|exact IH].
  destruct (unsafe c) eqn:U; [reflexivity | exact U].
Qed.

Lemma safe_filename_fixed (name : string) :
  Forall (fun c => unsafe c = false) (list_ascii_of_string name) ->
  safe_filename name = name.
Proof.
  induction name as [|c name IH]; simpl; [reflexivity|].
  intros H. inversion H as [|? ? U T]; subst.
  rewrite U, (IH T). reflexivity.
Qed.

End UtilsProperties.

(** X1, extract_module_name of utils.py.  Whatever the path, the module
    name has no slash in it: the directory part is always cut off. *)
Theorem X1_module_name_has_no_slash (file_path : string) :
  ~ In "/"%char (list_ascii_of_string (Utils.extract_module_name file_path)).
Proof.
  unfold Utils.extract_module_name.
  rewrite list_ascii_of_string_of_list_ascii.
  intros H. apply splitext_root_incl in H.
  exact (basename_no_slash _ H).
Qed.

(** X2, extract_module_name of utils.py.  For a file [name.ext] inside
    any directory the module name is [name], provided that [name] has no
    slash and is not made of dots alone, and that [ext] has neither a dot
    nor a slash. *)
Theorem X2_module_name_of_a_file (dir name ext : string)
    (Hslash : ~ In "/"%char (list_ascii_of_string name))
    (Hname : exists c, In c (list_ascii_of_string name) /\ c <> "."%char)
    (Hdot : ~ In "."%char (list_ascii_of_string ext))
    (Hext : ~ In "/"%char (list_ascii_of_string ext)) :
  Utils.extract_module_name (dir ++ "/" ++ name ++ "." ++ ext) = name.
Proof.
  unfold Utils.extract_module_name.
  rewrite !list_ascii_of_string_app.
  change (list_ascii_of_string "/") with ["/"%char].
  change (list_ascii_of_string ".") with ["."%char].
  set (d := list_ascii_of_string dir).
  set (n := list_ascii_of_string name) in *.
  set (e := list_ascii_of_string ext) in *.
  assert (B : Utils.basename (d ++ ["/"%char] ++ n ++ ["."%char] ++ e)%list
              = (n ++ "."%char :: e)%list).
  { unfold Utils.basename. simpl app.
    rewrite rfind_app.
    - change (d ++ "/"%char :: n ++ "."%char :: e)%list
        with (d ++ ["/"%char] ++ (n ++ "."%char :: e))%list.
      rewrite app_assoc.
      replace (S (List.length d)) with (List.length (d ++ ["/"%char])%list)
        by (rewrite length_app; simpl; lia).
      rewrite skipn_app, skipn_all, Nat.sub_diag. reflexivity.
    - intros H. apply in_app_or in H. destruct H as [H|[H|H]].
      + exact (Hslash H).
      + discriminate.
      + exact (Hext H). }
  rewrite B. unfold Utils.splitext_root.
  rewrite (rfind_app _ _ _ Hdot).
  rewrite firstn_app, firstn_all, Nat.sub_diag. simpl firstn. rewrite app_nil_r.
  replace (existsb (fun c => negb (Ascii.eqb c "."%char)) n) with true.
  - apply string_of_list_ascii_of_string.
  - symmetry. apply existsb_exists. destruct Hname as (c & I & N).
    exists c. split; [exact I|].
    destruct (Ascii.eqb c ".") eqn:E; [|reflexivity].
    apply Ascii.eqb_eq in E. contradiction.
Qed.

Lemma X2_module_name_example :
  Utils.extract_module_name ("contexts/web" ++ "/" ++ "api.v2" ++ "." ++ "md")
  = "api.v2".
Proof.
  apply X2_module_name_of_a_file.
  - simpl. intros H.
    repeat (destruct H as [H|H]; [discriminate H|]). exact H.
  - exists "a"%char. split; [simpl; auto | discriminate].
  - simpl. intros H.
    repeat (destruct H as [H|H]; [discriminate H|]). exact H.
  - simpl. intros H.
    repeat (destruct H as [H|H]; [discriminate H|]). exact H.
Defined.

(** X3, safe_filename of utils.py.  The cleaned name is as long as the
    given one and holds none of the nine characters the pattern lists;
    cleaning a second time changes nothing, and a name without any of
    those characters comes back as it is. *)
Theorem X3_safe_filename_cleans (name : string) :
  String.length (Utils.safe_filename name) = String.length name
  /\ Forall (fun c => Utils.unsafe c = false)
            (list_ascii_of_string (Utils.safe_filename name))
  /\ Utils.safe_filename (Utils.safe_filename name) = Utils.safe_filename name
  /\ (Forall (fun c => Utils.unsafe c = false) (list_ascii_of_string name) ->
      Utils.safe_filename name = name).
Proof.
  split; [apply safe_filename_length|].
  split; [apply safe_filename_clean|].
  split; [apply safe_filename_fixed, safe_filename_clean|].
  apply safe_filename_fixed.
Qed.

(** ** scripts/context/evaluator.py: blocks, key terms and test cases *)

Section StripProperties.

Lemma lstrip_starts_clean (s : string) : starts_clean (lstrip s).
Proof.
  induction s as [|c s IH]; simpl; [exact I|].
  destruct (is_space c) eqn:E; [exact IH | exact E].
Qed.

Lemma lstrip_fixed (s : string) : starts_clean s -> lstrip s = s.
Proof.
  destruct s as [|c s]; simpl; [reflexivity|]. intros ->. reflexivity.
Qed.

Lemma rstrip_starts_clean (s : string) : starts_clean s -> starts_clean (rstrip s).
Proof.
  destruct s as [|c s]; simpl; [tauto|]. intros E.
  destruct (rstrip s); [rewrite E|]; exact E.
Qed.

Lemma rstrip_cons (c : ascii) (s : string) :
  rstrip s <> EmptyString -> rstrip (String c s) = String c (rstrip s).
Proof.
  intros N. simpl. destruct (rstrip s); [contradiction | reflexivity].
Qed.

Lemma rstrip_idempotent (s : string) : rstrip (rstrip s) = rstrip s.
Proof.
  induction s as [|c s IH]; [reflexivity|].
  destruct (rstrip s) as [|d t] eqn:R.
  - simpl. rewrite R.
    destruct (is_space c) eqn:E; simpl; [reflexivity|]. rewrite E. reflexivity.
  - rewrite rstrip_cons by (rewrite R; discriminate).
    rewrite R in *. rewrite rstrip_cons by (rewrite IH; discriminate).
    rewrite IH. reflexivity.
Qed.

Lemma strip_idempotent (s : string) : strip (strip s) = strip s.
Proof.
  unfold strip.
  rewrite (lstrip_fixed (rstrip (lstrip s))).
  - apply rstrip_idempotent.
  - apply rstrip_starts_clean, lstrip_starts_clean.
Qed.

End StripProperties.

Section EvaluatorBlocks.

Import Evaluator.

Lemma dict_set_keys (d : list (string * string)) (k v x : string) :
  In x (map fst (dict_set d k v)) <-> x = k \/ In x (map fst d).
Proof.
  induction d as [|[k' v'] d IH]; simpl.
  - intuition congruence.
  - destruct (String.eqb k' k) eqn:E; simpl.
    + apply String.eqb_eq in E. subst k'. intuition congruence.
    + rewrite IH. intuition congruence.
Qed.

Lemma dict_set_nodup (d : list (string * string)) (k v : string) :
  NoDup (map fst d) -> NoDup (map fst (dict_set d k v)).
Proof.
  induction d as [|[k' v'] d IH]; simpl; intros N.
  - constructor; [intros [] | constructor].
  - inversion N as [|? ? N1 N2]; subst.
    destruct (String.eqb k' k) eqn:E; simpl.
    + apply String.eqb_eq in E. subst k'. constructor; assumption.
    + constructor; [|apply IH, N2].
      rewrite dict_set_keys. intros [H|H]; [|exact (N1 H)].
      subst k'. rewrite String.eqb_refl in E. discriminate.
Qed.

Lemma dict_set_entries (P : string * string -> Prop)
    (d : list (string * string)) (k v : string) :
  Forall P d -> P (k, v) -> Forall P (dict_set d k v).
Proof.
  intros F Pv. induction d as [|[k' v'] d IH]; simpl.
  - constructor; [exact Pv | constructor].
  - inversion F as [|? ? F1 F2]; subst.
    destruct (String.eqb k' k); constructor; auto.
Qed.

Lemma blocks_fold (P : string * string -> Prop) (ms : list Re.found) :
  (forall m, In m ms -> P (group 1 m, strip (group 2 m))) ->
  forall d, NoDup (map fst d) -> Forall P d ->
    let d' := fold_left (fun d m => dict_set d (group 1 m) (strip (group 2 m)))
                        ms d in
    NoDup (map fst d') /\ Forall P d'.
Proof.
  induction ms as [|m ms IH]; intros HP d N F; simpl; [split; assumption|].
  apply IH.
  - intros m' H. apply HP. right. exact H.
  - apply dict_set_nodup, N.
  - apply dict_set_entries; [exact F | apply HP; left; reflexivity].
Qed.

Lemma key_terms_loop_bound (max_terms : Z) (matches key_terms seen : list string) :
  (Z.of_nat (List.length key_terms) < Z.max 1 max_terms)%Z ->
  (Z.of_nat (List.length (key_terms_loop max_terms matches key_terms seen))
   <= Z.max 1 max_terms)%Z.
Proof.
  revert key_terms seen.
  induction matches as [|term rest IH]; intros key_terms seen H; simpl; [lia|].
  destruct (_ && _ && _); [|apply IH, H].
  assert (L : List.length (key_terms ++ [term])%list = S (List.length key_terms)).
  { rewrite length_app. simpl. lia. }
  destruct (max_terms <=? _)%Z eqn:E.
  - rewrite L. lia.
  - apply IH. apply Z.leb_gt in E. rewrite L in *. lia.
Qed.

Lemma key_terms_loop_stop_words (max_terms : Z)
    (matches key_terms seen : list string) :
  Forall (fun t => ~ In (lower t) stop_words) key_terms ->
  Forall (fun t => ~ In (lower t) stop_words)
         (key_terms_loop max_terms matches key_terms seen).
Proof.
  revert key_terms seen.
  induction matches as [|term rest IH]; intros key_terms seen H;
    cbn [key_terms_loop]; [exact H|].
  destruct (_ && _ && _) eqn:C; [|apply IH, H].
  apply andb_true_iff in C. destruct C as [_ C].
  apply negb_true_iff in C.
  assert (H' : Forall (fun t => ~ In (lower t) stop_words)
                      (key_terms ++ [term])%list).
  { apply Forall_app. split; [exact H|]. constructor; [|constructor].
    intros I. apply mem_in in I. congruence. }
  destruct (max_terms <=? _)%Z; [exact H' | apply IH, H'].
Qed.

Lemma slice_to_length {A} (n : Z) (l : list A) :
  (0 <= n)%Z -> (Z.of_nat (List.length (slice_to n l)) <= n)%Z.
Proof.
  intros H. unfold slice_to.
  destruct (0 <=? n)%Z eqn:E; [|apply Z.leb_gt in E; lia].
  rewrite length_firstn. lia.
Qed.

Lemma slice_to_bound {A} (n : Z) (l : list A) :
  (0 <= n)%Z -> (List.length (slice_to n l) <= Z.to_nat n)%nat.
Proof.
  intros H. pose proof (slice_to_length n l H). lia.
Qed.

Lemma padded_length {A} (x : A) (n : Z) (l : list A) :
  (Z.of_nat (List.length l) <= n)%Z ->
  Z.of_nat (List.length
              (l ++ repeat x (Z.to_nat (n - Z.of_nat (List.length l))))%list) = n.
Proof.
  intros H. rewrite length_app, repeat_length. lia.
Qed.

Lemma filter_length_bound {A} (f : A -> bool) (l : list A) :
  (List.length (filter f l) <= List.length l)%nat.
Proof.
  induction l as [|a l IH]; simpl; [lia|]. destruct (f a); simpl; lia.
Qed.

Lemma block_test_case_asserts (key_terms : list string) (nb : string * string) :
  (1 <= len (asserts (block_test_case key_terms nb)) <= 4)%Z.
Proof.
  destruct nb as [name block]. unfold len. simpl.
  rewrite length_map.
  pose proof (filter_length_bound (fun term => related term name block)
                (slice_to 3 key_terms)).
  pose proof (slice_to_bound 3 key_terms ltac:(lia)).
  lia.
Qed.

Lemma tally_prompt_original (s : scores) (pr : prompt_result) :
  (prompt_name pr = "original" -> success pr = false) ->
  passed (original s) = 0%Z -> passed (original (tally_prompt s pr)) = 0%Z.
Proof.
  intros F H. unfold tally_prompt.
  destruct (String.eqb (prompt_name pr) "original") eqn:E; simpl.
  - apply String.eqb_eq in E. rewrite (F E). exact H.
  - destruct (String.eqb (prompt_name pr) "optimized"); exact H.
Qed.

Lemma tally_original (rs : list test_result) :
  original_never_passed rs -> passed (original (tally rs)) = 0%Z.
Proof.
  unfold tally. assert (H0 : passed (original empty_scores) = 0%Z) by reflexivity.
  revert H0. generalize empty_scores as s. revert rs.
  induction rs as [|t rs IH]; intros s H0 F; simpl; [exact H0|].
  apply IH.
  - unfold tally_test.
    assert (Ft : forall pr, In pr t ->
                 prompt_name pr = "original" -> success pr = false).
    { intros pr I. apply (F t); [left; reflexivity | exact I]. }
    clear F IH. revert s H0. induction t as [|pr t IHt]; intros s H0; simpl.
    + exact H0.
    + apply IHt.
      * intros pr' I. apply Ft. right. exact I.
      * apply tally_prompt_original; [apply Ft; left; reflexivity | exact H0].
  - intros t' I. apply F. right. exact I.
Qed.

End EvaluatorBlocks.

(** X4, _extract_context_blocks of evaluator.py.  The named blocks it
    returns have pairwise different names, every one is the name and the
    stripped body of some match of the pattern, and no body begins or ends
    with whitespace: stripping it again changes nothing. *)
Theorem X4_context_blocks_are_keyed_by_name (fault : option exn) (content : string) :
  let blocks := Evaluator._extract_context_blocks fault content in
  NoDup (map fst blocks)
  /\ Forall (fun nb =>
               strip (snd nb) = snd nb
               /\ exists m, In m (finditer Evaluator.context_pattern content)
                            /\ fst nb = group 1 m
                            /\ snd nb = strip (group 2 m))
            blocks.
Proof.
  unfold Evaluator._extract_context_blocks. destruct fault as [e|]; cbn zeta.
  - split; constructor.
  - apply blocks_fold.
    + intros m I. simpl. split; [apply strip_idempotent|].
      exists m. auto.
    + constructor.
    + constructor.
Qed.

(** X5, _extract_key_terms of evaluator.py.  It returns at most
    max_terms terms, and at most one when max_terms is 0 or negative (the
    bound is tested after a term is appended); no returned term is, in
    lower case, one of the five stop words. *)
Theorem X5_key_terms_are_bounded (fault : option exn) (content : string)
    (max_terms : Z) :
  let key_terms := Evaluator._extract_key_terms fault content max_terms in
  (len key_terms <= Z.max 1 max_terms)%Z
  /\ Forall (fun t => ~ In (lower t) Evaluator.stop_words) key_terms.
Proof.
  unfold Evaluator._extract_key_terms, len. destruct fault as [e|]; cbn zeta.
  - split; [simpl; lia | constructor].
  - split.
    + apply key_terms_loop_bound. simpl. lia.
    + apply key_terms_loop_stop_words. constructor.
Qed.

(** X6, generate_test_cases of evaluator.py.  When the content holds a
    named context block and nothing fails in the body, the generator
    returns exactly num_cases test cases, for every num_cases from 0 on:
    blocks beyond num_cases are dropped and missing cases are filled with
    the padding case.  Every test case carries from one to four
    assertions. *)
Theorem X6_one_test_case_per_requested_probe (f : Evaluator.faults)
    (module_content : string) (num_cases : Z)
    (Hnum : (0 <= num_cases)%Z)
    (Hbody : Evaluator.body_fault f = None)
    (Hblocks : Evaluator._extract_context_blocks (Evaluator.blocks_fault f)
                 module_content <> []) :
  let test_cases := Evaluator.generate_test_cases f module_content num_cases in
  len test_cases = num_cases
  /\ Forall (fun tc => (1 <= len (asserts tc) <= 4)%Z) test_cases.
Proof.
  unfold Evaluator.generate_test_cases, Evaluator.generate_body.
  rewrite Hbody.
  destruct (Evaluator._extract_context_blocks (Evaluator.blocks_fault f)
              module_content) as [|nb blocks] eqn:B; [contradiction|].
  cbn zeta. unfold Evaluator.pad, len. split.
  - apply padded_length. rewrite length_map. apply slice_to_length, Hnum.
  - apply Forall_app. split.
    + apply Forall_forall. intros tc I. apply in_map_iff in I.
      destruct I as (nb' & <- & _). apply block_test_case_asserts.
    + apply Forall_forall. intros tc I. apply repeat_spec in I. subst tc.
      unfold len. simpl. lia.
Qed.

Lemma X6_five_probes_for_one_block :
  len (Evaluator.generate_test_cases Evaluator.no_faults one_block 5) = 5%Z
  /\ Forall (fun tc => (1 <= len (asserts tc) <= 4)%Z)
            (Evaluator.generate_test_cases Evaluator.no_faults one_block 5).
Proof.
  apply (X6_one_test_case_per_requested_probe Evaluator.no_faults one_block 5).
  - lia.
  - reflexivity.
  - vm_compute. discriminate.
Defined.

(** X7, run_evaluation and evaluate_module of evaluator.py.  When no
    prompt result of the original version succeeds, the original score is
    0 and the improvement is reported as 0, whatever the optimized version
    scores: such a module is always classified "neutral", never "apply". *)
Theorem X7_no_improvement_over_a_zero_score (original_path optimized_path : string)
    (rs : list Evaluator.test_result)
    (Horiginal : original_never_passed rs) :
  exists r,
    Evaluator.evaluate_module original_path optimized_path true true
      (Evaluator.Parsed (Some rs))
    = Evaluator.ModuleSuccess r
    /\ Evaluator.score (Evaluator.original (Evaluator.res_scores r)) == 0
    /\ Evaluator.res_improvement r = 0
    /\ Evaluator.recommendation r = "neutral".
Proof.
  unfold Evaluator.evaluate_module, Evaluator.run_evaluation,
    Evaluator.evaluate_output. cbn [negb].
  destruct (tally_counted rs) as [Co Cp].
  destruct (percentage_ok _ Co) as (o & Eo & Po & Lo & Uo & Zo).
  destruct (percentage_ok _ Cp) as (p & Ep & Pp & Lp & Up & Zp).
  destruct (improvement_of_ok (Evaluator.score o) (Evaluator.score p))
    as (i & Ei & Ipos & Izero).
  assert (Z0 : Evaluator.score o == 0) by (apply Zo, tally_original, Horiginal).
  assert (I0 : i = 0) by (apply Izero; lra).
  rewrite Eo, Ep. simpl. rewrite Ei. simpl.
  eexists. split; [reflexivity|]. simpl. subst i.
  split; [exact Z0|]. split; reflexivity.
Qed.

Lemma X7_optimized_passes_original_fails :
  exists r,
    Evaluator.evaluate_module "api.md" "optimized/api.md" true true
      (Evaluator.Parsed (Some only_optimized_passes))
    = Evaluator.ModuleSuccess r
    /\ Evaluator.score (Evaluator.original (Evaluator.res_scores r)) == 0
    /\ Evaluator.res_improvement r = 0
    /\ Evaluator.recommendation r = "neutral".
Proof.
  apply X7_no_improvement_over_a_zero_score.
  intros t [<-|[]] pr [<-|[<-|[]]]; simpl; [reflexivity | discriminate].
Defined.

(** ** Sorting *)

Section SortProperties.

Context {A : Type}.
Variable before : A -> A -> bool.

Lemma insert_perm (x : A) (l : list A) :
  Permutation (Sort.insert before x l) (x :: l).
Proof.
  induction l as [|y l IH]; simpl; [reflexivity|].
  destruct (before x y); [reflexivity|].
  rewrite IH. apply perm_swap.
Qed.

Lemma sort_perm (l : list A) : Permutation (Sort.sort before l) l.
Proof.
  induction l as [|x l IH]; simpl; [reflexivity|].
  unfold Sort.sort in *. simpl. rewrite insert_perm. constructor. exact IH.
Qed.

Lemma sort_in (x : A) (l : list A) : In x (Sort.sort before l) <-> In x l.
Proof.
  split; apply Permutation_in; [|apply Permutation_sym]; apply sort_perm.
Qed.

Lemma sort_length (l : list A) :
  List.length (Sort.sort before l) = List.length l.
Proof. apply Permutation_length, sort_perm. Qed.

Hypothesis before_total : forall x y, before x y = false -> before y x = true.
Hypothesis before_trans :
  forall x y z, before x y = true -> before y z = true -> before x z = true.

Lemma insert_sorted (x : A) (l : list A) :
  StronglySorted (fun a b => before a b = true) l ->
  StronglySorted (fun a b => before a b = true) (Sort.insert before x l).
Proof.
  induction l as [|y l IH]; simpl; intros S.
  - constructor; constructor.
  - inversion S as [|? ? S1 S2]; subst.
    destruct (before x y) eqn:E.
    + constructor; [exact S|]. constructor; [exact E|].
      apply Forall_forall. intros z I.
      apply (before_trans x y z E).
      rewrite Forall_forall in S2. apply S2, I.
    + constructor; [apply IH, S1|].
      apply Forall_forall. intros z I.
      apply (Permutation_in _ (insert_perm x l)) in I.
      destruct I as [<-|I]; [apply before_total, E|].
      rewrite Forall_forall in S2. apply S2, I.
Qed.

Lemma sort_sorted (l : list A) :
  StronglySorted (fun a b => before a b = true) (Sort.sort before l).
Proof.
  induction l as [|x l IH]; [constructor|].
  unfold Sort.sort in *. simpl. apply insert_sorted, IH.
Qed.

End SortProperties.

Lemma sql_limit_length {A} (limit : Z) (l : list A) :
  (0 <= limit)%Z -> (Z.of_nat (List.length (Sort.sql_limit limit l)) <= limit)%Z.
Proof.
  intros H. unfold Sort.sql_limit.
  destruct (limit <? 0)%Z eqn:E; [apply Z.ltb_lt in E; lia|].
  rewrite length_firstn. lia.
Qed.

Lemma sql_limit_incl {A} (limit : Z) (l : list A) (x : A) :
  In x (Sort.sql_limit limit l) -> In x l.
Proof.
  unfold Sort.sql_limit. destruct (limit <? 0)%Z; [tauto|].
  intros H. rewrite <- (firstn_skipn (Z.to_nat limit) l).
  apply in_or_app. left. exact H.
Qed.

(** ** scripts/context/evaluator.py: the batch *)

Section EvaluatorBatch.

Import Evaluator.

Lemma sum_improvement_snoc (l : list module_info) (m : module_info) :
  sum_improvement (l ++ [m]) == sum_improvement l + mi_improvement m.
Proof.
  induction l as [|x l IH]; simpl; [ring|]. rewrite IH. ring.
Qed.

Lemma len_snoc {X} (l : list X) (x : X) : len (l ++ [x]) = (len l + 1)%Z.
Proof. unfold len. rewrite length_app. simpl. lia. Qed.

Lemma perm_insert {X} (l1 l2 done l : list X) (x : X) :
  l = (l1 ++ x :: l2)%list ->
  Permutation (l1 ++ l2) done ->
  Permutation l (done ++ [x]).
Proof.
  intros -> P.
  apply Permutation_sym. rewrite <- Permutation_cons_append.
  apply Permutation_cons_app, Permutation_sym, P.
Qed.

Lemma batch_step_invariant (done : list string) (st : batch_state)
    (module_path : string) (report : module_report) :
  batch_invariant done st ->
  batch_invariant (done ++ [module_path]) (batch_step st module_path report).
Proof.
  destruct st as [b t]. destruct report as [name [r|err]];
    unfold batch_invariant, batch_step, batch_paths;
    intros (I1 & I2 & I3 & I4 & I5 & I6 & I7 & I8 & I9).
  - cbn [bt_evaluated bt_improved bt_regressed bt_neutral bt_failed
         bt_modules bt_average_improvement bt_total].
    unfold recommend in *.
    destruct (gt (res_improvement r) 10) eqn:G;
      [|destruct (lt (res_improvement r) (-5)) eqn:L].
    + repeat split; try assumption.
      * rewrite len_snoc. lia.
      * rewrite len_snoc. lia.
      * rewrite !len_snoc. lia.
      * rewrite map_app. simpl map.
        apply (perm_insert (map mi_path (bt_improved b))
                 (map mi_path (bt_regressed b) ++ map mi_path (bt_neutral b)
                  ++ map fi_path (bt_failed b))%list);
          [rewrite <- !app_assoc; reflexivity | exact I4].
      * rewrite sum_improvement_snoc, I5. simpl. ring.
      * apply Forall_app. split; [exact I6|]. constructor; [|constructor].
        simpl. rewrite G. reflexivity.
    + repeat split; try assumption.
      * rewrite len_snoc. lia.
      * rewrite len_snoc. lia.
      * rewrite !len_snoc. lia.
      * rewrite map_app. simpl map.
        apply (perm_insert
                 (map mi_path (bt_improved b) ++ map mi_path (bt_regressed b))%list
                 (map mi_path (bt_neutral b) ++ map fi_path (bt_failed b))%list);
          [rewrite <- !app_assoc; reflexivity
          | rewrite <- !app_assoc; exact I4].
      * rewrite sum_improvement_snoc, I5. simpl. ring.
      * apply Forall_app. split; [exact I7|]. constructor; [|constructor].
        simpl. rewrite G, L. reflexivity.
    + repeat split; try assumption.
      * rewrite len_snoc. lia.
      * rewrite len_snoc. lia.
      * rewrite !len_snoc. lia.
      * rewrite map_app. simpl map.
        apply (perm_insert
                 (map mi_path (bt_improved b) ++ map mi_path (bt_regressed b)
                  ++ map mi_path (bt_neutral b))%list
                 (map fi_path (bt_failed b)));
          [rewrite <- !app_assoc; reflexivity
          | rewrite <- !app_assoc; exact I4].
      * rewrite sum_improvement_snoc, I5. simpl. ring.
      * apply Forall_app. split; [exact I8|]. constructor; [|constructor].
        simpl. rewrite G, L. reflexivity.
  - cbn [bt_evaluated bt_improved bt_regressed bt_neutral bt_failed
         bt_modules bt_average_improvement bt_total].
    repeat split; try assumption.
    + rewrite !len_snoc. lia.
    + rewrite !len_snoc. lia.
    + rewrite map_app. simpl map.
      apply (perm_insert
               (map mi_path (bt_improved b) ++ map mi_path (bt_regressed b)
                ++ map mi_path (bt_neutral b) ++ map fi_path (bt_failed b))%list
               []);
        [rewrite <- !app_assoc; reflexivity
        | rewrite app_nil_r; exact I4].
Qed.

Lemma batch_loop_invariant (evaluate_module : nat -> string -> module_report)
    (module_paths : list string) :
  forall (n : nat) (done : list string) (st : batch_state),
    batch_invariant done st ->
    batch_invariant (done ++ module_paths)
      (batch_loop evaluate_module n module_paths st).
Proof.
  induction module_paths as [|p rest IH]; intros n done st I; simpl.
  - rewrite app_nil_r. exact I.
  - change (p :: rest) with ([p] ++ rest)%list. rewrite app_assoc.
    apply IH, batch_step_invariant, I.
Qed.

Lemma batch_step_total (st : batch_state) (p : string) (report : module_report) :
  bt_total (fst (batch_step st p report)) = bt_total (fst st).
Proof.
  destruct st as [b t]. destruct report as [name [r|err]]; reflexivity.
Qed.

Lemma batch_loop_total (evaluate_module : nat -> string -> module_report)
    (module_paths : list string) :
  forall (n : nat) (st : batch_state),
    bt_total (fst (batch_loop evaluate_module n module_paths st))
    = bt_total (fst st).
Proof.
  induction module_paths as [|p rest IH]; intros n st; simpl; [reflexivity|].
  rewrite IH. apply batch_step_total.
Qed.

Lemma batch_start_invariant (module_paths : list string) :
  batch_invariant [] (batch_start module_paths).
Proof.
  unfold batch_invariant, batch_start, batch_paths, len. simpl.
  repeat split; constructor.
Qed.

(** The state the loop ends in. *)
Lemma batch_loop_end (evaluate_module : nat -> string -> module_report)
    (module_paths : list string) :
  batch_invariant module_paths
    (batch_loop evaluate_module 0 module_paths (batch_start module_paths))
  /\ bt_total (fst (batch_loop evaluate_module 0 module_paths
                      (batch_start module_paths)))
     = len module_paths.
Proof.
  split.
  - apply (batch_loop_invariant evaluate_module module_paths 0 []),
      batch_start_invariant.
  - rewrite batch_loop_total. reflexivity.
Qed.

(** The averaging step never divides by zero and changes the average
    only. *)
Lemma batch_average_ok (b : batch) (t : Q) :
  (0 <= bt_evaluated b)%Z ->
  bt_average_improvement b = 0 ->
  exists avg,
    batch_average (b, t)
    = Ok {| bt_total := bt_total b; bt_evaluated := bt_evaluated b;
            bt_improved := bt_improved b; bt_regressed := bt_regressed b;
            bt_neutral := bt_neutral b; bt_failed := bt_failed b;
            bt_average_improvement := avg; bt_modules := bt_modules b |}
    /\ (bt_evaluated b = 0%Z -> avg = 0)
    /\ ((0 < bt_evaluated b)%Z -> avg * inject_Z (bt_evaluated b) == t).
Proof.
  intros H A. unfold batch_average.
  destruct (0 <? bt_evaluated b)%Z eqn:E.
  - apply Z.ltb_lt in E.
    assert (Eq : 0 < inject_Z (bt_evaluated b)).
    { change 0 with (inject_Z 0). rewrite <- Zlt_Qlt. exact E. }
    rewrite (div_pos _ _ Eq). simpl. eexists. split; [reflexivity|].
    split; [lia|]. intros _. field. lra.
  - apply Z.ltb_ge in E. exists 0. split.
    + destruct b; simpl in *. subst. reflexivity.
    + split; [reflexivity | lia].
Qed.

End EvaluatorBatch.


Section EvaluatorBatchLabels.

Import Evaluator.

Lemma recommended_snoc (label : string) (ms : list module_result)
    (m : module_result) :
  recommended label (ms ++ [m])
  = (recommended label ms
     + match m with
       | ModuleSuccess r => if String.eqb (recommendation r) label then 1 else 0
       | ModuleFailure _ => 0
       end)%Z.
Proof.
  unfold recommended, len. rewrite filter_app, length_app. simpl.
  destruct m as [r|err]; simpl; [|lia].
  destruct (String.eqb (recommendation r) label); simpl; lia.
Qed.

Lemma batch_step_labels (st : batch_state) (module_path : string)
    (report : module_report) :
  (forall r, snd report = ModuleSuccess r ->
             recommendation r = recommend (res_improvement r)) ->
  batch_labels (fst st) ->
  batch_labels (fst (batch_step st module_path report)).
Proof.
  destruct st as [b t]. destruct report as [name [r|err]];
    unfold batch_labels, batch_step; intros R (L1 & L2 & L3);
    cbn [fst bt_improved bt_regressed bt_neutral bt_modules] in *.
  - specialize (R r eq_refl). rewrite !recommended_snoc, R.
    unfold recommend.
    destruct (gt (res_improvement r) 10) eqn:G;
      [|destruct (lt (res_improvement r) (-5)) eqn:L];
      rewrite ?len_snoc; simpl; lia.
  - rewrite !recommended_snoc. lia.
Qed.

Lemma batch_loop_labels (evaluate_module : nat -> string -> module_report)
    (module_paths : list string) :
  evaluates_modules evaluate_module ->
  forall (n : nat) (st : batch_state),
    batch_labels (fst st) ->
    batch_labels (fst (batch_loop evaluate_module n module_paths st)).
Proof.
  intros E. induction module_paths as [|p rest IH]; intros n st L; simpl;
    [exact L|].
  apply IH, batch_step_labels; [|exact L].
  intros r H. destruct (E n p) as (o' & o & a & b & j & Ej).
  rewrite Ej in H. apply (evaluate_module_recommendation _ _ _ _ _ _ H).
Qed.

End EvaluatorBatchLabels.

(** X9, batch_evaluate and evaluate_module of evaluator.py.  The batch
    sorts a module by the thresholds of the recommendation: the modules it
    lists as improved are those whose improvement earns "apply", the
    regressed ones earn "reject" and the neutral ones "neutral".  When the
    results come from evaluate_module, the number of results in "modules"
    that recommend "apply" is the size of improved, and likewise for
    "reject" and regressed, "neutral" and neutral. *)
Theorem X9_batch_categories_follow_the_recommendation
    (list_modules module_paths : list string)
    (evaluate_module : nat -> string -> Evaluator.module_report)
    (Hreports : evaluates_modules evaluate_module) :
  match Evaluator.batch_evaluate list_modules evaluate_module module_paths with
  | Ok (Evaluator.BatchSuccess b) =>
      Forall (fun m => Evaluator.recommend (Evaluator.mi_improvement m) = "apply")
             (Evaluator.bt_improved b)
      /\ Forall (fun m => Evaluator.recommend (Evaluator.mi_improvement m) = "reject")
                (Evaluator.bt_regressed b)
      /\ Forall (fun m => Evaluator.recommend (Evaluator.mi_improvement m) = "neutral")
                (Evaluator.bt_neutral b)
      /\ batch_labels b
  | _ => True
  end.
Proof.
  unfold Evaluator.batch_evaluate.
  change (match module_paths with [] => list_modules | _ :: _ => module_paths end)
    with (paths_used list_modules module_paths).
  destruct (paths_used list_modules module_paths) as [|p ps] eqn:U; [exact I|].
  rewrite <- U. clear U.
  set (used := paths_used list_modules module_paths).
  destruct (batch_loop_end evaluate_module used) as [Inv T].
  assert (L : batch_labels
                (fst (Evaluator.batch_loop evaluate_module 0 used
                        (Evaluator.batch_start used)))).
  { apply batch_loop_labels; [exact Hreports|]. repeat split. }
  destruct (Evaluator.batch_loop evaluate_module 0 used
              (Evaluator.batch_start used)) as [b t].
  unfold batch_invariant in Inv.
  destruct Inv as (I1 & I2 & I3 & I4 & I5 & I6 & I7 & I8 & I9).
  assert (E0 : (0 <= Evaluator.bt_evaluated b)%Z) by (unfold len in I1; lia).
  destruct (batch_average_ok b t E0 I9) as (avg & -> & _).
  cbn. auto.
Qed.

Lemma X9_batch_of_two_modules :
  match Evaluator.batch_evaluate [] optimized_always_wins
          ["contexts/api.md"; "contexts/db.md"] with
  | Ok (Evaluator.BatchSuccess b) =>
      Forall (fun m => Evaluator.recommend (Evaluator.mi_improvement m) = "apply")
             (Evaluator.bt_improved b)
      /\ Forall (fun m => Evaluator.recommend (Evaluator.mi_improvement m) = "reject")
                (Evaluator.bt_regressed b)
      /\ Forall (fun m => Evaluator.recommend (Evaluator.mi_improvement m) = "neutral")
                (Evaluator.bt_neutral b)
      /\ batch_labels b
  | _ => True
  end.
Proof.
  apply X9_batch_categories_follow_the_recommendation.
  intros n module_path.
  exists module_path, ("optimized/" ++ module_path), true, true,
    (Evaluator.Parsed (Some only_optimized_passes)).
  reflexivity.
Defined.

(** ** scripts/context/context_evaluator.py *)

Section ContextEvaluatorProperties.

Import ContextEvaluator.

Lemma block_prompts_length (blocks : list string) :
  (List.length (block_prompts blocks) <= List.length blocks)%nat.
Proof.
  induction blocks as [|b blocks IH]; simpl; [lia|].
  rewrite length_app.
  destruct (split newline (strip b)) as [|? [|? [|? ?]]]; simpl; lia.
Qed.

Lemma slice_to_all {X} (n : Z) (l : list X) :
  Z.of_nat (List.length l) = n -> slice_to n l = l.
Proof.
  intros H. unfold slice_to.
  destruct (0 <=? n)%Z eqn:E; [|apply Z.leb_gt in E; lia].
  apply firstn_all2. lia.
Qed.

Lemma distinct_spec (xs seen : list string) :
  NoDup (distinct seen xs)
  /\ (forall x, In x (distinct seen xs) -> In x xs /\ ~ In x seen).
Proof.
  revert seen. induction xs as [|x xs IH]; intros seen; simpl.
  - split; [constructor | intros x []].
  - destruct (existsb (String.eqb x) seen) eqn:E.
    + destruct (IH seen) as [N S]. split; [exact N|].
      intros y I. destruct (S y I). auto.
    + destruct (IH (x :: seen)) as [N S]. split.
      * constructor; [|exact N]. intros I. destruct (S x I) as [_ C].
        apply C. left. reflexivity.
      * intros y [<-|I].
        -- split; [left; reflexivity|]. intros I.
           apply existsb_eqb_in in I. congruence.
        -- destruct (S y I) as [A B]. split; [right; exact A|].
           intros C. apply B. right. exact C.
Qed.

Lemma NoDup_firstn_of {X} (n : nat) (l : list X) : NoDup l -> NoDup (firstn n l).
Proof.
  revert n. induction l as [|x l IH]; intros n N; destruct n; simpl;
    try constructor.
  - inversion N as [|? ? N1 N2]; subst. intros I. apply N1.
    rewrite <- (firstn_skipn n l). apply in_or_app. left. exact I.
  - inversion N; subst. apply IH. assumption.
Qed.

Lemma in_firstn {X} (n : nat) (l : list X) (x : X) : In x (firstn n l) -> In x l.
Proof.
  intros I. rewrite <- (firstn_skipn n l). apply in_or_app. left. exact I.
Qed.

End ContextEvaluatorProperties.

(** X10, generate_test_cases of context_evaluator.py.  When nothing
    fails, the generator returns num_tests test cases if the content holds
    a context block, and the first num_tests of its three default prompts
    if it holds none; every test case carries the same three assertions,
    the first of them listing at most five key terms. *)
Theorem X10_context_test_cases_have_a_fixed_shape
    (set_order : list string -> list string) (module_content : string)
    (num_tests : Z) (Hnum : (0 <= num_tests)%Z) :
  let test_cases :=
    ContextEvaluator.generate_test_cases set_order None module_content num_tests in
  len test_cases
  = match findall1 ContextEvaluator.context_block_pattern module_content with
    | [] => Z.min num_tests 3
    | _ => num_tests
    end
  /\ Forall (fun tc =>
               exists key_terms rest,
                 asserts tc
                 = {| a_type := "contains-any"; a_value := VList key_terms;
                      a_description := Some "Response contains key technical terms" |}
                   :: rest
                 /\ (len key_terms <= 5)%Z /\ len rest = 2%Z)
            test_cases.
Proof.
  unfold ContextEvaluator.generate_test_cases, ContextEvaluator.generate_body.
  cbn zeta. split.
  - unfold len. rewrite length_map.
    destruct (findall1 ContextEvaluator.context_block_pattern module_content)
      as [|b blocks].
    + unfold slice_to. destruct (0 <=? num_tests)%Z eqn:E;
        [|apply Z.leb_gt in E; lia].
      rewrite length_firstn. simpl. lia.
    + rewrite slice_to_all.
      * unfold ContextEvaluator.pad. apply padded_length.
        pose proof (block_prompts_length (slice_to num_tests (b :: blocks))).
        pose proof (slice_to_length num_tests (b :: blocks) Hnum). lia.
      * unfold ContextEvaluator.pad. apply padded_length.
        pose proof (block_prompts_length (slice_to num_tests (b :: blocks))).
        pose proof (slice_to_length num_tests (b :: blocks) Hnum). lia.
  - apply Forall_forall. intros tc I. apply in_map_iff in I.
    destruct I as (prompt & <- & _). simpl.
    eexists. eexists. split; [reflexivity|]. split.
    + apply slice_to_length. lia.
    + reflexivity.
Qed.

Lemma X10_three_probes_for_one_block :
  len (ContextEvaluator.generate_test_cases (fun l => l) None one_block 3)
  = match findall1 ContextEvaluator.context_block_pattern one_block with
    | [] => Z.min 3 3
    | _ => 3%Z
    end
  /\ Forall (fun tc =>
               exists key_terms rest,
                 asserts tc
                 = {| a_type := "contains-any"; a_value := VList key_terms;
                      a_description := Some "Response contains key technical terms" |}
                   :: rest
                 /\ (len key_terms <= 5)%Z /\ len rest = 2%Z)
            (ContextEvaluator.generate_test_cases (fun l => l) None one_block 3).
Proof.
  apply (X10_context_test_cases_have_a_fixed_shape (fun l => l) one_block 3).
  lia.
Defined.

(** X11, _extract_key_terms of context_evaluator.py.  In whatever order
    the set of terms is iterated, the function returns at most ten terms,
    no term twice, and each of them is one of the technical terms found in
    the content. *)
Theorem X11_at_most_ten_distinct_key_terms
    (set_order : list string -> list string) (content : string)
    (Horder : forall l, Permutation (set_order l) l) :
  let key_terms := ContextEvaluator._extract_key_terms set_order content in
  (len key_terms <= 10)%Z
  /\ NoDup key_terms
  /\ (forall t, In t key_terms -> In t (ContextEvaluator.technical_terms content)).
Proof.
  unfold ContextEvaluator._extract_key_terms. cbn zeta.
  set (terms := ContextEvaluator.technical_terms content).
  destruct (distinct_spec terms []) as [N S].
  split; [|split].
  - unfold len. rewrite length_firstn. lia.
  - apply NoDup_firstn_of.
    apply (Permutation_NoDup (Permutation_sym (Horder _)) N).
  - intros t I. apply in_firstn in I.
    apply (Permutation_in _ (Horder _)) in I. apply (S t I).
Qed.

Lemma X11_key_terms_in_reverse_order :
  (len (ContextEvaluator._extract_key_terms (@rev string) two_quoted_terms) <= 10)%Z
  /\ NoDup (ContextEvaluator._extract_key_terms (@rev string) two_quoted_terms)
  /\ (forall t,
        In t (ContextEvaluator._extract_key_terms (@rev string) two_quoted_terms) ->
        In t (ContextEvaluator.technical_terms two_quoted_terms)).
Proof.
  apply (X11_at_most_ten_distinct_key_terms (@rev string) two_quoted_terms).
  intros l. apply Permutation_sym, Permutation_rev.
Defined.

Section ContextEvaluatorBatch.

Import ContextEvaluator.

Lemma context_batch_step_invariant (done : list string) (st : batch_state)
    (module_name : string) (result : module_result) :
  context_batch_invariant done st ->
  context_batch_invariant (done ++ [module_name])
    (batch_step st module_name result).
Proof.
  destruct result as [e rec|err];
    unfold context_batch_invariant, batch_step, batch_names;
    intros (I1 & I2 & I3 & I4 & I5 & I6);
    cbn [results improved_modules regressed_modules unchanged_modules
         failed_modules total_improvement evaluation_count].
  - destruct (gt (improvement e) 1) eqn:G;
      [|destruct (lt (improvement e) (-1)) eqn:L].
    + repeat split; try assumption.
      * rewrite len_snoc. lia.
      * rewrite len_snoc. lia.
      * rewrite !len_snoc. lia.
      * rewrite map_app. simpl map.
        apply (perm_insert (map im_module (improved_modules st))
                 (map rg_module (regressed_modules st)
                  ++ map un_module (unchanged_modules st)
                  ++ failed_modules st)%list);
          [rewrite <- !app_assoc; reflexivity | exact I4].
      * apply Forall_app. split; [exact I5|]. constructor; [|constructor].
        simpl. apply Qlt_bool_iff in G. exact G.
    + repeat split; try assumption.
      * rewrite len_snoc. lia.
      * rewrite len_snoc. lia.
      * rewrite !len_snoc. lia.
      * rewrite map_app. simpl map.
        apply (perm_insert
                 (map im_module (improved_modules st)
                  ++ map rg_module (regressed_modules st))%list
                 (map un_module (unchanged_modules st) ++ failed_modules st)%list);
          [rewrite <- !app_assoc; reflexivity
          | rewrite <- !app_assoc; exact I4].
      * apply Forall_app. split; [exact I6|]. constructor; [|constructor].
        simpl. apply Qlt_bool_iff in L. lra.
    + repeat split; try assumption.
      * rewrite len_snoc. lia.
      * rewrite len_snoc. lia.
      * rewrite !len_snoc. lia.
      * rewrite map_app. simpl map.
        apply (perm_insert
                 (map im_module (improved_modules st)
                  ++ map rg_module (regressed_modules st)
                  ++ map un_module (unchanged_modules st))%list
                 (failed_modules st));
          [rewrite <- !app_assoc; reflexivity
          | rewrite <- !app_assoc; exact I4].
  - repeat split; try assumption.
    + rewrite !len_snoc. lia.
    + rewrite !len_snoc. lia.
    + apply (perm_insert
               (map im_module (improved_modules st)
                ++ map rg_module (regressed_modules st)
                ++ map un_module (unchanged_modules st)
                ++ failed_modules st)%list
               []);
        [rewrite <- !app_assoc; reflexivity
        | rewrite app_nil_r; exact I4].
Qed.

Lemma context_batch_loop_invariant
    (evaluate_module : nat -> string -> module_result)
    (module_names : list string) :
  forall (n : nat) (done : list string) (st : batch_state),
    context_batch_invariant done st ->
    context_batch_invariant (done ++ module_names)
      (batch_loop evaluate_module n module_names st).
Proof.
  induction module_names as [|p rest IH]; intros n done st I; simpl.
  - rewrite app_nil_r. exact I.
  - change (p :: rest) with ([p] ++ rest)%list. rewrite app_assoc.
    apply IH, context_batch_step_invariant, I.
Qed.

Lemma context_batch_start_invariant : context_batch_invariant [] batch_start.
Proof.
  unfold context_batch_invariant, batch_start, batch_names, len. simpl.
  repeat split; constructor.
Qed.

Lemma by_improvement_total (x y : improved_module) :
  by_improvement x y = false -> by_improvement y x = true.
Proof.
  unfold by_improvement, lt. rewrite negb_false_iff, negb_true_iff.
  rewrite Qlt_bool_iff, Qlt_bool_false_iff. lra.
Qed.

Lemma by_improvement_trans (x y z : improved_module) :
  by_improvement x y = true -> by_improvement y z = true ->
  by_improvement x z = true.
Proof.
  unfold by_improvement, lt. rewrite !negb_true_iff, !Qlt_bool_false_iff. lra.
Qed.

Lemma by_regression_total (x y : regressed_module) :
  by_regression x y = false -> by_regression y x = true.
Proof.
  unfold by_regression, lt. rewrite negb_false_iff, negb_true_iff.
  rewrite Qlt_bool_iff, Qlt_bool_false_iff. lra.
Qed.

Lemma by_regression_trans (x y z : regressed_module) :
  by_regression x y = true -> by_regression y z = true ->
  by_regression x z = true.
Proof.
  unfold by_regression, lt. rewrite !negb_true_iff, !Qlt_bool_false_iff. lra.
Qed.

Lemma StronglySorted_impl {X} (R S : X -> X -> Prop) (l : list X) :
  (forall a b, R a b -> S a b) -> StronglySorted R l -> StronglySorted S l.
Proof.
  intros H. induction 1 as [|a l St IH F]; constructor; [exact IH|].
  apply Forall_forall. intros b I. rewrite Forall_forall in F. apply H, F, I.
Qed.

Lemma context_batch_average_ok (st : batch_state) :
  exists avg,
    (if (0 <? evaluation_count st)%Z
     then div (total_improvement st) (inject_Z (evaluation_count st))
     else Ok 0) = Ok avg
    /\ (evaluation_count st = 0%Z -> avg = 0).
Proof.
  destruct (0 <? evaluation_count st)%Z eqn:E.
  - apply Z.ltb_lt in E. rewrite div_pos.
    + eexists. split; [reflexivity | lia].
    + change 0 with (inject_Z 0). rewrite <- Zlt_Qlt. exact E.
  - exists 0. split; reflexivity.
Qed.

End ContextEvaluatorBatch.

(** X12, batch_evaluate of context_evaluator.py.  The batch never
    raises, also for an empty list of modules: the average is divided by
    the number of evaluated modules only when that number is positive.
    Its "success" says whether at least one module was evaluated.  Every
    module name it was given lands in exactly one of the lists improved,
    regressed, unchanged and failed; total is successful plus failed, and
    successful is the sum of the three counts. *)
Theorem X12_context_batch_accounts_for_every_module
    (optimized_modules : list string)
    (evaluate_module : nat -> string -> ContextEvaluator.module_result)
    (module_names : option (list string)) :
  exists b,
    ContextEvaluator.batch_evaluate optimized_modules evaluate_module module_names
    = Ok b
    /\ ContextEvaluator.bt_success b = (0 <? ContextEvaluator.bt_successful b)%Z
    /\ ContextEvaluator.bt_total b = len (names_used optimized_modules module_names)
    /\ ContextEvaluator.bt_total b
       = (ContextEvaluator.bt_successful b + ContextEvaluator.bt_failed b)%Z
    /\ ContextEvaluator.bt_successful b
       = (ContextEvaluator.bt_improved_count b
          + ContextEvaluator.bt_regressed_count b
          + ContextEvaluator.bt_unchanged_count b)%Z
    /\ ContextEvaluator.bt_improved_count b
       = len (ContextEvaluator.bt_improved_modules b)
    /\ ContextEvaluator.bt_regressed_count b
       = len (ContextEvaluator.bt_regressed_modules b)
    /\ ContextEvaluator.bt_unchanged_count b
       = len (ContextEvaluator.bt_unchanged_modules b)
    /\ ContextEvaluator.bt_failed b = len (ContextEvaluator.bt_failed_modules b)
    /\ Permutation
         (batch_names (ContextEvaluator.bt_improved_modules b)
            (ContextEvaluator.bt_regressed_modules b)
            (ContextEvaluator.bt_unchanged_modules b)
            (ContextEvaluator.bt_failed_modules b))
         (names_used optimized_modules module_names)
    /\ (names_used optimized_modules module_names = [] ->
        ContextEvaluator.bt_success b = false
        /\ ContextEvaluator.bt_avg_improvement b == 0).
Proof.
  unfold ContextEvaluator.batch_evaluate.
  change (match module_names with
          | Some names =>
              if list_eq_dec string_dec names ["all"]
              then optimized_modules else names
          | None => optimized_modules
          end) with (names_used optimized_modules module_names).
  set (used := names_used optimized_modules module_names).
  pose proof (context_batch_loop_invariant evaluate_module used 0 []
                ContextEvaluator.batch_start context_batch_start_invariant) as Inv.
  simpl app in Inv.
  set (st := ContextEvaluator.batch_loop evaluate_module 0 used
               ContextEvaluator.batch_start) in *.
  destruct Inv as (I1 & I2 & I3 & I4 & I5 & I6).
  destruct (context_batch_average_ok st) as (avg & -> & A0). cbn [bind].
  eexists. split; [reflexivity|].
  cbn [ContextEvaluator.bt_success ContextEvaluator.bt_total
       ContextEvaluator.bt_successful ContextEvaluator.bt_failed
       ContextEvaluator.bt_avg_improvement ContextEvaluator.bt_improved_count
       ContextEvaluator.bt_regressed_count ContextEvaluator.bt_unchanged_count
       ContextEvaluator.bt_improved_modules ContextEvaluator.bt_regressed_modules
       ContextEvaluator.bt_unchanged_modules ContextEvaluator.bt_failed_modules].
  fold (len (ContextEvaluator.results st)).
  fold (len (ContextEvaluator.failed_modules st)).
  fold (len (ContextEvaluator.unchanged_modules st)).
  fold (len (Sort.sort ContextEvaluator.by_improvement
               (ContextEvaluator.improved_modules st))).
  fold (len (Sort.sort ContextEvaluator.by_regression
               (ContextEvaluator.regressed_modules st))).
  assert (Li : len (Sort.sort ContextEvaluator.by_improvement
                      (ContextEvaluator.improved_modules st))
               = len (ContextEvaluator.improved_modules st))
    by (unfold len; rewrite sort_length; reflexivity).
  assert (Lr : len (Sort.sort ContextEvaluator.by_regression
                      (ContextEvaluator.regressed_modules st))
               = len (ContextEvaluator.regressed_modules st))
    by (unfold len; rewrite sort_length; reflexivity).
  repeat split; try reflexivity; try lia.
  - unfold batch_names in *.
    rewrite (Permutation_map _ (sort_perm _ (ContextEvaluator.improved_modules st))).
    rewrite (Permutation_map _ (sort_perm _ (ContextEvaluator.regressed_modules st))).
    exact I4.
  - assert (Z0 : ContextEvaluator.evaluation_count st = 0%Z).
    { unfold len in *. rewrite H in I3. simpl in I3. lia. }
    rewrite Z0. reflexivity.
  - assert (Z0 : ContextEvaluator.evaluation_count st = 0%Z).
    { unfold len in *. rewrite H in I3. simpl in I3. lia. }
    rewrite (A0 Z0). reflexivity.
Qed.

(** X13, batch_evaluate and evaluate_module of context_evaluator.py.
    The improved modules come out by decreasing improvement, each above 1
    point, and the regressed ones by decreasing regression, each above 1
    point.  A module the batch calls improved is one for which
    evaluate_module recommends the optimization ("apply_optimization" or
    "consider_optimization"), and one it calls regressed is one for which
    evaluate_module recommends "keep_original". *)
Theorem X13_context_batch_lists_are_ranked
    (optimized_modules : list string)
    (evaluate_module : nat -> string -> ContextEvaluator.module_result)
    (module_names : option (list string)) :
  exists b,
    ContextEvaluator.batch_evaluate optimized_modules evaluate_module module_names
    = Ok b
    /\ StronglySorted
         (fun x y => ContextEvaluator.im_improvement y
                     <= ContextEvaluator.im_improvement x)
         (ContextEvaluator.bt_improved_modules b)
    /\ StronglySorted
         (fun x y => ContextEvaluator.rg_regression y
                     <= ContextEvaluator.rg_regression x)
         (ContextEvaluator.bt_regressed_modules b)
    /\ Forall (fun m =>
                 1 < ContextEvaluator.im_improvement m
                 /\ ContextEvaluator.recommend (ContextEvaluator.im_improvement m)
                    <> "keep_original")
              (ContextEvaluator.bt_improved_modules b)
    /\ Forall (fun m =>
                 1 < ContextEvaluator.rg_regression m
                 /\ ContextEvaluator.recommend (- ContextEvaluator.rg_regression m)
                    = "keep_original")
              (ContextEvaluator.bt_regressed_modules b).
Proof.
  unfold ContextEvaluator.batch_evaluate.
  change (match module_names with
          | Some names =>
              if list_eq_dec string_dec names ["all"]
              then optimized_modules else names
          | None => optimized_modules
          end) with (names_used optimized_modules module_names).
  set (used := names_used optimized_modules module_names).
  pose proof (context_batch_loop_invariant evaluate_module used 0 []
                ContextEvaluator.batch_start context_batch_start_invariant) as Inv.
  simpl app in Inv.
  set (st := ContextEvaluator.batch_loop evaluate_module 0 used
               ContextEvaluator.batch_start) in *.
  destruct Inv as (I1 & I2 & I3 & I4 & I5 & I6).
  destruct (context_batch_average_ok st) as (avg & -> & _).
  cbn [bind]. eexists. split; [reflexivity|].
  cbn [ContextEvaluator.bt_improved_modules ContextEvaluator.bt_regressed_modules].
  split; [|split; [|split]].
  - apply (StronglySorted_impl
             (fun x y => ContextEvaluator.by_improvement x y = true)).
    + intros x y. unfold ContextEvaluator.by_improvement, lt.
      rewrite negb_true_iff, Qlt_bool_false_iff. tauto.
    + apply sort_sorted; [apply by_improvement_total | apply by_improvement_trans].
  - apply (StronglySorted_impl
             (fun x y => ContextEvaluator.by_regression x y = true)).
    + intros x y. unfold ContextEvaluator.by_regression, lt.
      rewrite negb_true_iff, Qlt_bool_false_iff. tauto.
    + apply sort_sorted; [apply by_regression_total | apply by_regression_trans].
  - apply Forall_forall. intros m I. apply sort_in in I.
    rewrite Forall_forall in I5. specialize (I5 m I). split; [exact I5|].
    destruct (context_recommend_cases (ContextEvaluator.im_improvement m))
      as (Ra & Rc & _).
    destruct (Qlt_le_dec 5 (ContextEvaluator.im_improvement m)) as [C|C].
    + rewrite (Ra C). discriminate.
    + rewrite Rc by lra. discriminate.
  - apply Forall_forall. intros m I. apply sort_in in I.
    rewrite Forall_forall in I6. specialize (I6 m I). split; [exact I6|].
    destruct (context_recommend_cases (- ContextEvaluator.rg_regression m))
      as (_ & _ & Rk).
    apply Rk. lra.
Qed.

(** ** feedback_system.py: the queries *)

Section FeedbackQueries.

Import FeedbackSystem.

Lemma NoDup_map_filter {X Y} (g : X -> Y) (p : X -> bool) (l : list X) :
  NoDup (map g l) -> NoDup (map g (filter p l)).
Proof.
  induction l as [|x l IH]; simpl; intros N; [constructor|].
  inversion N as [|? ? N1 N2]; subst.
  destruct (p x); simpl; [|apply IH, N2].
  constructor; [|apply IH, N2].
  intros I. apply N1. apply in_map_iff in I. destruct I as (y & E & I).
  apply filter_In in I. rewrite <- E. apply in_map, I.
Qed.

Lemma NoDup_map_sql_limit {X Y} (g : X -> Y) (limit : Z) (l : list X) :
  NoDup (map g l) -> NoDup (map g (Sort.sql_limit limit l)).
Proof.
  unfold Sort.sql_limit. destruct (limit <? 0)%Z; [tauto|].
  intros N. rewrite <- firstn_map. apply NoDup_firstn_of, N.
Qed.

Lemma StronglySorted_firstn {X} (R : X -> X -> Prop) (n : nat) (l : list X) :
  StronglySorted R l -> StronglySorted R (firstn n l).
Proof.
  intros S. revert n. induction S as [|a l S IH F]; intros n; destruct n; simpl;
    try constructor.
  - apply IH.
  - apply Forall_forall. intros b I. rewrite Forall_forall in F.
    apply F. apply (in_firstn _ _ _ I).
Qed.

Lemma StronglySorted_sql_limit {X} (R : X -> X -> Prop) (limit : Z) (l : list X) :
  StronglySorted R l -> StronglySorted R (Sort.sql_limit limit l).
Proof.
  unfold Sort.sql_limit. destruct (limit <? 0)%Z; [tauto|].
  apply StronglySorted_firstn.
Qed.

Lemma filter_disjoint_length {X} (p q : X -> bool) (l : list X) :
  (forall x, p x = true -> q x = false) ->
  (List.length (filter p l) + List.length (filter q l) <= List.length l)%nat.
Proof.
  intros D. induction l as [|x l IH]; simpl; [lia|].
  destruct (p x) eqn:P.
  - rewrite (D x P). simpl. lia.
  - destruct (q x); simpl; lia.
Qed.

Lemma count_types_le (rows : list feedback_row) :
  (0 <= count_type "negative" rows)%Z
  /\ (0 <= count_type "positive" rows)%Z
  /\ (count_type "negative" rows + count_type "positive" rows
      <= Z.of_nat (List.length rows))%Z.
Proof.
  unfold count_type.
  pose proof (filter_disjoint_length
                (fun r => String.eqb (fb_feedback_type r) "negative")
                (fun r => String.eqb (fb_feedback_type r) "positive") rows) as D.
  assert (H : forall r : feedback_row,
             String.eqb (fb_feedback_type r) "negative" = true ->
             String.eqb (fb_feedback_type r) "positive" = false).
  { intros r E. apply String.eqb_eq in E. rewrite E. reflexivity. }
  specialize (D H). lia.
Qed.

Lemma worse_first_ranked (x y : module_need) :
  worse_first x y = true <-> ranked_worse_first x y.
Proof.
  unfold worse_first, ranked_worse_first, gt.
  rewrite orb_true_iff, andb_true_iff, Qlt_bool_iff, Qeq_bool_iff, Z.leb_le.
  tauto.
Qed.

Lemma worse_first_total (x y : module_need) :
  worse_first x y = false -> worse_first y x = true.
Proof.
  intros F. apply worse_first_ranked.
  assert (N : ~ ranked_worse_first x y).
  { intros R. apply worse_first_ranked in R. congruence. }
  unfold ranked_worse_first in *.
  destruct (Q_dec (negative_ratio x) (negative_ratio y)) as [[L|G]|E].
  - left. exact L.
  - exfalso. apply N. left. exact G.
  - right. split; [symmetry; exact E|].
    destruct (Z_le_gt_dec (total_feedback y) (total_feedback x)) as [A|A]; [|lia].
    exfalso. apply N. right. split; assumption.
Qed.

Lemma worse_first_trans (x y z : module_need) :
  worse_first x y = true -> worse_first y z = true -> worse_first x z = true.
Proof.
  rewrite !worse_first_ranked. unfold ranked_worse_first.
  intros [A|[A1 A2]] [B|[B1 B2]].
  - left. lra.
  - left. lra.
  - left. lra.
  - right. split; [lra | lia].
Qed.

(** The names of the groups, as the engine lists them. *)
Lemma group_names_spec (group_order : list string -> list string)
    (rows : list feedback_row) :
  (forall l, Permutation (group_order l) l) ->
  NoDup (group_order (module_names rows))
  /\ (forall name, In name (group_order (module_names rows))
                   <-> In name (map fb_module_name rows)).
Proof.
  intros P. unfold module_names. split.
  - apply (Permutation_NoDup (Permutation_sym (P _))), NoDup_nodup.
  - intros name. rewrite <- (nodup_In string_dec (map fb_module_name rows)).
    split.
    + apply Permutation_in, P.
    + apply Permutation_in, Permutation_sym, P.
Qed.

Lemma feedback_counts_names (rows : list feedback_row) (names : list string) :
  map need_module_name (map (feedback_counts rows) names) = names.
Proof.
  rewrite map_map. simpl. apply map_id.
Qed.

Lemma of_module_nonempty (rows : list feedback_row) (name : string) :
  In name (map fb_module_name rows) <-> filter (of_module name) rows <> [].
Proof.
  split.
  - intros I. apply in_map_iff in I. destruct I as (r & E & I).
    assert (F : In r (filter (of_module name) rows)).
    { apply filter_In. split; [exact I|]. unfold of_module. rewrite E.
      apply String.eqb_refl. }
    intros N. rewrite N in F. exact F.
  - intros N. destruct (filter (of_module name) rows) as [|r l] eqn:F;
      [contradiction|].
    assert (I : In r (filter (of_module name) rows)) by (rewrite F; left; reflexivity).
    apply filter_In in I. destruct I as [I E]. unfold of_module in E.
    apply String.eqb_eq in E. rewrite <- E. apply in_map, I.
Qed.

(** What the rows selected by the query have in common. *)
Lemma selected_rows (group_order : list string -> list string)
    (rows : list feedback_row) (threshold : Q) (min_feedback_count limit : Z)
    (g : module_need) :
  (forall l, Permutation (group_order l) l) ->
  In g (select_modules_needing_optimization group_order rows threshold
          min_feedback_count limit) ->
  g = feedback_counts rows (need_module_name g)
  /\ filter (of_module (need_module_name g)) rows <> []
  /\ (min_feedback_count <= total_feedback g)%Z
  /\ threshold <= negative_ratio g.
Proof.
  intros P I. unfold select_modules_needing_optimization in I.
  apply sql_limit_incl, sort_in, filter_In in I. destruct I as [I T].
  apply filter_In in I. destruct I as [I M].
  apply in_map_iff in I. destruct I as (name & E & I).
  subst g. simpl need_module_name.
  split; [reflexivity|]. split; [|split].
  - apply of_module_nonempty. apply (group_names_spec group_order rows P), I.
  - apply Z.leb_le, M.
  - apply negb_true_iff in T. apply Qlt_bool_false_iff in T. exact T.
Qed.

End FeedbackQueries.

(** X14, get_modules_needing_optimization of feedback_system.py.  An
    error of the storage layer reaches the caller.  Otherwise no module is
    reported twice, and every reported module qualifies: it has feedback,
    at least min_feedback_count entries of it, and a negative ratio of at
    least the threshold.  The counts of a row are those of the module's
    feedback, negative and positive together never exceed the total, and
    the ratio is negative_count / total_feedback, at most 1.  With a limit
    of 0 or more, at most that many modules are reported. *)
Theorem X14_reported_modules_qualify (e : FeedbackSystem.env)
    (group_order : list string -> list string) (db : FeedbackSystem.database)
    (threshold : Q) (min_feedback_count limit : Z)
    (Horder : forall l, Permutation (group_order l) l) :
  (forall msg, FeedbackSystem.fault_at e 0%nat = Some msg ->
     FeedbackSystem.get_modules_needing_optimization e group_order db
       threshold min_feedback_count limit
     = Raise (SqliteError msg))
  /\ (FeedbackSystem.fault_at e 0%nat = None ->
      exists rows,
        FeedbackSystem.get_modules_needing_optimization e group_order db
          threshold min_feedback_count limit
        = Ok rows
        /\ NoDup (map FeedbackSystem.need_module_name rows)
        /\ Forall
             (fun g =>
                let mine := feedback_about db (FeedbackSystem.need_module_name g) in
                needs_optimization db threshold min_feedback_count
                  (FeedbackSystem.need_module_name g)
                /\ FeedbackSystem.total_feedback g = len mine
                /\ FeedbackSystem.negative_count g
                   = FeedbackSystem.count_type "negative" mine
                /\ FeedbackSystem.positive_count g
                   = FeedbackSystem.count_type "positive" mine
                /\ (0 <= FeedbackSystem.negative_count g)%Z
                /\ (0 <= FeedbackSystem.positive_count g)%Z
                /\ (FeedbackSystem.negative_count g + FeedbackSystem.positive_count g
                    <= FeedbackSystem.total_feedback g)%Z
                /\ FeedbackSystem.negative_ratio g
                   == inject_Z (FeedbackSystem.negative_count g)
                      / inject_Z (FeedbackSystem.total_feedback g)
                /\ FeedbackSystem.negative_ratio g <= 1)
             rows
        /\ ((0 <= limit)%Z -> (len rows <= limit)%Z)).
Proof.
  unfold FeedbackSystem.get_modules_needing_optimization, FeedbackSystem.statement.
  cbn [FeedbackSystem.connect FeedbackSystem.step FeedbackSystem.view
       FeedbackSystem.txn FeedbackSystem.disk].
  split; [intros msg ->; reflexivity|].
  intros ->. cbn [fst]. eexists. split; [reflexivity|].
  set (R := FeedbackSystem.module_feedback db).
  split; [|split].
  - unfold FeedbackSystem.select_modules_needing_optimization.
    apply NoDup_map_sql_limit.
    apply (Permutation_NoDup
             (Permutation_map _ (Permutation_sym (sort_perm _ _)))).
    apply NoDup_map_filter, NoDup_map_filter.
    rewrite feedback_counts_names.
    apply (group_names_spec group_order R Horder).
  - apply Forall_forall. intros g I.
    destruct (selected_rows group_order R threshold min_feedback_count limit g
                Horder I) as (Eg & Ne & Hmin & Hthr).
    cbn zeta. unfold needs_optimization, feedback_about. fold R.
    set (mine := filter (FeedbackSystem.of_module (FeedbackSystem.need_module_name g)) R)
      in *.
    assert (T : FeedbackSystem.total_feedback g = len mine)
      by (rewrite Eg; reflexivity).
    assert (Ng : FeedbackSystem.negative_count g
                 = FeedbackSystem.count_type "negative" mine)
      by (rewrite Eg; reflexivity).
    assert (Pg : FeedbackSystem.positive_count g
                 = FeedbackSystem.count_type "positive" mine)
      by (rewrite Eg; reflexivity).
    assert (Rg : FeedbackSystem.negative_ratio g
                 = inject_Z (FeedbackSystem.count_type "negative" mine)
                   / inject_Z (len mine))
      by (rewrite Eg; reflexivity).
    destruct (count_types_le mine) as (C1 & C2 & C3). fold (len mine) in C3.
    assert (L1 : (1 <= len mine)%Z).
    { unfold len. destruct mine; [contradiction | simpl; lia]. }
    assert (Lq : 0 < inject_Z (len mine)).
    { change 0 with (inject_Z 0). rewrite <- Zlt_Qlt. lia. }
    split.
    { split; [exact Ne|].
      split; [rewrite <- T; exact Hmin | rewrite <- Rg; exact Hthr]. }
    split; [exact T|]. split; [exact Ng|]. split; [exact Pg|].
    split; [lia|]. split; [lia|]. split; [lia|].
    split; [rewrite Rg, Ng, T; reflexivity|].
    rewrite Rg. apply Qle_shift_div_r; [exact Lq|].
    rewrite Qmult_1_l, <- Zle_Qle. lia.
  - intros L. apply sql_limit_length, L.
Qed.

Lemma X14_modules_of_the_sample_store :
  (forall msg,
     FeedbackSystem.fault_at (FeedbackSystem.quiet (fun _ => 200%Z)) 0%nat = Some msg ->
     FeedbackSystem.get_modules_needing_optimization
       (FeedbackSystem.quiet (fun _ => 200%Z)) (fun l => l) store_with_feedback
       (1 # 2) 2 10
     = Raise (SqliteError msg))
  /\ (FeedbackSystem.fault_at (FeedbackSystem.quiet (fun _ => 200%Z)) 0%nat = None ->
      exists rows,
        FeedbackSystem.get_modules_needing_optimization
          (FeedbackSystem.quiet (fun _ => 200%Z)) (fun l => l) store_with_feedback
          (1 # 2) 2 10
        = Ok rows
        /\ NoDup (map FeedbackSystem.need_module_name rows)
        /\ Forall
             (fun g =>
                let mine :=
                  feedback_about store_with_feedback
                    (FeedbackSystem.need_module_name g) in
                needs_optimization store_with_feedback (1 # 2) 2
                  (FeedbackSystem.need_module_name g)
                /\ FeedbackSystem.total_feedback g = len mine
                /\ FeedbackSystem.negative_count g
                   = FeedbackSystem.count_type "negative" mine
                /\ FeedbackSystem.positive_count g
                   = FeedbackSystem.count_type "positive" mine
                /\ (0 <= FeedbackSystem.negative_count g)%Z
                /\ (0 <= FeedbackSystem.positive_count g)%Z
                /\ (FeedbackSystem.negative_count g + FeedbackSystem.positive_count g
                    <= FeedbackSystem.total_feedback g)%Z
                /\ FeedbackSystem.negative_ratio g
                   == inject_Z (FeedbackSystem.negative_count g)
                      / inject_Z (FeedbackSystem.total_feedback g)
                /\ FeedbackSystem.negative_ratio g <= 1)
             rows
        /\ ((0 <= 10)%Z -> (len rows <= 10)%Z)).
Proof.
  apply (X14_reported_modules_qualify (FeedbackSystem.quiet (fun _ => 200%Z))
           (fun l => l) store_with_feedback (1 # 2) 2 10).
  intros l. apply Permutation_refl.
Defined.

(** X15, get_modules_needing_optimization of feedback_system.py.  The
    reported modules come worst first: by decreasing negative ratio, and
    among equal ratios by decreasing number of feedback entries.  With a
    negative limit (SQLite then applies none) every module that qualifies
    is reported. *)
Theorem X15_reported_modules_are_ranked (e : FeedbackSystem.env)
    (group_order : list string -> list string) (db : FeedbackSystem.database)
    (threshold : Q) (min_feedback_count limit : Z)
    (Hquiet : FeedbackSystem.fault_at e 0%nat = None)
    (Horder : forall l, Permutation (group_order l) l) :
  exists rows,
    FeedbackSystem.get_modules_needing_optimization e group_order db
      threshold min_feedback_count limit
    = Ok rows
    /\ StronglySorted ranked_worse_first rows
    /\ ((limit < 0)%Z ->
        forall name,
          needs_optimization db threshold min_feedback_count name ->
          In name (map FeedbackSystem.need_module_name rows)).
Proof.
  unfold FeedbackSystem.get_modules_needing_optimization, FeedbackSystem.statement.
  cbn [FeedbackSystem.connect FeedbackSystem.step FeedbackSystem.view
       FeedbackSystem.txn FeedbackSystem.disk].
  rewrite Hquiet. cbn [fst]. eexists. split; [reflexivity|].
  set (R := FeedbackSystem.module_feedback db).
  unfold FeedbackSystem.select_modules_needing_optimization. split.
  - apply StronglySorted_sql_limit.
    apply (StronglySorted_impl
             (fun x y => FeedbackSystem.worse_first x y = true)).
    + intros x y. apply worse_first_ranked.
    + apply sort_sorted; [apply worse_first_total | apply worse_first_trans].
  - intros L name (Ne & Hmin & Hthr).
    unfold Sort.sql_limit. apply Z.ltb_lt in L. rewrite L.
    apply in_map_iff. exists (FeedbackSystem.feedback_counts R name).
    split; [reflexivity|].
    apply sort_in, filter_In. split.
    + apply filter_In. split.
      * apply in_map. apply (group_names_spec group_order R Horder).
        apply of_module_nonempty. exact Ne.
      * apply Z.leb_le. exact Hmin.
    + apply negb_true_iff, Qlt_bool_false_iff. exact Hthr.
Qed.

Lemma X15_ranking_of_the_sample_store :
  exists rows,
    FeedbackSystem.get_modules_needing_optimization
      (FeedbackSystem.quiet (fun _ => 200%Z)) (@rev string) store_with_feedback
      0 1 (-1)
    = Ok rows
    /\ StronglySorted ranked_worse_first rows
    /\ ((-1 < 0)%Z ->
        forall name,
          needs_optimization store_with_feedback 0 1 name ->
          In name (map FeedbackSystem.need_module_name rows)).
Proof.
  apply (X15_reported_modules_are_ranked (FeedbackSystem.quiet (fun _ => 200%Z))
           (@rev string) store_with_feedback 0 1 (-1)).
  - reflexivity.
  - intros l. apply Permutation_sym, Permutation_rev.
Defined.

Section FeedbackPerformance.

Import FeedbackSystem.

Lemma newest_first_total (x y : optimization_row) :
  newest_first x y = false -> newest_first y x = true.
Proof.
  unfold newest_first. rewrite Z.leb_gt, Z.leb_le. lia.
Qed.

Lemma newest_first_trans (x y z : optimization_row) :
  newest_first x y = true -> newest_first y z = true -> newest_first x z = true.
Proof.
  unfold newest_first. rewrite !Z.leb_le. lia.
Qed.

Lemma StronglySorted_map {X Y} (R : Y -> Y -> Prop) (f : X -> Y) (l : list X) :
  StronglySorted (fun a b => R (f a) (f b)) l -> StronglySorted R (map f l).
Proof.
  induction 1 as [|a l S IH F]; simpl; constructor; [exact IH|].
  apply Forall_forall. intros y I. apply in_map_iff in I.
  destruct I as (x & <- & I). rewrite Forall_forall in F. apply F, I.
Qed.

Lemma sum_type_cases (t : string) (rows : list feedback_row) :
  (rows = [] /\ sum_type t rows = None)
  \/ (rows <> [] /\ sum_type t rows = Some (count_type t rows)).
Proof.
  destruct rows; [left | right]; split; try reflexivity; discriminate.
Qed.

End FeedbackPerformance.

(** X16, get_module_performance of feedback_system.py.  An error of the
    storage layer at either query reaches the caller.  Otherwise the
    result names the module; total_feedback is the number of its feedback
    entries; for a module without feedback the two counts are None, not 0;
    for a module with feedback they are numbers whose sum does not exceed
    the total.  The history holds exactly the runs of the module, the
    newest first. *)
Theorem X16_performance_of_a_module (e : FeedbackSystem.env)
    (scan_order : list FeedbackSystem.optimization_row
                  -> list FeedbackSystem.optimization_row)
    (db : FeedbackSystem.database) (name : string)
    (Horder : forall l, Permutation (scan_order l) l) :
  (forall msg, FeedbackSystem.fault_at e 0%nat = Some msg ->
     FeedbackSystem.get_module_performance e scan_order db name
     = Raise (SqliteError msg))
  /\ (forall msg, FeedbackSystem.fault_at e 0%nat = None ->
        FeedbackSystem.fault_at e 1%nat = Some msg ->
        FeedbackSystem.get_module_performance e scan_order db name
        = Raise (SqliteError msg))
  /\ (FeedbackSystem.fault_at e 0%nat = None ->
      FeedbackSystem.fault_at e 1%nat = None ->
      exists p,
        FeedbackSystem.get_module_performance e scan_order db name = Ok p
        /\ FeedbackSystem.mp_module_name p = name
        /\ FeedbackSystem.fs_total_feedback (FeedbackSystem.mp_feedback_stats p)
           = len (feedback_about db name)
        /\ (feedback_about db name = [] ->
            FeedbackSystem.fs_negative_count (FeedbackSystem.mp_feedback_stats p) = None
            /\ FeedbackSystem.fs_positive_count (FeedbackSystem.mp_feedback_stats p)
               = None)
        /\ (feedback_about db name <> [] ->
            exists negative positive,
              FeedbackSystem.fs_negative_count (FeedbackSystem.mp_feedback_stats p)
              = Some negative
              /\ FeedbackSystem.fs_positive_count (FeedbackSystem.mp_feedback_stats p)
                 = Some positive
              /\ (0 <= negative)%Z /\ (0 <= positive)%Z
              /\ (negative + positive <= len (feedback_about db name))%Z)
        /\ Permutation (FeedbackSystem.mp_optimization_history p) (history_of db name)
        /\ StronglySorted
             (fun x y => (FeedbackSystem.he_timestamp y
                          <= FeedbackSystem.he_timestamp x)%Z)
             (FeedbackSystem.mp_optimization_history p)).
Proof.
  unfold FeedbackSystem.get_module_performance, FeedbackSystem.statement.
  cbn [FeedbackSystem.connect FeedbackSystem.step FeedbackSystem.view
       FeedbackSystem.txn FeedbackSystem.disk FeedbackSystem.tick].
  split; [intros msg ->; reflexivity|].
  split; [intros msg ->; cbn; intros ->; reflexivity|].
  intros ->. cbn. intros ->. eexists. split; [reflexivity|].
  cbn [FeedbackSystem.mp_module_name FeedbackSystem.mp_feedback_stats
       FeedbackSystem.mp_optimization_history].
  unfold FeedbackSystem.select_feedback_stats.
  cbn [FeedbackSystem.fs_total_feedback FeedbackSystem.fs_negative_count
       FeedbackSystem.fs_positive_count].
  fold (feedback_about db name).
  split; [reflexivity|]. split; [reflexivity|]. split; [|split; [|split]].
  - intros ->. split; reflexivity.
  - intros N.
    destruct (sum_type_cases "negative" (feedback_about db name)) as [[E _]|[_ ->]];
      [contradiction|].
    destruct (sum_type_cases "positive" (feedback_about db name)) as [[E _]|[_ ->]];
      [contradiction|].
    eexists. eexists. split; [reflexivity|]. split; [reflexivity|].
    destruct (count_types_le (feedback_about db name)) as (C1 & C2 & C3).
    unfold len. repeat split; assumption.
  - unfold FeedbackSystem.select_optimization_history, history_of.
    apply Permutation_map. rewrite sort_perm. apply Horder.
  - unfold FeedbackSystem.select_optimization_history.
    apply StronglySorted_map.
    apply (StronglySorted_impl
             (fun x y => FeedbackSystem.newest_first x y = true)).
    + intros x y. unfold FeedbackSystem.newest_first. simpl. apply Z.leb_le.
    + apply sort_sorted; [apply newest_first_total | apply newest_first_trans].
Qed.

Lemma X16_performance_in_the_sample_store :
  (forall msg,
     FeedbackSystem.fault_at (FeedbackSystem.quiet (fun _ => 200%Z)) 0%nat = Some msg ->
     FeedbackSystem.get_module_performance
       (FeedbackSystem.quiet (fun _ => 200%Z))
       (@rev FeedbackSystem.optimization_row) store_with_feedback "cache"
     = Raise (SqliteError msg))
  /\ (forall msg,
        FeedbackSystem.fault_at (FeedbackSystem.quiet (fun _ => 200%Z)) 0%nat = None ->
        FeedbackSystem.fault_at (FeedbackSystem.quiet (fun _ => 200%Z)) 1%nat
        = Some msg ->
        FeedbackSystem.get_module_performance
          (FeedbackSystem.quiet (fun _ => 200%Z))
          (@rev FeedbackSystem.optimization_row) store_with_feedback "cache"
        = Raise (SqliteError msg))
  /\ (FeedbackSystem.fault_at (FeedbackSystem.quiet (fun _ => 200%Z)) 0%nat = None ->
      FeedbackSystem.fault_at (FeedbackSystem.quiet (fun _ => 200%Z)) 1%nat = None ->
      exists p,
        FeedbackSystem.get_module_performance
          (FeedbackSystem.quiet (fun _ => 200%Z))
          (@rev FeedbackSystem.optimization_row) store_with_feedback "cache"
        = Ok p
        /\ FeedbackSystem.mp_module_name p = "cache"
        /\ FeedbackSystem.fs_total_feedback (FeedbackSystem.mp_feedback_stats p)
           = len (feedback_about store_with_feedback "cache")
        /\ (feedback_about store_with_feedback "cache" = [] ->
            FeedbackSystem.fs_negative_count (FeedbackSystem.mp_feedback_stats p) = None
            /\ FeedbackSystem.fs_positive_count (FeedbackSystem.mp_feedback_stats p)
               = None)
        /\ (feedback_about store_with_feedback "cache" <> [] ->
            exists negative positive,
              FeedbackSystem.fs_negative_count (FeedbackSystem.mp_feedback_stats p)
              = Some negative
              /\ FeedbackSystem.fs_positive_count (FeedbackSystem.mp_feedback_stats p)
                 = Some positive
              /\ (0 <= negative)%Z /\ (0 <= positive)%Z
              /\ (negative + positive
                  <= len (feedback_about store_with_feedback "cache"))%Z)
        /\ Permutation (FeedbackSystem.mp_optimization_history p)
                       (history_of store_with_feedback "cache")
        /\ StronglySorted
             (fun x y => (FeedbackSystem.he_timestamp y
                          <= FeedbackSystem.he_timestamp x)%Z)
             (FeedbackSystem.mp_optimization_history p)).
Proof.
  apply (X16_performance_of_a_module (FeedbackSystem.quiet (fun _ => 200%Z))
           (@rev FeedbackSystem.optimization_row) store_with_feedback "cache").
  intros l. apply Permutation_sym, Permutation_rev.
Defined.

Section FeedbackRoundTrip.

Import FeedbackSystem.

(** With a storage layer that does not fail, [add_feedback] appends one
    row, numbered after the table's counter. *)
Lemma add_feedback_quiet (clock : nat -> Z) (db : database)
    (module model type : string) (detail session : option string) :
  add_feedback (quiet clock) db
    {| module_name := Some module; model_used := Some model;
       feedback_type := Some type; feedback_detail := detail;
       session_id := session |}
  = (Ok (module_feedback_seq db + 1)%Z,
     {| module_feedback :=
          (module_feedback db
           ++ [{| fb_id := (module_feedback_seq db + 1)%Z;
                  fb_module_name := module; fb_model_used := model;
                  fb_feedback_type := type; fb_feedback_detail := detail;
                  fb_timestamp := clock 0%nat; fb_session_id := session |}])%list;
        module_feedback_seq := (module_feedback_seq db + 1)%Z;
        optimization_results := optimization_results db;
        optimization_results_seq := optimization_results_seq db |}).
Proof. reflexivity. Qed.

Lemma count_type_snoc (t : string) (rows : list feedback_row) (r : feedback_row) :
  count_type t (rows ++ [r])
  = (count_type t rows + (if String.eqb (fb_feedback_type r) t then 1 else 0))%Z.
Proof.
  unfold count_type. rewrite filter_app, length_app. simpl.
  destruct (String.eqb (fb_feedback_type r) t); simpl; lia.
Qed.

Lemma sum_type_or_zero (t : string) (rows : list feedback_row) :
  or_zero (sum_type t rows) = count_type t rows.
Proof. destruct rows; reflexivity. Qed.

Lemma sum_type_snoc (t : string) (rows : list feedback_row) (r : feedback_row) :
  sum_type t (rows ++ [r])
  = Some (or_zero (sum_type t rows)
          + (if String.eqb (fb_feedback_type r) t then 1 else 0))%Z.
Proof.
  rewrite sum_type_or_zero, <- count_type_snoc.
  destruct rows; reflexivity.
Qed.

Lemma filter_of_module_snoc (name : string) (rows : list feedback_row)
    (r : feedback_row) :
  filter (of_module name) (rows ++ [r])
  = (filter (of_module name) rows
     ++ (if String.eqb (fb_module_name r) name then [r] else []))%list.
Proof.
  rewrite filter_app. simpl. unfold of_module at 2.
  destruct (String.eqb (fb_module_name r) name); reflexivity.
Qed.

Lemma performance_quiet (clock : nat -> Z)
    (scan_order : list optimization_row -> list optimization_row)
    (db : database) (name : string) :
  get_module_performance (quiet clock) scan_order db name
  = Ok {| mp_module_name := name;
          mp_feedback_stats := select_feedback_stats (module_feedback db) name;
          mp_optimization_history :=
            select_optimization_history scan_order (optimization_results db) name |}.
Proof. reflexivity. Qed.

End FeedbackRoundTrip.

(** X17, add_feedback and get_module_performance of feedback_system.py.
    With a storage layer that does not fail, an entry added for a module
    gets the next id and shows in the module's performance: the total
    grows by one, and so does the count of its type when that is
    "negative" or "positive", a count of None becoming 1; the
    optimization history stays as it was, and so does the performance of
    every other module. *)
Theorem X17_added_feedback_shows_in_the_performance (clock clock' : nat -> Z)
    (scan_order : list FeedbackSystem.optimization_row
                  -> list FeedbackSystem.optimization_row)
    (db : FeedbackSystem.database) (module model type : string)
    (detail session : option string) :
  let fb := {| FeedbackSystem.module_name := Some module;
               FeedbackSystem.model_used := Some model;
               FeedbackSystem.feedback_type := Some type;
               FeedbackSystem.feedback_detail := detail;
               FeedbackSystem.session_id := session |} in
  let added := FeedbackSystem.add_feedback (FeedbackSystem.quiet clock) db fb in
  let performance :=
    FeedbackSystem.get_module_performance (FeedbackSystem.quiet clock') scan_order in
  fst added = Ok (FeedbackSystem.module_feedback_seq db + 1)%Z
  /\ (exists p p',
        performance db module = Ok p
        /\ performance (snd added) module = Ok p'
        /\ FeedbackSystem.fs_total_feedback (FeedbackSystem.mp_feedback_stats p')
           = (FeedbackSystem.fs_total_feedback (FeedbackSystem.mp_feedback_stats p)
              + 1)%Z
        /\ FeedbackSystem.fs_negative_count (FeedbackSystem.mp_feedback_stats p')
           = Some (or_zero (FeedbackSystem.fs_negative_count
                              (FeedbackSystem.mp_feedback_stats p))
                   + (if String.eqb type "negative" then 1 else 0))%Z
        /\ FeedbackSystem.fs_positive_count (FeedbackSystem.mp_feedback_stats p')
           = Some (or_zero (FeedbackSystem.fs_positive_count
                              (FeedbackSystem.mp_feedback_stats p))
                   + (if String.eqb type "positive" then 1 else 0))%Z
        /\ FeedbackSystem.mp_optimization_history p'
           = FeedbackSystem.mp_optimization_history p)
  /\ (forall other, other <> module ->
        performance (snd added) other = performance db other).
Proof.
  cbn zeta. rewrite add_feedback_quiet. cbn [fst snd].
  split; [reflexivity|]. rewrite !performance_quiet. split.
  - eexists. eexists. split; [reflexivity|]. split; [reflexivity|].
    cbn [FeedbackSystem.mp_feedback_stats FeedbackSystem.mp_optimization_history
         FeedbackSystem.module_feedback FeedbackSystem.optimization_results].
    unfold FeedbackSystem.select_feedback_stats.
    cbn [FeedbackSystem.fs_total_feedback FeedbackSystem.fs_negative_count
         FeedbackSystem.fs_positive_count].
    rewrite filter_of_module_snoc. cbn [FeedbackSystem.fb_module_name].
    rewrite String.eqb_refl.
    split; [rewrite length_app; simpl; lia|].
    split; [apply sum_type_snoc|].
    split; [apply sum_type_snoc | reflexivity].
  - intros other N. rewrite !performance_quiet.
    cbn [FeedbackSystem.module_feedback FeedbackSystem.optimization_results].
    unfold FeedbackSystem.select_feedback_stats.
    rewrite filter_of_module_snoc. cbn [FeedbackSystem.fb_module_name].
    destruct (String.eqb module other) eqn:E.
    + apply String.eqb_eq in E. congruence.
    + rewrite app_nil_r. reflexivity.
Qed.

(** ** feedback_system.py: the ids of the rows *)

Section FeedbackIds.

Import FeedbackSystem.

(** The database with one row appended to a table. *)
Lemma add_feedback_cases (e : env) (db : database) (fb : feedback_dict) :
  (exists ex, add_feedback e db fb = (Raise ex, db))
  \/ (exists row,
        fb_id row = (module_feedback_seq db + 1)%Z
        /\ add_feedback e db fb
           = (Ok (module_feedback_seq db + 1)%Z,
              {| module_feedback := (module_feedback db ++ [row])%list;
                 module_feedback_seq := (module_feedback_seq db + 1)%Z;
                 optimization_results := optimization_results db;
                 optimization_results_seq := optimization_results_seq db |})).
Proof.
  unfold add_feedback, execute_insert_feedback, commit, statement, connect, view,
    with_txn, tick, close.
  cbn [step txn disk].
  destruct (fault_at e 0%nat); [left; eexists; reflexivity|].
  destruct (module_name fb); [|left; eexists; reflexivity].
  destruct (model_used fb); [|left; eexists; reflexivity].
  destruct (feedback_type fb); [|left; eexists; reflexivity].
  cbn [step txn disk].
  destruct (fault_at e 1%nat); [left; eexists; reflexivity|].
  right. eexists. split; [|reflexivity]. reflexivity.
Qed.

Lemma record_optimization_cases (e : env) (db : database)
    (module target : string) (original_tokens optimized_tokens : Z)
    (improvement_percent : Q) (applied : bool) :
  (exists ex,
      record_optimization e db module target original_tokens optimized_tokens
        improvement_percent applied
      = (Raise ex, db))
  \/ record_optimization e db module target original_tokens optimized_tokens
       improvement_percent applied
     = (Ok (optimization_results_seq db + 1)%Z,
        {| module_feedback := module_feedback db;
           module_feedback_seq := module_feedback_seq db;
           optimization_results :=
             (optimization_results db
              ++ [{| opt_id := (optimization_results_seq db + 1)%Z;
                     opt_module_name := module; opt_target_model := target;
                     opt_original_tokens := original_tokens;
                     opt_optimized_tokens := optimized_tokens;
                     opt_improvement_percent := improvement_percent;
                     opt_timestamp := time_at e 0%nat;
                     is_applied := applied |}])%list;
           optimization_results_seq := (optimization_results_seq db + 1)%Z |}).
Proof.
  unfold record_optimization, execute_insert_optimization, commit, statement,
    connect, view, with_txn, tick, close.
  cbn [step txn disk].
  destruct (fault_at e 0%nat); [left; eexists; reflexivity|].
  cbn [step txn disk].
  destruct (fault_at e 1%nat); [left; eexists; reflexivity|].
  right. reflexivity.
Qed.

Lemma mark_optimization_applied_cases (e : env) (db : database)
    (module target : string) :
  (exists r, mark_optimization_applied e db module target = (r, db))
  \/ (exists t,
        latest_timestamp (matches module target) (optimization_results db) = Some t
        /\ mark_optimization_applied e db module target
           = (Ok true,
              {| module_feedback := module_feedback db;
                 module_feedback_seq := module_feedback_seq db;
                 optimization_results :=
                   apply_first (matches module target) t (optimization_results db);
                 optimization_results_seq := optimization_results_seq db |})).
Proof.
  unfold mark_optimization_applied, execute_update_applied, commit, statement,
    connect, view, with_txn, tick, close.
  cbn [step txn disk].
  destruct (fault_at e 0%nat); [left; eexists; reflexivity|].
  destruct (latest_timestamp (matches module target) (optimization_results db))
    as [t|].
  - cbn [step txn disk].
    destruct (fault_at e 1%nat); [left; eexists; reflexivity|].
    right. exists t. split; reflexivity.
  - cbn [step txn disk].
    destruct (fault_at e 1%nat); left; eexists; [reflexivity|].
    destruct db; reflexivity.
Qed.

Lemma apply_first_ids (p : optimization_row -> bool) (t : Z)
    (rows : list optimization_row) :
  map opt_id (apply_first p t rows) = map opt_id rows.
Proof.
  induction rows as [|r rows IH]; simpl; [reflexivity|].
  destruct (p r && (opt_timestamp r =? t)%Z); simpl; [reflexivity|].
  rewrite IH. reflexivity.
Qed.

Lemma apply_first_bounded (p : optimization_row -> bool) (t s : Z)
    (rows : list optimization_row) :
  Forall (fun r => (opt_id r <= s)%Z) rows ->
  Forall (fun r => (opt_id r <= s)%Z) (apply_first p t rows).
Proof.
  induction 1 as [|r rows H F IH]; simpl; [constructor|].
  destruct (p r && (opt_timestamp r =? t)%Z); constructor; assumption.
Qed.

Lemma ids_append_feedback (db : database) (row : feedback_row) :
  ids_in_order db ->
  fb_id row = (module_feedback_seq db + 1)%Z ->
  ids_in_order
    {| module_feedback := (module_feedback db ++ [row])%list;
       module_feedback_seq := (module_feedback_seq db + 1)%Z;
       optimization_results := optimization_results db;
       optimization_results_seq := optimization_results_seq db |}.
Proof.
  intros (S1 & F1 & S2 & F2) E. unfold ids_in_order. simpl.
  split; [|split; [|split; assumption]].
  - rewrite map_app. simpl. apply StronglySorted_snoc; [exact S1|].
    intros y I. apply in_map_iff in I. destruct I as (r & <- & I).
    rewrite Forall_forall in F1. specialize (F1 r I). lia.
  - apply Forall_app. split.
    + apply Forall_forall. intros r I. rewrite Forall_forall in F1.
      specialize (F1 r I). lia.
    + constructor; [lia | constructor].
Qed.

Lemma ids_append_run (db : database) (row : optimization_row) :
  ids_in_order db ->
  opt_id row = (optimization_results_seq db + 1)%Z ->
  ids_in_order
    {| module_feedback := module_feedback db;
       module_feedback_seq := module_feedback_seq db;
       optimization_results := (optimization_results db ++ [row])%list;
       optimization_results_seq := (optimization_results_seq db + 1)%Z |}.
Proof.
  intros (S1 & F1 & S2 & F2) E. unfold ids_in_order. simpl.
  split; [exact S1|]. split; [exact F1|]. split.
  - rewrite map_app. simpl. apply StronglySorted_snoc; [exact S2|].
    intros y I. apply in_map_iff in I. destruct I as (r & <- & I).
    rewrite Forall_forall in F2. specialize (F2 r I). lia.
  - apply Forall_app. split.
    + apply Forall_forall. intros r I. rewrite Forall_forall in F2.
      specialize (F2 r I). lia.
    + constructor; [lia | constructor].
Qed.

Lemma ids_with_feedback (rows : list feedback_row) :
  forall db, ids_in_order db -> numbered (module_feedback_seq db) rows ->
    ids_in_order (with_feedback db rows).
Proof.
  induction rows as [|row rows IH]; intros db H N.
  - rewrite with_feedback_nil. exact H.
  - destruct N as [E N]. rewrite <- with_feedback_cons.
    apply IH; [apply ids_append_feedback; assumption | exact N].
Qed.

Lemma numbered_above (rows : list feedback_row) :
  forall s, numbered s rows ->
    StronglySorted Z.lt (map fb_id rows)
    /\ Forall (fun r => (s < fb_id r)%Z) rows.
Proof.
  induction rows as [|row rows IH]; intros s N; simpl.
  - split; constructor.
  - destruct N as [E N]. destruct (IH _ N) as [S F]. split.
    + constructor; [exact S|].
      apply Forall_forall. intros i I. apply in_map_iff in I.
      destruct I as (r & <- & I).
      rewrite Forall_forall in F. specialize (F r I). lia.
    + constructor; [lia|].
      apply Forall_forall. intros r I.
      rewrite Forall_forall in F. specialize (F r I). lia.
Qed.

Lemma StronglySorted_lt_NoDup (l : list Z) : StronglySorted Z.lt l -> NoDup l.
Proof.
  induction 1 as [|a l S IH F]; constructor; [|exact IH].
  intros I. rewrite Forall_forall in F. specialize (F a I). lia.
Qed.

End FeedbackIds.

(** X18, the write operations of feedback_system.py.  In a database
    whose ids grow along the rows of each table and stay within the
    table's counter, add_feedback, batch_add_feedback, record_optimization
    and mark_optimization_applied keep it so, whether they return or
    raise: no id is ever used twice.  An id that add_feedback or
    record_optimization returns, and every id that batch_add_feedback
    returns, is new in its table, and the ids of one batch differ from
    each other. *)
Theorem X18_ids_are_never_reused (e : FeedbackSystem.env)
    (db : FeedbackSystem.database) (Hids : ids_in_order db) :
  NoDup (map FeedbackSystem.fb_id (FeedbackSystem.module_feedback db))
  /\ NoDup (map FeedbackSystem.opt_id (FeedbackSystem.optimization_results db))
  /\ (forall fb,
        ids_in_order (snd (FeedbackSystem.add_feedback e db fb))
        /\ forall id, fst (FeedbackSystem.add_feedback e db fb) = Ok id ->
             ~ In id (map FeedbackSystem.fb_id (FeedbackSystem.module_feedback db)))
  /\ (forall feedback_data,
        ids_in_order (snd (FeedbackSystem.batch_add_feedback e db feedback_data))
        /\ forall ids,
             fst (FeedbackSystem.batch_add_feedback e db feedback_data) = Ok ids ->
             NoDup ids
             /\ forall id, In id ids ->
                  ~ In id (map FeedbackSystem.fb_id
                               (FeedbackSystem.module_feedback db)))
  /\ (forall module target original_tokens optimized_tokens improvement applied,
        ids_in_order
          (snd (FeedbackSystem.record_optimization e db module target
                  original_tokens optimized_tokens improvement applied))
        /\ forall id,
             fst (FeedbackSystem.record_optimization e db module target
                    original_tokens optimized_tokens improvement applied)
             = Ok id ->
             ~ In id (map FeedbackSystem.opt_id
                          (FeedbackSystem.optimization_results db)))
  /\ (forall module target,
        ids_in_order
          (snd (FeedbackSystem.mark_optimization_applied e db module target))).
Proof.
  pose proof Hids as (S1 & F1 & S2 & F2).
  split; [apply StronglySorted_lt_NoDup, S1|].
  split; [apply StronglySorted_lt_NoDup, S2|].
  split; [|split; [|split]].
  - intros fb.
    destruct (add_feedback_cases e db fb) as [(ex & ->)|(row & E & ->)]; cbn [fst snd].
    + split; [exact Hids | intros id H; discriminate H].
    + split; [apply ids_append_feedback; assumption|].
      intros id H. injection H as <-. intros I.
      apply in_map_iff in I. destruct I as (r & Er & I).
      rewrite Forall_forall in F1. specialize (F1 r I). lia.
  - intros feedback_data.
    destruct (batch_add_feedback_cases e db feedback_data)
      as [(ex & -> & _)|(rows & -> & _ & N & _)]; cbn [fst snd].
    + split; [exact Hids | intros ids H; discriminate H].
    + split; [apply ids_with_feedback; assumption|].
      intros ids H. injection H as <-.
      destruct (numbered_above rows _ N) as [S F]. split.
      * apply StronglySorted_lt_NoDup, S.
      * intros id I I'. apply in_map_iff in I. destruct I as (r & <- & I).
        apply in_map_iff in I'. destruct I' as (r' & Er & I').
        rewrite Forall_forall in F, F1.
        specialize (F r I). specialize (F1 r' I'). lia.
  - intros module target original_tokens optimized_tokens improvement applied.
    destruct (record_optimization_cases e db module target original_tokens
                optimized_tokens improvement applied) as [(ex & ->)| ->];
      cbn [fst snd].
    + split; [exact Hids | intros id H; discriminate H].
    + split; [apply ids_append_run; [exact Hids | reflexivity]|].
      intros id H. injection H as <-. intros I.
      apply in_map_iff in I. destruct I as (r & Er & I).
      rewrite Forall_forall in F2. specialize (F2 r I). lia.
  - intros module target.
    destruct (mark_optimization_applied_cases e db module target)
      as [(r & ->)|(t & _ & ->)]; cbn [snd]; [exact Hids|].
    unfold ids_in_order. simpl. rewrite apply_first_ids.
    split; [exact S1|]. split; [exact F1|]. split; [exact S2|].
    apply apply_first_bounded, F2.
Qed.

Lemma X18_ids_of_the_sample_store :
  NoDup (map FeedbackSystem.fb_id (FeedbackSystem.module_feedback store_with_feedback))
  /\ NoDup (map FeedbackSystem.opt_id
                (FeedbackSystem.optimization_results store_with_feedback))
  /\ (forall fb,
        ids_in_order
          (snd (FeedbackSystem.add_feedback (FeedbackSystem.quiet (fun _ => 200%Z))
                  store_with_feedback fb))
        /\ forall id,
             fst (FeedbackSystem.add_feedback (FeedbackSystem.quiet (fun _ => 200%Z))
                    store_with_feedback fb)
             = Ok id ->
             ~ In id (map FeedbackSystem.fb_id
                          (FeedbackSystem.module_feedback store_with_feedback)))
  /\ (forall feedback_data,
        ids_in_order
          (snd (FeedbackSystem.batch_add_feedback
                  (FeedbackSystem.quiet (fun _ => 200%Z))
                  store_with_feedback feedback_data))
        /\ forall ids,
             fst (FeedbackSystem.batch_add_feedback
                    (FeedbackSystem.quiet (fun _ => 200%Z))
                    store_with_feedback feedback_data)
             = Ok ids ->
             NoDup ids
             /\ forall id, In id ids ->
                  ~ In id (map FeedbackSystem.fb_id
                               (FeedbackSystem.module_feedback store_with_feedback)))
  /\ (forall module target original_tokens optimized_tokens improvement applied,
        ids_in_order
          (snd (FeedbackSystem.record_optimization
                  (FeedbackSystem.quiet (fun _ => 200%Z)) store_with_feedback
                  module target original_tokens optimized_tokens improvement
                  applied))
        /\ forall id,
             fst (FeedbackSystem.record_optimization
                    (FeedbackSystem.quiet (fun _ => 200%Z)) store_with_feedback
                    module target original_tokens optimized_tokens improvement
                    applied)
             = Ok id ->
             ~ In id (map FeedbackSystem.opt_id
                          (FeedbackSystem.optimization_results store_with_feedback)))
  /\ (forall module target,
        ids_in_order
          (snd (FeedbackSystem.mark_optimization_applied
                  (FeedbackSystem.quiet (fun _ => 200%Z)) store_with_feedback
                  module target))).
Proof.
  apply (X18_ids_are_never_reused (FeedbackSystem.quiet (fun _ => 200%Z))
           store_with_feedback).
  unfold ids_in_order. vm_compute.
  split; [|split; [|split]]; repeat constructor; discriminate.
Defined.

(** ** feedback_system.py: recording a run and marking it *)

Section RecordThenMark.

Import FeedbackSystem.

Variable p : optimization_row -> bool.



End RecordThenMark.



(** ** scripts/context/feedback.py: the queries *)

Section NewestFirst.

Context {X : Type}.
Variable key : X -> Z.

(** In a list sorted by decreasing key, an element whose key exceeds that
    of every other element comes first. *)
Lemma sorted_head_is_latest (l : list X) (x : X) :
  StronglySorted (fun a b => (key b <= key a)%Z) l ->
  In x l ->
  (forall y, In y l -> y = x \/ (key y < key x)%Z) ->
  exists rest, l = x :: rest.
Proof.
  intros S I H. destruct l as [|h rest]; [destruct I|].
  destruct (H h (or_introl eq_refl)) as [->|L]; [exists rest; reflexivity|].
  exfalso. destruct I as [->|I]; [lia|].
  inversion S as [|? ? _ F]; subst. rewrite Forall_forall in F.
  specialize (F x I). lia.
Qed.

Lemma sql_limit_head (limit : Z) (x : X) (rest : list X) :
  limit <> 0%Z -> exists rest', Sort.sql_limit limit (x :: rest) = x :: rest'.
Proof.
  intros N. unfold Sort.sql_limit. destruct (limit <? 0)%Z eqn:E.
  - exists rest. reflexivity.
  - apply Z.ltb_ge in E. destruct (Z.to_nat limit) as [|n] eqn:T; [lia|].
    exists (firstn n rest). reflexivity.
Qed.

Variable before : X -> X -> bool.
Hypothesis before_key : forall a b, before a b = true <-> (key b <= key a)%Z.

Lemma newest_first_sorted (l : list X) :
  StronglySorted (fun a b => (key b <= key a)%Z) (Sort.sort before l).
Proof.
  apply (StronglySorted_impl (fun a b => before a b = true)).
  - intros a b. apply before_key.
  - apply sort_sorted.
    + intros a b F. apply before_key.
      destruct (Z_le_gt_dec (key b) (key a)) as [L|G]; [|lia].
      apply before_key in L. congruence.
    + intros a b c A B. apply before_key in A, B. apply before_key. lia.
Qed.

(** What a query SELECT ... ORDER BY key DESC LIMIT ? returns from the
    rows [l] it selects. *)
Lemma limited_selection (scan_order : list X -> list X) (limit : Z) (l : list X) :
  (forall l, Permutation (scan_order l) l) ->
  let rows := Sort.sql_limit limit (Sort.sort before (scan_order l)) in
  StronglySorted (fun a b => (key b <= key a)%Z) rows
  /\ (forall r, In r rows -> In r l)
  /\ ((0 <= limit)%Z -> (Z.of_nat (List.length rows) <= limit)%Z)
  /\ ((limit < 0)%Z -> Permutation rows l).
Proof.
  intros P rows. subst rows. split; [|split; [|split]].
  - apply StronglySorted_sql_limit, newest_first_sorted.
  - intros r I. apply sql_limit_incl, sort_in in I.
    apply (Permutation_in _ (P l)), I.
  - apply sql_limit_length.
  - intros L. unfold Sort.sql_limit. apply Z.ltb_lt in L. rewrite L.
    rewrite sort_perm. apply P.
Qed.

(** The newest row comes first, if any row is returned at all. *)
Lemma latest_row_first (scan_order : list X -> list X) (limit : Z)
    (l : list X) (x : X) :
  (forall l, Permutation (scan_order l) l) ->
  limit <> 0%Z ->
  (forall y, In y l -> (key y < key x)%Z) ->
  exists rest,
    Sort.sql_limit limit (Sort.sort before (scan_order (l ++ [x])%list)) = x :: rest.
Proof.
  intros P N H.
  destruct (sorted_head_is_latest (Sort.sort before (scan_order (l ++ [x])%list)) x)
    as [rest E].
  - apply newest_first_sorted.
  - apply sort_in. apply (Permutation_in _ (Permutation_sym (P _))).
    apply in_or_app. right. left. reflexivity.
  - intros y I. apply sort_in in I. apply (Permutation_in _ (P _)) in I.
    apply in_app_or in I. destruct I as [I|[<-|[]]].
    + right. apply H, I.
    + left. reflexivity.
  - rewrite E. apply sql_limit_head, N.
Qed.

End NewestFirst.

Section FeedbackPyQueries.

Import Feedback.

Lemma newer_feedback_key (a b : feedback_row) :
  newer_feedback a b = true <-> (fb_timestamp b <= fb_timestamp a)%Z.
Proof. unfold newer_feedback. apply Z.leb_le. Qed.

Lemma newer_run_key (a b : history_row) :
  newer_run a b = true <-> (h_timestamp b <= h_timestamp a)%Z.
Proof. unfold newer_run. apply Z.leb_le. Qed.

Lemma given_nonempty (name : string) : name <> "" -> given (Some name) = Some name.
Proof. destruct name; [contradiction | reflexivity]. Qed.

End FeedbackPyQueries.

(** X20, get_module_feedback and get_optimization_history of
    feedback.py.  Each fails exactly when the storage layer raises, with
    its own prefix before the error.  Otherwise "count" is the number of
    rows returned, at most the limit when that is 0 or more; the rows are
    stored rows, of the module asked for when a name that is not empty is
    given, the newest first; with a negative limit every such row is
    returned. *)
Theorem X20_feedback_queries_return_the_newest_rows (io : option string)
    (scan_feedback : list Feedback.feedback_row -> list Feedback.feedback_row)
    (scan_history : list Feedback.history_row -> list Feedback.history_row)
    (db : Feedback.database) (module_name : option string) (limit : Z)
    (Hfeedback : forall l, Permutation (scan_feedback l) l)
    (Hhistory : forall l, Permutation (scan_history l) l) :
  match Feedback.get_module_feedback io scan_feedback db module_name limit with
  | Feedback.ReadFailed error =>
      exists e, io = Some e /\ error = "Error retrieving feedback: " ++ e
  | Feedback.Rows count rows =>
      io = None /\ count = len rows
      /\ ((0 <= limit)%Z -> (count <= limit)%Z)
      /\ StronglySorted
           (fun a b => (Feedback.fb_timestamp b <= Feedback.fb_timestamp a)%Z) rows
      /\ Forall (fun r => In r (Feedback.module_feedback db)
                          /\ about module_name (Feedback.fb_module_name r)) rows
      /\ ((limit < 0)%Z ->
          forall r, In r (Feedback.module_feedback db) ->
                    about module_name (Feedback.fb_module_name r) -> In r rows)
  end
  /\ match Feedback.get_optimization_history io scan_history db module_name limit with
     | Feedback.ReadFailed error =>
         exists e, io = Some e
                   /\ error = "Error retrieving optimization history: " ++ e
     | Feedback.Rows count rows =>
         io = None /\ count = len rows
         /\ ((0 <= limit)%Z -> (count <= limit)%Z)
         /\ StronglySorted
              (fun a b => (Feedback.h_timestamp b <= Feedback.h_timestamp a)%Z) rows
         /\ Forall (fun r => In r (Feedback.optimization_history db)
                             /\ about module_name (Feedback.h_module_name r)) rows
         /\ ((limit < 0)%Z ->
             forall r, In r (Feedback.optimization_history db) ->
                       about module_name (Feedback.h_module_name r) -> In r rows)
     end.
Proof.
  unfold Feedback.get_module_feedback, Feedback.get_optimization_history, about.
  destruct io as [e|]; [split; exists e; split; reflexivity|].
  split.
  - set (l := match Feedback.given module_name with
              | Some name =>
                  filter (fun r => String.eqb (Feedback.fb_module_name r) name)
                         (Feedback.module_feedback db)
              | None => Feedback.module_feedback db
              end).
    destruct (limited_selection Feedback.fb_timestamp Feedback.newer_feedback
                newer_feedback_key scan_feedback limit l Hfeedback)
      as (S & I & B & A).
    split; [reflexivity|]. split; [reflexivity|]. split; [exact B|].
    split; [exact S|]. split.
    + apply Forall_forall. intros r Ir. specialize (I r Ir). subst l.
      destruct (Feedback.given module_name) as [name|].
      * apply filter_In in I. destruct I as [I E]. split; [exact I|].
        intros n H. injection H as <-. apply String.eqb_eq, E.
      * split; [exact I | intros n H; discriminate H].
    + intros L r Ir Hr. apply (Permutation_in _ (Permutation_sym (A L))).
      subst l. destruct (Feedback.given module_name) as [name|]; [|exact Ir].
      apply filter_In. split; [exact Ir|].
      apply String.eqb_eq, Hr. reflexivity.
  - set (l := match Feedback.given module_name with
              | Some name =>
                  filter (fun r => String.eqb (Feedback.h_module_name r) name)
                         (Feedback.optimization_history db)
              | None => Feedback.optimization_history db
              end).
    destruct (limited_selection Feedback.h_timestamp Feedback.newer_run
                newer_run_key scan_history limit l Hhistory)
      as (S & I & B & A).
    split; [reflexivity|]. split; [reflexivity|]. split; [exact B|].
    split; [exact S|]. split.
    + apply Forall_forall. intros r Ir. specialize (I r Ir). subst l.
      destruct (Feedback.given module_name) as [name|].
      * apply filter_In in I. destruct I as [I E]. split; [exact I|].
        intros n H. injection H as <-. apply String.eqb_eq, E.
      * split; [exact I | intros n H; discriminate H].
    + intros L r Ir Hr. apply (Permutation_in _ (Permutation_sym (A L))).
      subst l. destruct (Feedback.given module_name) as [name|]; [|exact Ir].
      apply filter_In. split; [exact Ir|].
      apply String.eqb_eq, Hr. reflexivity.
Qed.

Lemma X20_newest_rows_of_a_small_store :
  match Feedback.get_module_feedback None (@rev Feedback.feedback_row)
          (rated 30 "effective" (rated 20 "error" empty_history)) (Some "api") 1 with
  | Feedback.ReadFailed error =>
      exists e, @None string = Some e /\ error = "Error retrieving feedback: " ++ e
  | Feedback.Rows count rows =>
      @None string = None /\ count = len rows
      /\ ((0 <= 1)%Z -> (count <= 1)%Z)
      /\ StronglySorted
           (fun a b => (Feedback.fb_timestamp b <= Feedback.fb_timestamp a)%Z) rows
      /\ Forall (fun r =>
                   In r (Feedback.module_feedback
                           (rated 30 "effective" (rated 20 "error" empty_history)))
                   /\ about (Some "api") (Feedback.fb_module_name r)) rows
      /\ ((1 < 0)%Z ->
          forall r,
            In r (Feedback.module_feedback
                    (rated 30 "effective" (rated 20 "error" empty_history))) ->
            about (Some "api") (Feedback.fb_module_name r) -> In r rows)
  end
  /\ match Feedback.get_optimization_history None (@rev Feedback.history_row)
             (rated 30 "effective" (rated 20 "error" empty_history)) (Some "api") 1 with
     | Feedback.ReadFailed error =>
         exists e, @None string = Some e
                   /\ error = "Error retrieving optimization history: " ++ e
     | Feedback.Rows count rows =>
         @None string = None /\ count = len rows
         /\ ((0 <= 1)%Z -> (count <= 1)%Z)
         /\ StronglySorted
              (fun a b => (Feedback.h_timestamp b <= Feedback.h_timestamp a)%Z) rows
         /\ Forall (fun r =>
                      In r (Feedback.optimization_history
                              (rated 30 "effective" (rated 20 "error" empty_history)))
                      /\ about (Some "api") (Feedback.h_module_name r)) rows
         /\ ((1 < 0)%Z ->
             forall r,
               In r (Feedback.optimization_history
                       (rated 30 "effective" (rated 20 "error" empty_history))) ->
               about (Some "api") (Feedback.h_module_name r) -> In r rows)
     end.
Proof.
  apply (X20_feedback_queries_return_the_newest_rows None
           (@rev Feedback.feedback_row) (@rev Feedback.history_row)
           (rated 30 "effective" (rated 20 "error" empty_history)) (Some "api") 1).
  - intros l. apply Permutation_sym, Permutation_rev.
  - intros l. apply Permutation_sym, Permutation_rev.
Defined.

(** X21, record_feedback followed by get_module_feedback in feedback.py.
    When the storage layer does not fail, an entry recorded for a module
    at a time later than that of every stored entry of the module gets the
    next id and is the first row that a following get_module_feedback for
    the module returns, whatever the limit, unless the limit is 0. *)
Theorem X21_recorded_feedback_is_returned_first (now : Z)
    (scan_order : list Feedback.feedback_row -> list Feedback.feedback_row)
    (db : Feedback.database) (module_name feedback_type : string)
    (effectiveness : option Z) (feedback_text user_id target_model : option string)
    (limit : Z)
    (Horder : forall l, Permutation (scan_order l) l)
    (Hname : module_name <> "")
    (Hlimit : limit <> 0%Z)
    (Hlater : forall r, In r (Feedback.module_feedback db) ->
                Feedback.fb_module_name r = module_name ->
                (Feedback.fb_timestamp r < now)%Z) :
  let recorded :=
    Feedback.record_feedback None now db module_name feedback_type effectiveness
      feedback_text user_id target_model in
  let row :=
    {| Feedback.fb_id := (Feedback.module_feedback_seq db + 1)%Z;
       Feedback.fb_module_name := module_name;
       Feedback.fb_timestamp := now;
       Feedback.fb_user_id := user_id;
       Feedback.fb_feedback_type := feedback_type;
       Feedback.fb_feedback_text := feedback_text;
       Feedback.fb_effectiveness := effectiveness;
       Feedback.fb_target_model := target_model |} in
  fst recorded
  = Feedback.Written (Feedback.module_feedback_seq db + 1)%Z module_name now
  /\ exists rest,
       Feedback.get_module_feedback None scan_order (snd recorded)
         (Some module_name) limit
       = Feedback.Rows (len (row :: rest)) (row :: rest).
Proof.
  cbn zeta. unfold Feedback.record_feedback. cbn [fst snd].
  split; [reflexivity|].
  unfold Feedback.get_module_feedback. rewrite (given_nonempty _ Hname).
  cbn [Feedback.module_feedback].
  rewrite filter_app. cbn [filter Feedback.fb_module_name].
  rewrite String.eqb_refl.
  destruct (latest_row_first Feedback.fb_timestamp Feedback.newer_feedback
              newer_feedback_key scan_order limit
              (filter (fun r => String.eqb (Feedback.fb_module_name r) module_name)
                      (Feedback.module_feedback db))
              {| Feedback.fb_id := (Feedback.module_feedback_seq db + 1)%Z;
                 Feedback.fb_module_name := module_name;
                 Feedback.fb_timestamp := now;
                 Feedback.fb_user_id := user_id;
                 Feedback.fb_feedback_type := feedback_type;
                 Feedback.fb_feedback_text := feedback_text;
                 Feedback.fb_effectiveness := effectiveness;
                 Feedback.fb_target_model := target_model |}
              Horder Hlimit) as [rest E].
  - intros y I. apply filter_In in I. destruct I as [I Ey].
    apply String.eqb_eq in Ey. apply (Hlater y I Ey).
  - exists rest. rewrite E. reflexivity.
Qed.

Lemma X21_feedback_recorded_at_time_40 :
  fst (Feedback.record_feedback None 40 (rated 30 "effective" empty_history)
         "api" "ineffective" (Some 2%Z) None None None)
  = Feedback.Written
      (Feedback.module_feedback_seq (rated 30 "effective" empty_history) + 1)%Z
      "api" 40
  /\ exists rest,
       Feedback.get_module_feedback None (@rev Feedback.feedback_row)
         (snd (Feedback.record_feedback None 40 (rated 30 "effective" empty_history)
                 "api" "ineffective" (Some 2%Z) None None None))
         (Some "api") 5
       = Feedback.Rows
           (len ({| Feedback.fb_id :=
                      (Feedback.module_feedback_seq
                         (rated 30 "effective" empty_history) + 1)%Z;
                    Feedback.fb_module_name := "api";
                    Feedback.fb_timestamp := 40;
                    Feedback.fb_user_id := None;
                    Feedback.fb_feedback_type := "ineffective";
                    Feedback.fb_feedback_text := None;
                    Feedback.fb_effectiveness := Some 2%Z;
                    Feedback.fb_target_model := None |} :: rest))
           ({| Feedback.fb_id :=
                 (Feedback.module_feedback_seq
                    (rated 30 "effective" empty_history) + 1)%Z;
               Feedback.fb_module_name := "api";
               Feedback.fb_timestamp := 40;
               Feedback.fb_user_id := None;
               Feedback.fb_feedback_type := "ineffective";
               Feedback.fb_feedback_text := None;
               Feedback.fb_effectiveness := Some 2%Z;
               Feedback.fb_target_model := None |} :: rest).
Proof.
  apply (X21_recorded_feedback_is_returned_first 40 (@rev Feedback.feedback_row)
           (rated 30 "effective" empty_history) "api" "ineffective" (Some 2%Z)
           None None None 5).
  - intros l. apply Permutation_sym, Permutation_rev.
  - discriminate.
  - discriminate.
  - intros r [<-|[]] _. simpl. lia.
Defined.

Section FeedbackPyEffectiveness.

Import Feedback.

Lemma with_percent_ok (g : effectiveness_row) : with_percent g = Ok (set_percent g).
Proof.
  unfold with_percent, set_percent, percent_of.
  destruct (0 <? ef_feedback_count g)%Z eqn:E; [|reflexivity].
  apply Z.ltb_lt in E. rewrite div_pos; [reflexivity|].
  change 0 with (inject_Z 0). rewrite <- Zlt_Qlt. exact E.
Qed.

Lemma with_percents_ok (rows : list effectiveness_row) :
  with_percents rows = Ok (map set_percent rows).
Proof.
  induction rows as [|g rows IH]; simpl; [reflexivity|].
  rewrite with_percent_ok, IH. reflexivity.
Qed.

Lemma least_effective_first_ranked (x y : effectiveness_row) :
  least_effective_first x y = true <-> ranked_least_effective_first x y.
Proof.
  unfold least_effective_first, ranked_least_effective_first, lt.
  rewrite orb_true_iff, andb_true_iff, Qlt_bool_iff, Qeq_bool_iff, Z.leb_le.
  split; (intros [A|[A B]]; [left; exact A | right; split; [exact A | lia]]).
Qed.

Lemma least_effective_first_total (x y : effectiveness_row) :
  least_effective_first x y = false -> least_effective_first y x = true.
Proof.
  intros F. apply least_effective_first_ranked.
  assert (N : ~ ranked_least_effective_first x y).
  { intros R. apply least_effective_first_ranked in R. congruence. }
  unfold ranked_least_effective_first in *.
  destruct (Q_dec (ef_effectiveness_percent x) (ef_effectiveness_percent y))
    as [[L|G]|E].
  - exfalso. apply N. left. exact L.
  - left. exact G.
  - right. split; [symmetry; exact E|].
    destruct (Z_le_gt_dec (ef_feedback_count y) (ef_feedback_count x)) as [A|A];
      [|lia].
    exfalso. apply N. right. split; assumption.
Qed.

Lemma least_effective_first_trans (x y z : effectiveness_row) :
  least_effective_first x y = true -> least_effective_first y z = true ->
  least_effective_first x z = true.
Proof.
  rewrite !least_effective_first_ranked. unfold ranked_least_effective_first.
  intros [A|[A1 A2]] [B|[B1 B2]].
  - left. lra.
  - left. lra.
  - left. lra.
  - right. split; [lra | lia].
Qed.

Lemma slice_to_firstn {X} (n : Z) (l : list X) :
  exists k, slice_to n l = firstn k l.
Proof.
  unfold slice_to. destruct (0 <=? n)%Z; eexists; reflexivity.
Qed.

Lemma count_type_bounds (t : string) (rows : list feedback_row) :
  (0 <= count_type t rows <= Z.of_nat (List.length rows))%Z.
Proof.
  unfold count_type.
  pose proof (filter_length_bound
                (fun r => String.eqb (fb_feedback_type r) t) rows). lia.
Qed.

(** The rows of [get_module_effectiveness], as far as the candidates
    depend on them. *)
Lemma effectiveness_rows (group_order : list string -> list string)
    (db : database) (module_name target_model : option string) :
  (forall l, Permutation (group_order l) l) ->
  exists modules,
    get_module_effectiveness None group_order db module_name target_model
    = Ok (Rows (len modules) modules)
    /\ NoDup (map ef_module_name modules)
    /\ Forall (fun m =>
                 (1 <= ef_feedback_count m)%Z
                 /\ (0 <= ef_effective_count m <= ef_feedback_count m)%Z
                 /\ ef_effectiveness_percent m
                    == inject_Z (ef_effective_count m)
                       / inject_Z (ef_feedback_count m) * 100
                 /\ exists r, In r (module_feedback db)
                              /\ fb_module_name r = ef_module_name m
                              /\ selected module_name target_model r = true)
              modules.
Proof.
  intros P. unfold get_module_effectiveness.
  set (rows := filter (selected module_name target_model) (module_feedback db)).
  set (names := group_order (nodup string_dec (map fb_module_name rows))).
  rewrite with_percents_ok. cbn [bind].
  eexists. split; [reflexivity|]. split.
  - rewrite map_map. cbn [set_percent ef_module_name].
    apply (Permutation_NoDup
             (Permutation_map _ (Permutation_sym (sort_perm _ _)))).
    rewrite map_map. cbn [group_row ef_module_name]. rewrite map_id.
    apply (Permutation_NoDup (Permutation_sym (P _))), NoDup_nodup.
  - apply Forall_forall. intros m I.
    apply in_map_iff in I. destruct I as (g & <- & I).
    apply sort_in, in_map_iff in I. destruct I as (name & <- & I).
    apply (Permutation_in _ (P _)) in I. apply nodup_In in I.
    apply in_map_iff in I. destruct I as (r & Er & Ir).
    set (mine := filter (fun r => String.eqb (fb_module_name r) name) rows).
    assert (Im : In r mine).
    { apply filter_In. split; [exact Ir|]. rewrite Er. apply String.eqb_refl. }
    assert (L : (1 <= Z.of_nat (List.length mine))%Z).
    { destruct mine; [destruct Im | simpl; lia]. }
    pose proof (count_type_bounds "effective" mine) as C.
    cbn [set_percent group_row ef_feedback_count ef_effective_count
         ef_effectiveness_percent ef_module_name]. fold mine.
    split; [exact L|]. split; [exact C|]. split.
    + unfold percent_of. cbn [group_row ef_feedback_count ef_effective_count].
      fold mine. replace (0 <? Z.of_nat (List.length mine))%Z with true
        by (symmetry; apply Z.ltb_lt; lia).
      reflexivity.
    + exists r. apply filter_In in Ir. destruct Ir as [Ir Sr].
      split; [exact Ir|]. split; [exact Er | exact Sr].
Qed.

End FeedbackPyEffectiveness.

(** X22, get_module_effectiveness and get_modules_for_optimization of
    feedback.py.  The call fails exactly when the storage layer raises;
    no percentage is ever divided by zero.  Otherwise "count" is the
    number of candidates, at most the limit when that is 0 or more; no
    module is listed twice; every candidate has stored feedback for the
    requested model, at least min_feedback entries of it, and an
    effectiveness percentage, effective_count / feedback_count * 100, that
    lies between 0 and 100 and does not exceed max_effectiveness; the
    candidates come by increasing percentage, and among equal percentages
    the one with more feedback first. *)
Theorem X22_candidates_for_optimization_qualify (io : option string)
    (group_order : list string -> list string) (db : Feedback.database)
    (min_feedback : Z) (max_effectiveness : Q) (target_model : option string)
    (limit : Z)
    (Horder : forall l, Permutation (group_order l) l) :
  match Feedback.get_modules_for_optimization io group_order db min_feedback
          max_effectiveness target_model limit with
  | Feedback.ReadFailed error =>
      exists e, io = Some e
                /\ error = "Error calculating module effectiveness: " ++ e
  | Feedback.Rows count modules =>
      io = None /\ count = len modules
      /\ ((0 <= limit)%Z -> (count <= limit)%Z)
      /\ NoDup (map Feedback.ef_module_name modules)
      /\ StronglySorted ranked_least_effective_first modules
      /\ Forall
           (fun m =>
              (min_feedback <= Feedback.ef_feedback_count m)%Z
              /\ (1 <= Feedback.ef_feedback_count m)%Z
              /\ Feedback.ef_effectiveness_percent m <= max_effectiveness
              /\ 0 <= Feedback.ef_effectiveness_percent m
              /\ Feedback.ef_effectiveness_percent m <= 100
              /\ Feedback.ef_effectiveness_percent m
                 == inject_Z (Feedback.ef_effective_count m)
                    / inject_Z (Feedback.ef_feedback_count m) * 100
              /\ exists r, In r (Feedback.module_feedback db)
                           /\ Feedback.fb_module_name r = Feedback.ef_module_name m
                           /\ Feedback.selected None target_model r = true)
           modules
  end.
Proof.
  unfold Feedback.get_modules_for_optimization.
  destruct io as [e|]; [exists e; split; reflexivity|].
  destruct (effectiveness_rows group_order db None target_model Horder)
    as (modules & -> & N & F).
  set (candidates :=
         filter (fun m => (min_feedback <=? Feedback.ef_feedback_count m)%Z
                          && negb (gt (Feedback.ef_effectiveness_percent m)
                                      max_effectiveness)) modules).
  destruct (slice_to_firstn limit
              (Sort.sort Feedback.least_effective_first candidates)) as [k K].
  split; [reflexivity|]. split; [reflexivity|].
  split; [apply slice_to_length|].
  rewrite K. split; [|split].
  - rewrite <- firstn_map. apply NoDup_firstn_of.
    apply (Permutation_NoDup
             (Permutation_map _ (Permutation_sym (sort_perm _ _)))).
    apply NoDup_map_filter, N.
  - apply StronglySorted_firstn.
    apply (StronglySorted_impl
             (fun x y => Feedback.least_effective_first x y = true)).
    + intros x y. apply least_effective_first_ranked.
    + apply sort_sorted;
        [apply least_effective_first_total | apply least_effective_first_trans].
  - apply Forall_forall. intros m I.
    apply in_firstn, sort_in, filter_In in I. destruct I as [I C].
    rewrite Forall_forall in F. destruct (F m I) as (L & E & P & R).
    apply andb_true_iff in C. destruct C as [C1 C2].
    apply Z.leb_le in C1. apply negb_true_iff, Qlt_bool_false_iff in C2.
    assert (Cq : 0 < inject_Z (Feedback.ef_feedback_count m)).
    { change 0 with (inject_Z 0). rewrite <- Zlt_Qlt. lia. }
    assert (B0 : 0 <= inject_Z (Feedback.ef_effective_count m)
                      / inject_Z (Feedback.ef_feedback_count m)).
    { apply Qle_shift_div_l; [exact Cq|]. rewrite Qmult_0_l.
      change 0 with (inject_Z 0). rewrite <- Zle_Qle. lia. }
    assert (B1 : inject_Z (Feedback.ef_effective_count m)
                 / inject_Z (Feedback.ef_feedback_count m) <= 1).
    { apply Qle_shift_div_r; [exact Cq|]. rewrite Qmult_1_l, <- Zle_Qle. lia. }
    split; [exact C1|]. split; [exact L|]. split; [exact C2|].
    split; [rewrite P; lra|]. split; [rewrite P; lra|].
    split; [exact P | exact R].
Qed.

Lemma X22_candidates_of_a_small_store :
  match Feedback.get_modules_for_optimization None (@rev string)
          (rated 30 "effective" (rated 20 "error" empty_history)) 2 70 None 10 with
  | Feedback.ReadFailed error =>
      exists e, @None string = Some e
                /\ error = "Error calculating module effectiveness: " ++ e
  | Feedback.Rows count modules =>
      @None string = None /\ count = len modules
      /\ ((0 <= 10)%Z -> (count <= 10)%Z)
      /\ NoDup (map Feedback.ef_module_name modules)
      /\ StronglySorted ranked_least_effective_first modules
      /\ Forall
           (fun m =>
              (2 <= Feedback.ef_feedback_count m)%Z
              /\ (1 <= Feedback.ef_feedback_count m)%Z
              /\ Feedback.ef_effectiveness_percent m <= 70
              /\ 0 <= Feedback.ef_effectiveness_percent m
              /\ Feedback.ef_effectiveness_percent m <= 100
              /\ Feedback.ef_effectiveness_percent m
                 == inject_Z (Feedback.ef_effective_count m)
                    / inject_Z (Feedback.ef_feedback_count m) * 100
              /\ exists r,
                   In r (Feedback.module_feedback
                           (rated 30 "effective" (rated 20 "error" empty_history)))
                   /\ Feedback.fb_module_name r = Feedback.ef_module_name m
                   /\ Feedback.selected None None r = true)
           modules
  end.
Proof.
  apply (X22_candidates_for_optimization_qualify None (@rev string)
           (rated 30 "effective" (rated 20 "error" empty_history)) 2 70 None 10).
  intros l. apply Permutation_sym, Permutation_rev.
Defined.

Section FeedbackPyRates.

Import Feedback.

Lemma filter_two_in_one {X} (p q s : X -> bool) (l : list X) :
  (forall x, p x = true -> s x = true) ->
  (forall x, q x = true -> s x = true) ->
  (forall x, p x = true -> q x = false) ->
  (List.length (filter p l) + List.length (filter q l)
   <= List.length (filter s l))%nat.
Proof.
  intros Ps Qs D. induction l as [|x l IH]; simpl; [lia|].
  destruct (p x) eqn:P.
  - rewrite (Ps x P), (D x P). simpl. lia.
  - destruct (q x) eqn:Q.
    + rewrite (Qs x Q). simpl. lia.
    + destruct (s x); simpl; lia.
Qed.

Lemma filter_in_one {X} (p s : X -> bool) (l : list X) :
  (forall x, p x = true -> s x = true) ->
  (List.length (filter p l) <= List.length (filter s l))%nat.
Proof.
  intros Ps. induction l as [|x l IH]; simpl; [lia|].
  destruct (p x) eqn:P.
  - rewrite (Ps x P). simpl. lia.
  - destruct (s x); simpl; lia.
Qed.

Lemma ratio_percent (a b : Z) :
  (0 <= a <= b)%Z -> (0 < b)%Z ->
  0 <= inject_Z a / inject_Z b * 100 /\ inject_Z a / inject_Z b * 100 <= 100.
Proof.
  intros A B.
  assert (Bq : 0 < inject_Z b).
  { change 0 with (inject_Z 0). rewrite <- Zlt_Qlt. exact B. }
  assert (L : 0 <= inject_Z a / inject_Z b).
  { apply Qle_shift_div_l; [exact Bq|]. rewrite Qmult_0_l.
    change 0 with (inject_Z 0). rewrite <- Zle_Qle. lia. }
  assert (U : inject_Z a / inject_Z b <= 1).
  { apply Qle_shift_div_r; [exact Bq|]. rewrite Qmult_1_l, <- Zle_Qle. lia. }
  split; lra.
Qed.


End FeedbackPyRates.

(** X23, calculate_optimization_success_rate of feedback.py.  The call
    never raises, also with no run stored: the rate is divided by the
    total only when that is positive.  It fails exactly when the storage
    layer does.  Otherwise the runs above the threshold and the
    regressions are each at most the total of the successful runs, and
    together at most that total when the threshold is not negative; the
    successful and the failed runs together do not exceed the stored runs;
    the success rate is successful / total * 100, between 0 and 100, and 0
    when there is no successful run. *)
Theorem X23_success_rate_is_a_percentage (io : option string)
    (db : Feedback.database) (threshold : Q) :
  match Feedback.calculate_optimization_success_rate io db threshold with
  | Raise _ => False
  | Ok (Feedback.RateFailed error) =>
      exists e, io = Some e
                /\ error = "Error calculating optimization success rate: " ++ e
  | Ok (Feedback.Rate r) =>
      io = None
      /\ (0 <= Feedback.successful_optimizations r
          <= Feedback.total_optimizations r)%Z
      /\ (0 <= Feedback.regression_count r <= Feedback.total_optimizations r)%Z
      /\ (0 <= threshold ->
          (Feedback.successful_optimizations r + Feedback.regression_count r
           <= Feedback.total_optimizations r)%Z)
      /\ (0 <= Feedback.failed_attempts r)%Z
      /\ (Feedback.total_optimizations r + Feedback.failed_attempts r
          <= len (Feedback.optimization_history db))%Z
      /\ 0 <= Feedback.success_rate r /\ Feedback.success_rate r <= 100
      /\ (Feedback.total_optimizations r = 0%Z -> Feedback.success_rate r = 0)
      /\ ((0 < Feedback.total_optimizations r)%Z ->
          Feedback.success_rate r
          == inject_Z (Feedback.successful_optimizations r)
             / inject_Z (Feedback.total_optimizations r) * 100)
      /\ Feedback.sr_threshold r = threshold
  end.
Proof.
  unfold Feedback.calculate_optimization_success_rate.
  destruct io as [e|]; [exists e; split; reflexivity|].
  unfold Feedback.count_runs.
  set (H := Feedback.optimization_history db).
  set (s1 := fun h => (Feedback.h_success h =? 1)%Z).
  set (p1 := fun h => (Feedback.h_success h =? 1)%Z
                      && negb (lt (Feedback.h_improvement h) threshold)).
  set (p2 := fun h => (Feedback.h_success h =? 1)%Z
                      && lt (Feedback.h_improvement h) 0).
  set (s0 := fun h => (Feedback.h_success h =? 0)%Z).
  assert (P1 : forall x, p1 x = true -> s1 x = true).
  { intros x. unfold p1, s1. rewrite andb_true_iff. tauto. }
  assert (P2 : forall x, p2 x = true -> s1 x = true).
  { intros x. unfold p2, s1. rewrite andb_true_iff. tauto. }
  pose proof (filter_in_one p1 s1 H P1) as B1.
  pose proof (filter_in_one p2 s1 H P2) as B2.
  assert (D : forall x, s1 x = true -> s0 x = false).
  { intros x. unfold s1, s0. rewrite Z.eqb_eq, Z.eqb_neq. lia. }
  pose proof (filter_disjoint_length s1 s0 H D) as B3.
  assert (B4 : 0 <= threshold ->
               (List.length (filter p1 H) + List.length (filter p2 H)
                <= List.length (filter s1 H))%nat).
  { intros T. apply filter_two_in_one; [exact P1 | exact P2|].
    intros x. unfold p1, p2. rewrite andb_true_iff.
    intros [_ A]. apply negb_true_iff, Qlt_bool_false_iff in A.
    destruct (Feedback.h_success x =? 1)%Z; [|reflexivity]. simpl.
    apply Qlt_bool_false_iff. lra. }
  destruct (0 <? Z.of_nat (List.length (filter s1 H)))%Z eqn:E.
  - apply Z.ltb_lt in E. rewrite div_pos
      by (change 0 with (inject_Z 0); rewrite <- Zlt_Qlt; exact E).
    cbn [bind]. cbn [Feedback.total_optimizations Feedback.successful_optimizations
                     Feedback.regression_count Feedback.failed_attempts
                     Feedback.success_rate Feedback.sr_threshold].
    destruct (ratio_percent (Z.of_nat (List.length (filter p1 H)))
                (Z.of_nat (List.length (filter s1 H)))) as [R0 R1]; [lia | lia|].
    unfold len. fold H.
    split; [reflexivity|]. split; [lia|]. split; [lia|].
    split; [intros T; specialize (B4 T); lia|].
    split; [lia|]. split; [lia|]. split; [exact R0|]. split; [exact R1|].
    split; [lia|]. split; [reflexivity | reflexivity].
  - apply Z.ltb_ge in E. cbn [bind].
    cbn [Feedback.total_optimizations Feedback.successful_optimizations
         Feedback.regression_count Feedback.failed_attempts
         Feedback.success_rate Feedback.sr_threshold].
    unfold len. fold H.
    split; [reflexivity|]. split; [lia|]. split; [lia|].
    split; [intros T; specialize (B4 T); lia|].
    split; [lia|]. split; [lia|]. split; [lra|]. split; [lra|].
    split; [reflexivity|]. split; [lia | reflexivity].
Qed.


(** ** scripts/context/context_feedback.py: the queries *)

Section ContextFeedbackQueries.

Import ContextFeedback.

Lemma context_newer_feedback_key (a b : feedback_row) :
  newer_feedback a b = true <-> (fb_timestamp b <= fb_timestamp a)%Z.
Proof. unfold newer_feedback. apply Z.leb_le. Qed.

Lemma context_newer_run_key (a b : optimization_row) :
  newer_run a b = true <-> (opt_timestamp b <= opt_timestamp a)%Z.
Proof. unfold newer_run. apply Z.leb_le. Qed.

Lemma for_target_same (t : string) : for_target (Some t) t = true.
Proof.
  unfold for_target. destruct (given (Some t)); [apply String.eqb_refl | reflexivity].
Qed.

Lemma filter_snoc_true {X} (p : X -> bool) (l : list X) (x : X) :
  p x = true -> filter p (l ++ [x]) = (filter p l ++ [x])%list.
Proof.
  intros H. rewrite filter_app. simpl. rewrite H. reflexivity.
Qed.

(** The row a successful [add_feedback] stores. *)
Lemma add_feedback_row (e : env) (db : database) (module_name target_model : string)
    (score : score_arg) (comment : option string) (source : string)
    (row : feedback_row) :
  fst (add_feedback e db module_name target_model score comment source)
  = Success row ->
  fb_module_name row = module_name /\ fb_target_model row = target_model
  /\ fb_timestamp row = now e /\ (1 <= fb_score row <= 10)%Z
  /\ snd (add_feedback e db module_name target_model score comment source)
     = {| feedback := (feedback db ++ [row])%list;
          optimization_results := optimization_results db |}.
Proof.
  unfold add_feedback.
  destruct (String.eqb module_name "" || String.eqb target_model "");
    [discriminate|].
  destruct (valid_score score) as [z|] eqn:V; [|discriminate].
  apply valid_score_some in V. destruct V as (_ & L & U).
  destruct (io e); [discriminate|].
  destruct (existsb _ _); [discriminate|].
  cbn [fst snd]. intros H. injection H as <-. cbn.
  repeat split; assumption.
Qed.

End ContextFeedbackQueries.

(** X25, add_feedback followed by get_module_feedback in
    context_feedback.py.  An entry that add_feedback stores at a time
    later than that of every stored entry is the first row that a
    following get_module_feedback returns, both when it asks for the
    entry's module and model and when it asks for everything, whatever the
    limit, unless the limit is 0. *)
Theorem X25_added_feedback_is_returned_first (e e' : ContextFeedback.env)
    (scan_order : list ContextFeedback.feedback_row
                  -> list ContextFeedback.feedback_row)
    (db : ContextFeedback.database) (module_name target_model : string)
    (score : ContextFeedback.score_arg) (comment : option string)
    (source : string) (limit : Z) (row : ContextFeedback.feedback_row)
    (Horder : forall l, Permutation (scan_order l) l)
    (Hquiet : ContextFeedback.io e' = None)
    (Hlimit : limit <> 0%Z)
    (Hadded : fst (ContextFeedback.add_feedback e db module_name target_model
                     score comment source)
              = ContextFeedback.Success row)
    (Hlater : forall r, In r (ContextFeedback.feedback db) ->
                (ContextFeedback.fb_timestamp r < ContextFeedback.now e)%Z) :
  let db' := snd (ContextFeedback.add_feedback e db module_name target_model
                    score comment source) in
  (exists rest,
      ContextFeedback.get_module_feedback e' scan_order db'
        (Some module_name) (Some target_model) limit
      = ContextFeedback.Success (row :: rest))
  /\ (exists rest,
        ContextFeedback.get_module_feedback e' scan_order db' None None limit
        = ContextFeedback.Success (row :: rest)).
Proof.
  cbn zeta.
  destruct (add_feedback_row _ _ _ _ _ _ _ _ Hadded) as (Em & Et & En & _ & ->).
  unfold ContextFeedback.get_module_feedback. rewrite Hquiet.
  cbn [ContextFeedback.feedback].
  rewrite !filter_snoc_true
    by (rewrite ?Em, ?Et, ?for_target_same; reflexivity).
  split.
  - destruct (latest_row_first ContextFeedback.fb_timestamp
                ContextFeedback.newer_feedback context_newer_feedback_key
                scan_order limit
                (filter (fun r =>
                           ContextFeedback.for_target (Some module_name)
                             (ContextFeedback.fb_module_name r)
                           && ContextFeedback.for_target (Some target_model)
                                (ContextFeedback.fb_target_model r))
                        (ContextFeedback.feedback db))
                row Horder Hlimit) as [rest E].
    + intros y I. apply filter_In in I. rewrite En. apply Hlater, I.
    + exists rest. rewrite E. reflexivity.
  - destruct (latest_row_first ContextFeedback.fb_timestamp
                ContextFeedback.newer_feedback context_newer_feedback_key
                scan_order limit
                (filter (fun r =>
                           ContextFeedback.for_target None
                             (ContextFeedback.fb_module_name r)
                           && ContextFeedback.for_target None
                                (ContextFeedback.fb_target_model r))
                        (ContextFeedback.feedback db))
                row Horder Hlimit) as [rest E].
    + intros y I. apply filter_In in I. rewrite En. apply Hlater, I.
    + exists rest. rewrite E. reflexivity.
Qed.

Lemma X25_feedback_added_on_day_100 :
  (exists rest,
      ContextFeedback.get_module_feedback day_100 (@rev ContextFeedback.feedback_row)
        (snd (ContextFeedback.add_feedback day_100 never_optimized "doc" "claude"
                (ContextFeedback.IntScore 7) None "user"))
        (Some "doc") (Some "claude") 10
      = ContextFeedback.Success
          ({| ContextFeedback.fb_id := "u1"; ContextFeedback.fb_module_name := "doc";
              ContextFeedback.fb_target_model := "claude";
              ContextFeedback.fb_score := 7; ContextFeedback.fb_comment := None;
              ContextFeedback.fb_source := "user";
              ContextFeedback.fb_timestamp := ContextFeedback.now day_100 |}
           :: rest))
  /\ (exists rest,
        ContextFeedback.get_module_feedback day_100 (@rev ContextFeedback.feedback_row)
          (snd (ContextFeedback.add_feedback day_100 never_optimized "doc" "claude"
                  (ContextFeedback.IntScore 7) None "user"))
          None None 10
        = ContextFeedback.Success
            ({| ContextFeedback.fb_id := "u1"; ContextFeedback.fb_module_name := "doc";
                ContextFeedback.fb_target_model := "claude";
                ContextFeedback.fb_score := 7; ContextFeedback.fb_comment := None;
                ContextFeedback.fb_source := "user";
                ContextFeedback.fb_timestamp := ContextFeedback.now day_100 |}
             :: rest)).
Proof.
  apply (X25_added_feedback_is_returned_first day_100 day_100
           (@rev ContextFeedback.feedback_row) never_optimized "doc" "claude"
           (ContextFeedback.IntScore 7) None "user" 10).
  - intros l. apply Permutation_sym, Permutation_rev.
  - reflexivity.
  - discriminate.
  - reflexivity.
  - intros r I. simpl in I.
    repeat (destruct I as [<-|I]; [reflexivity|]). destruct I.
Defined.

(** X26, get_module_feedback and get_optimization_results of
    context_feedback.py.  Each fails exactly when the storage layer
    raises, with that error.  Otherwise the rows are stored rows that pass
    both filters, the newest first, at most as many as the limit when that
    is 0 or more; with a negative limit every stored row that passes both
    filters is returned. *)
Theorem X26_context_queries_return_the_newest_rows (e : ContextFeedback.env)
    (scan_feedback : list ContextFeedback.feedback_row
                     -> list ContextFeedback.feedback_row)
    (scan_runs : list ContextFeedback.optimization_row
                 -> list ContextFeedback.optimization_row)
    (db : ContextFeedback.database) (module_name target_model : option string)
    (limit : Z)
    (Hfeedback : forall l, Permutation (scan_feedback l) l)
    (Hruns : forall l, Permutation (scan_runs l) l) :
  match ContextFeedback.get_module_feedback e scan_feedback db module_name
          target_model limit with
  | ContextFeedback.Failure error => ContextFeedback.io e = Some error
  | ContextFeedback.Success rows =>
      ContextFeedback.io e = None
      /\ ((0 <= limit)%Z -> (len rows <= limit)%Z)
      /\ StronglySorted
           (fun a b => (ContextFeedback.fb_timestamp b
                        <= ContextFeedback.fb_timestamp a)%Z) rows
      /\ Forall (fun r => In r (ContextFeedback.feedback db)
                          /\ passes module_name (ContextFeedback.fb_module_name r)
                          /\ passes target_model (ContextFeedback.fb_target_model r))
                rows
      /\ ((limit < 0)%Z ->
          forall r, In r (ContextFeedback.feedback db) ->
                    passes module_name (ContextFeedback.fb_module_name r) ->
                    passes target_model (ContextFeedback.fb_target_model r) ->
                    In r rows)
  end
  /\ match ContextFeedback.get_optimization_results e scan_runs db module_name
             target_model limit with
     | ContextFeedback.Failure error => ContextFeedback.io e = Some error
     | ContextFeedback.Success rows =>
         ContextFeedback.io e = None
         /\ ((0 <= limit)%Z -> (len rows <= limit)%Z)
         /\ StronglySorted
              (fun a b => (ContextFeedback.opt_timestamp b
                           <= ContextFeedback.opt_timestamp a)%Z) rows
         /\ Forall (fun r => In r (ContextFeedback.optimization_results db)
                             /\ passes module_name (ContextFeedback.opt_module_name r)
                             /\ passes target_model
                                  (ContextFeedback.opt_target_model r))
                   rows
         /\ ((limit < 0)%Z ->
             forall r, In r (ContextFeedback.optimization_results db) ->
                       passes module_name (ContextFeedback.opt_module_name r) ->
                       passes target_model (ContextFeedback.opt_target_model r) ->
                       In r rows)
     end.
Proof.
  unfold ContextFeedback.get_module_feedback,
    ContextFeedback.get_optimization_results, passes.
  destruct (ContextFeedback.io e) as [err|]; [split; reflexivity|].
  split.
  - set (l := filter (fun r =>
                        ContextFeedback.for_target module_name
                          (ContextFeedback.fb_module_name r)
                        && ContextFeedback.for_target target_model
                             (ContextFeedback.fb_target_model r))
                     (ContextFeedback.feedback db)).
    destruct (limited_selection ContextFeedback.fb_timestamp
                ContextFeedback.newer_feedback context_newer_feedback_key
                scan_feedback limit l Hfeedback) as (S & I & B & A).
    split; [reflexivity|]. split; [exact B|]. split; [exact S|]. split.
    + apply Forall_forall. intros r Ir. specialize (I r Ir). subst l.
      apply filter_In in I. destruct I as [I E].
      apply andb_true_iff in E. tauto.
    + intros L r Ir H1 H2. apply (Permutation_in _ (Permutation_sym (A L))).
      subst l. apply filter_In. split; [exact Ir|]. rewrite H1, H2. reflexivity.
  - set (l := filter (fun r =>
                        ContextFeedback.for_target module_name
                          (ContextFeedback.opt_module_name r)
                        && ContextFeedback.for_target target_model
                             (ContextFeedback.opt_target_model r))
                     (ContextFeedback.optimization_results db)).
    destruct (limited_selection ContextFeedback.opt_timestamp
                ContextFeedback.newer_run context_newer_run_key
                scan_runs limit l Hruns) as (S & I & B & A).
    split; [reflexivity|]. split; [exact B|]. split; [exact S|]. split.
    + apply Forall_forall. intros r Ir. specialize (I r Ir). subst l.
      apply filter_In in I. destruct I as [I E].
      apply andb_true_iff in E. tauto.
    + intros L r Ir H1 H2. apply (Permutation_in _ (Permutation_sym (A L))).
      subst l. apply filter_In. split; [exact Ir|]. rewrite H1, H2. reflexivity.
Qed.

Lemma X26_newest_rows_of_the_sample_store :
  match ContextFeedback.get_module_feedback day_100
          (@rev ContextFeedback.feedback_row) optimized_5_days_ago
          (Some "doc") None 3 with
  | ContextFeedback.Failure error => ContextFeedback.io day_100 = Some error
  | ContextFeedback.Success rows =>
      ContextFeedback.io day_100 = None
      /\ ((0 <= 3)%Z -> (len rows <= 3)%Z)
      /\ StronglySorted
           (fun a b => (ContextFeedback.fb_timestamp b
                        <= ContextFeedback.fb_timestamp a)%Z) rows
      /\ Forall (fun r => In r (ContextFeedback.feedback optimized_5_days_ago)
                          /\ passes (Some "doc") (ContextFeedback.fb_module_name r)
                          /\ passes None (ContextFeedback.fb_target_model r))
                rows
      /\ ((3 < 0)%Z ->
          forall r, In r (ContextFeedback.feedback optimized_5_days_ago) ->
                    passes (Some "doc") (ContextFeedback.fb_module_name r) ->
                    passes None (ContextFeedback.fb_target_model r) ->
                    In r rows)
  end
  /\ match ContextFeedback.get_optimization_results day_100
             (@rev ContextFeedback.optimization_row) optimized_5_days_ago
             (Some "doc") None 3 with
     | ContextFeedback.Failure error => ContextFeedback.io day_100 = Some error
     | ContextFeedback.Success rows =>
         ContextFeedback.io day_100 = None
         /\ ((0 <= 3)%Z -> (len rows <= 3)%Z)
         /\ StronglySorted
              (fun a b => (ContextFeedback.opt_timestamp b
                           <= ContextFeedback.opt_timestamp a)%Z) rows
         /\ Forall (fun r =>
                      In r (ContextFeedback.optimization_results optimized_5_days_ago)
                      /\ passes (Some "doc") (ContextFeedback.opt_module_name r)
                      /\ passes None (ContextFeedback.opt_target_model r))
                   rows
         /\ ((3 < 0)%Z ->
             forall r,
               In r (ContextFeedback.optimization_results optimized_5_days_ago) ->
               passes (Some "doc") (ContextFeedback.opt_module_name r) ->
               passes None (ContextFeedback.opt_target_model r) ->
               In r rows)
     end.
Proof.
  apply (X26_context_queries_return_the_newest_rows day_100
           (@rev ContextFeedback.feedback_row)
           (@rev ContextFeedback.optimization_row) optimized_5_days_ago
           (Some "doc") None 3).
  - intros l. apply Permutation_sym, Permutation_rev.
  - intros l. apply Permutation_sym, Permutation_rev.
Defined.

(** X27, calculate_optimization_success_rate of context_feedback.py.
    An error of the storage layer gives a failure result.  When no run is
    stored for the requested model the call fails as well: the count of
    successful runs is then None, and comparing it with 0 raises the
    TypeError whose text the result carries.  Otherwise the call succeeds:
    total is the number of selected runs, improved is at most successful
    and successful at most total, and the two rates are percentages
    between 0 and 100, the improvement rate being 0 when no run
    succeeded. *)
Theorem X27_success_rate_needs_a_run (e : ContextFeedback.env)
    (db : ContextFeedback.database) (target_model : option string)
    (min_improvement : Q) :
  (forall err, ContextFeedback.io e = Some err ->
     ContextFeedback.calculate_optimization_success_rate e db target_model
       min_improvement
     = ContextFeedback.Failure err)
  /\ (ContextFeedback.io e = None -> runs_for db target_model = [] ->
      ContextFeedback.calculate_optimization_success_rate e db target_model
        min_improvement
      = ContextFeedback.Failure
          "'>' not supported between instances of 'NoneType' and 'int'")
  /\ (ContextFeedback.io e = None -> runs_for db target_model <> [] ->
      exists r,
        ContextFeedback.calculate_optimization_success_rate e db target_model
          min_improvement
        = ContextFeedback.Success r
        /\ ContextFeedback.total_optimizations r = len (runs_for db target_model)
        /\ (0 <= ContextFeedback.improved_optimizations r
            <= ContextFeedback.successful_optimizations r)%Z
        /\ (ContextFeedback.successful_optimizations r
            <= ContextFeedback.total_optimizations r)%Z
        /\ 0 <= ContextFeedback.success_rate r
        /\ ContextFeedback.success_rate r <= 100
        /\ 0 <= ContextFeedback.improvement_rate r
        /\ ContextFeedback.improvement_rate r <= 100
        /\ (ContextFeedback.successful_optimizations r = 0%Z ->
            ContextFeedback.improvement_rate r == 0)
        /\ ContextFeedback.sr_target_model r = target_model).
Proof.
  unfold ContextFeedback.calculate_optimization_success_rate.
  fold (runs_for db target_model).
  split; [intros err ->; reflexivity|].
  split; [intros -> ->; reflexivity|].
  intros -> N.
  destruct (runs_for db target_model) as [|r0 rows0] eqn:R; [contradiction|].
  set (rows := r0 :: rows0).
  pose proof (filter_length_bound ContextFeedback.succeeded rows) as B1.
  assert (B2 : (List.length (filter (ContextFeedback.improved_by min_improvement) rows)
                <= List.length (filter ContextFeedback.succeeded rows))%nat).
  { apply filter_in_one. intros x. unfold ContextFeedback.improved_by.
    rewrite andb_true_iff. tauto. }
  assert (T : (0 < Z.of_nat (List.length rows))%Z) by (subst rows; simpl; lia).
  replace (0 <? Z.of_nat (List.length rows))%Z with true
    by (symmetry; apply Z.ltb_lt; exact T).
  rewrite div_pos by (change 0 with (inject_Z 0); rewrite <- Zlt_Qlt; exact T).
  cbn [bind].
  destruct (ratio_percent (Z.of_nat (List.length
                                      (filter ContextFeedback.succeeded rows)))
              (Z.of_nat (List.length rows))) as [S0 S1]; [lia | lia|].
  destruct (round2_bounds _ S0 S1) as [RS0 RS1].
  destruct (0 <? Z.of_nat (List.length (filter ContextFeedback.succeeded rows)))%Z
    eqn:E.
  - apply Z.ltb_lt in E.
    rewrite div_pos by (change 0 with (inject_Z 0); rewrite <- Zlt_Qlt; exact E).
    cbn [bind].
    destruct (ratio_percent
                (Z.of_nat (List.length
                             (filter (ContextFeedback.improved_by min_improvement)
                                     rows)))
                (Z.of_nat (List.length (filter ContextFeedback.succeeded rows))))
      as [I0 I1]; [lia | lia|].
    destruct (round2_bounds _ I0 I1) as [RI0 RI1].
    eexists. split; [reflexivity|].
    cbn [ContextFeedback.total_optimizations
         ContextFeedback.successful_optimizations
         ContextFeedback.improved_optimizations ContextFeedback.success_rate
         ContextFeedback.improvement_rate ContextFeedback.sr_target_model].
    split; [reflexivity|]. split; [lia|]. split; [lia|].
    split; [exact RS0|]. split; [exact RS1|].
    split; [exact RI0|]. split; [exact RI1|].
    split; [lia | reflexivity].
  - apply Z.ltb_ge in E. cbn [bind].
    eexists. split; [reflexivity|].
    cbn [ContextFeedback.total_optimizations
         ContextFeedback.successful_optimizations
         ContextFeedback.improved_optimizations ContextFeedback.success_rate
         ContextFeedback.improvement_rate ContextFeedback.sr_target_model].
    split; [reflexivity|]. split; [lia|]. split; [lia|].
    split; [exact RS0|]. split; [exact RS1|].
    split; [discriminate|]. split; [discriminate|].
    split; [reflexivity | reflexivity].
Qed.

(** ** scripts/context/context_feedback.py: the candidates and the range
    of the effectiveness *)

Section ContextFeedbackCandidates.

Import ContextFeedback.









End ContextFeedbackCandidates.


Section ContextFeedbackRange.

Import ContextFeedback.

(** Rounding to the nearest integer stays between two integers that
    enclose the number. *)
Lemma round_half_even_between (y : Q) (A B : Z) :
  inject_Z A <= y -> y <= inject_Z B ->
  (A <= round_half_even y)%Z /\ (round_half_even y <= B)%Z.
Proof.
  intros L U. unfold round_half_even.
  pose proof (Qfloor_le y) as F1.
  pose proof (Qlt_floor y) as F2.
  set (f := Qfloor y) in *.
  assert (FA : (A <= f)%Z).
  { assert (H : inject_Z A < inject_Z (f + 1)) by lra.
    rewrite <- Zlt_Qlt in H. lia. }
  assert (FB : (f <= B)%Z).
  { rewrite Zle_Qle. lra. }
  assert (Up : 1 # 2 <= y - inject_Z f -> (f + 1 <= B)%Z).
  { intro R. assert (H : inject_Z f < inject_Z B) by lra.
    rewrite <- Zlt_Qlt in H. lia. }
  destruct (Qlt_bool (y - inject_Z f) (1 # 2)) eqn:C.
  - split; assumption.
  - apply Qlt_bool_false_iff in C.
    destruct (Qlt_bool (1 # 2) (y - inject_Z f)).
    + split; [lia | apply Up, C].
    + destruct (Z.even f); [split; assumption | split; [lia | apply Up, C]].
Qed.

Lemma round2_between (x : Q) (A B : Z) :
  inject_Z A <= x -> x <= inject_Z B ->
  inject_Z A <= round2 x /\ round2 x <= inject_Z B.
Proof.
  intros L U. unfold round2.
  destruct (round_half_even_between (x * 100) (A * 100) (B * 100)) as [P R].
  - rewrite inject_Z_mult. change (inject_Z 100) with 100. lra.
  - rewrite inject_Z_mult. change (inject_Z 100) with 100. lra.
  - rewrite Zle_Qle, inject_Z_mult in P, R.
    change (inject_Z 100) with 100 in P, R.
    split.
    + apply Qle_shift_div_l; [reflexivity | exact P].
    + apply Qle_shift_div_r; [reflexivity | exact R].
Qed.

Lemma sum_scores_bounds (rows : list feedback_row) :
  Forall (fun r => (1 <= fb_score r <= 10)%Z) rows ->
  (Z.of_nat (List.length rows) <= sum_scores rows
   <= 10 * Z.of_nat (List.length rows))%Z.
Proof.
  induction 1 as [|r rows H F IH]; [simpl; lia|].
  cbn [sum_scores fold_right List.length]. fold (sum_scores rows). lia.
Qed.

Lemma mean_score_bounds (rows : list feedback_row) :
  rows <> [] ->
  Forall (fun r => (1 <= fb_score r <= 10)%Z) rows ->
  1 <= mean_score rows /\ mean_score rows <= 10.
Proof.
  intros N F. pose proof (sum_scores_bounds rows F) as [L U].
  unfold mean_score.
  assert (P : 0 < inject_Z (Z.of_nat (List.length rows))).
  { change 0 with (inject_Z 0). rewrite <- Zlt_Qlt.
    destruct rows; [contradiction | simpl; lia]. }
  split.
  - apply Qle_shift_div_l; [exact P|]. rewrite Qmult_1_l, <- Zle_Qle. exact L.
  - apply Qle_shift_div_r; [exact P|].
    change 10 with (inject_Z 10). rewrite <- inject_Z_mult, <- Zle_Qle. exact U.
Qed.

Lemma effectiveness_of_bounds (avg : Q) :
  1 <= avg -> avg <= 10 ->
  0 <= effectiveness_of avg /\ effectiveness_of avg <= 100.
Proof.
  intros L U. unfold effectiveness_of.
  assert (A : 0 <= (avg - 1) / 9) by (apply Qle_shift_div_l; lra).
  assert (B : (avg - 1) / 9 <= 1) by (apply Qle_shift_div_r; lra).
  split; lra.
Qed.

End ContextFeedbackRange.

(** X29, add_feedback, add_optimization_result and
    calculate_module_effectiveness of context_feedback.py.  In a store
    whose scores all lie between 1 and 10, both write operations keep it
    so, whether they succeed or fail, and for every module that has
    feedback the reported mean score lies between 1 and 10 and the
    reported effectiveness between 0 and 100. *)
Theorem X29_effectiveness_is_a_percentage (e : ContextFeedback.env)
    (db : ContextFeedback.database) (Hscores : scores_in_range db) :
  (forall e' module_name target_model score comment source,
     scores_in_range
       (snd (ContextFeedback.add_feedback e' db module_name target_model score
               comment source)))
  /\ (forall e' module_name target_model evaluation_result applied,
        scores_in_range
          (snd (ContextFeedback.add_optimization_result e' db module_name
                  target_model evaluation_result applied)))
  /\ (forall module_name target_model,
        ContextFeedback.io e = None ->
        ContextFeedback.feedback_of db module_name target_model <> [] ->
        exists rep avg eff,
          ContextFeedback.calculate_module_effectiveness e db module_name
            target_model
          = ContextFeedback.Success rep
          /\ ContextFeedback.avg_score rep = Some avg
          /\ ContextFeedback.effectiveness rep = Some eff
          /\ 1 <= avg /\ avg <= 10 /\ 0 <= eff /\ eff <= 100).
Proof.
  split; [|split].
  - intros e' module_name target_model score comment source.
    destruct (ContextFeedback.add_feedback e' db module_name target_model score
                comment source) as [[row|msg] db'] eqn:A.
    + assert (Hrow : fst (ContextFeedback.add_feedback e' db module_name
                            target_model score comment source)
                     = ContextFeedback.Success row) by (rewrite A; reflexivity).
      destruct (add_feedback_row _ _ _ _ _ _ _ _ Hrow) as (_ & _ & _ & R & E).
      rewrite A in E. cbn [snd] in *. rewrite E.
      unfold scores_in_range. cbn [ContextFeedback.feedback].
      apply Forall_app. split; [exact Hscores|]. constructor; [exact R | constructor].
    + destruct (add_feedback_spec e' db module_name target_model score comment
                  source) as (_ & _ & F & _).
      rewrite A in F. cbn [fst snd] in *. rewrite (F msg eq_refl). exact Hscores.
  - intros e' module_name target_model evaluation_result applied.
    destruct (ContextFeedback.add_optimization_result e' db module_name
                target_model evaluation_result applied) as [[row|msg] db'] eqn:A.
    + destruct (add_optimization_result_spec e' db module_name target_model
                  evaluation_result applied) as (_ & S & _).
      rewrite A in S. cbn [fst snd] in S.
      destruct (S row eq_refl) as (_ & _ & _ & _ & _ & F).
      cbn [snd]. unfold scores_in_range. rewrite F. exact Hscores.
    + destruct (add_optimization_result_spec e' db module_name target_model
                  evaluation_result applied) as (_ & _ & F & _).
      rewrite A in F. cbn [fst snd] in *. rewrite (F msg eq_refl). exact Hscores.
  - intros module_name target_model Hio Hne.
    unfold ContextFeedback.calculate_module_effectiveness. rewrite Hio.
    assert (Fs : Forall (fun r => (1 <= ContextFeedback.fb_score r <= 10)%Z)
                        (ContextFeedback.feedback_of db module_name target_model)).
    { apply Forall_forall. intros r I. unfold ContextFeedback.feedback_of in I.
      apply filter_In in I. destruct I as [I _].
      unfold scores_in_range in Hscores. rewrite Forall_forall in Hscores.
      apply Hscores, I. }
    destruct (mean_score_bounds _ Hne Fs) as [M1 M10].
    destruct (effectiveness_of_bounds _ M1 M10) as [E0 E100].
    destruct (ContextFeedback.feedback_of db module_name target_model)
      as [|r0 df] eqn:DF; [contradiction|].
    eexists. eexists. eexists. split; [reflexivity|].
    cbn [ContextFeedback.avg_score ContextFeedback.effectiveness].
    split; [reflexivity|]. split; [reflexivity|].
    destruct (round2_between _ 1 10 M1 M10) as [A1 A10].
    destruct (round2_bounds _ E0 E100) as [B0 B100].
    repeat split; assumption.
Qed.

Lemma X29_the_sample_store_has_scores_in_range :
  (forall e' module_name target_model score comment source,
     scores_in_range
       (snd (ContextFeedback.add_feedback e' never_optimized module_name
               target_model score comment source)))
  /\ (forall e' module_name target_model evaluation_result applied,
        scores_in_range
          (snd (ContextFeedback.add_optimization_result e' never_optimized
                  module_name target_model evaluation_result applied)))
  /\ (forall module_name target_model,
        ContextFeedback.io day_100 = None ->
        ContextFeedback.feedback_of never_optimized module_name target_model <> [] ->
        exists rep avg eff,
          ContextFeedback.calculate_module_effectiveness day_100 never_optimized
            module_name target_model
          = ContextFeedback.Success rep
          /\ ContextFeedback.avg_score rep = Some avg
          /\ ContextFeedback.effectiveness rep = Some eff
          /\ 1 <= avg /\ avg <= 10 /\ 0 <= eff /\ eff <= 100).
Proof.
  apply (X29_effectiveness_is_a_percentage day_100 never_optimized).
  unfold scores_in_range. simpl.
  repeat constructor; discriminate.
Defined.
